(** * netpipefs: the distributed pipe engine of [src/netpipe.c]

    A shallow embedding of the per-pipe state machine (buffer, remote
    credit, reader/writer counters, pending request lists) together with
    the properties stated about it.

    Conventions of the embedding.
    - [size_t] values are integers in [0, 2^64) and every arithmetic step
      on them is followed by the wrap-around [size_t]; [int] counters wrap
      in 32 bits ([int]); a [size_t] returned as [ssize_t] is reinterpreted
      by [ssize_t].
    - A [struct netpipe *] is represented by the path under which the pipe
      is stored in the open files table; dereferencing the pointer of a
      pipe that was freed is the outcome [Fault].
    - A [netpipe_req_t *] is an index into the store [requests]; the
      linked list threaded through [next] is the list of these indices,
      head first.
    - Every call starts by taking the mutex of its pipe; the code it runs
      between taking the lock and releasing it (by unlock or by
      [pthread_cond_wait]) is one atomic transition.  A call that returns
      without releasing the mutex yields [DoneLocked].  The outcomes
      given for a call are those of a call that finds the mutex free; in
      the running system ([step]) a call on a pipe whose mutex was left
      held never gets past [netpipe_lock].  The pthread primitives and
      [malloc] are taken to succeed.
    - A function that may sleep on a condition variable yields [Wait]
      with the loop condition and the code that follows the loop. *)

From Stdlib Require Import ZArith Lia.
From Stdlib Require Import Strings.Byte.
From stdpp Require Import base gmap strings list.

Open Scope Z_scope.

(** ** Machine integers *)

Definition size_t (z : Z) : Z := z mod 2 ^ 64.

Definition ssize_t (z : Z) : Z := (z + 2 ^ 63) mod 2 ^ 64 - 2 ^ 63.

Definition int (z : Z) : Z := (z + 2 ^ 31) mod 2 ^ 32 - 2 ^ 31.

(** Constants of <fcntl.h> and <errno.h> (Linux values). *)
Definition O_RDONLY : Z := 0.
Definition O_WRONLY : Z := 1.
Definition O_RDWR : Z := 2.
Definition NOT_OPEN : Z := -1.

Definition EPERM : Z := 1.
Definition ENOENT : Z := 2.
Definition EAGAIN : Z := 11.
Definition EPIPE : Z := 32.
Definition ECONNRESET : Z := 104.

(** ** Caller memory

    A [char *] is the list of the bytes found from that address on.
    Reading past the end of the list yields zero bytes. *)

Definition mem_read (m : list byte) (n : Z) : list byte :=
  take (Z.to_nat n) (m ++ replicate (Z.to_nat n - length m) x00).

(** [bufptr += n] *)
Definition mem_advance (m : list byte) (n : Z) : list byte :=
  drop (Z.to_nat n) m.

(** ** Circular buffer *)

(** Modelled from the spec: include/cbuf.h and its implementation are not
    part of the sources.  "Fixed-capacity FIFO of bytes with non-blocking
    put, get, size/empty/full queries"; "put returns 0 when full; get
    returns 0 when empty". *)
Record cbuf := {
  cb_capacity : Z;
  cb_data : list byte
}.

(** Modelled from the spec: [cbuf_alloc], a buffer of the given capacity
    holding nothing. *)
Definition cbuf_alloc (capacity : Z) : cbuf :=
  {| cb_capacity := capacity; cb_data := [] |}.

(** Modelled from the spec: the "size/empty/full queries". *)
Definition cbuf_size (b : cbuf) : Z := Z.of_nat (length (cb_data b)).

Definition cbuf_capacity (b : cbuf) : Z := cb_capacity b.

Definition cbuf_empty (b : cbuf) : bool := cbuf_size b =? 0.

Definition cbuf_full (b : cbuf) : bool := cb_capacity b <=? cbuf_size b.

(** The room left in the buffer. *)
Definition cbuf_free (b : cbuf) : Z := Z.max 0 (cb_capacity b - cbuf_size b).

(** Modelled from the spec: [cbuf_put(b, src, n)] appends as many of the
    [n] bytes as fit and returns their number ("put returns 0 when
    full"). *)
Definition cbuf_put (b : cbuf) (src : list byte) (n : Z) : cbuf * Z :=
  let k := Z.min n (cbuf_free b) in
  ({| cb_capacity := cb_capacity b; cb_data := cb_data b ++ mem_read src k |}, k).

(** Modelled from the spec: [cbuf_get(b, dst, n)] removes up to [n] bytes
    from the front and returns them with their number ("get returns 0
    when empty"). *)
Definition cbuf_get (b : cbuf) (n : Z) : cbuf * list byte * Z :=
  let k := Z.min n (cbuf_size b) in
  ({| cb_capacity := cb_capacity b; cb_data := drop (Z.to_nat k) (cb_data b) |},
   take (Z.to_nat k) (cb_data b), k).

(** ** Requests and pipes *)

(** [netpipe_req_t].  For a write request [req_buf] is the caller memory
    holding the bytes still to be written, from [buf] on.  For a read
    request [req_buf] is the part of the caller's buffer filled so far,
    [buf[0 .. bytes_processed)]: the code only ever stores at
    [buf + bytes_processed]. *)
Record netpipe_req := {
  req_buf : list byte;
  req_bytes_processed : Z;
  req_size : Z;
  req_error : Z
}.

Record netpipe := {
  path : string;
  open_mode : Z;
  force_exit : bool;
  writers : Z;
  readers : Z;
  remotemax : Z;
  remotesize : Z;
  buffer : cbuf;
  poll_handles : list nat;
  wr_req : list nat;
  rd_req : list nat
}.

Definition set_open_mode (f : netpipe) (v : Z) : netpipe :=
  {| path := path f; open_mode := v; force_exit := force_exit f;
     writers := writers f; readers := readers f; remotemax := remotemax f;
     remotesize := remotesize f; buffer := buffer f;
     poll_handles := poll_handles f; wr_req := wr_req f; rd_req := rd_req f |}.

Definition set_force_exit (f : netpipe) (v : bool) : netpipe :=
  {| path := path f; open_mode := open_mode f; force_exit := v;
     writers := writers f; readers := readers f; remotemax := remotemax f;
     remotesize := remotesize f; buffer := buffer f;
     poll_handles := poll_handles f; wr_req := wr_req f; rd_req := rd_req f |}.

Definition set_writers (f : netpipe) (v : Z) : netpipe :=
  {| path := path f; open_mode := open_mode f; force_exit := force_exit f;
     writers := v; readers := readers f; remotemax := remotemax f;
     remotesize := remotesize f; buffer := buffer f;
     poll_handles := poll_handles f; wr_req := wr_req f; rd_req := rd_req f |}.

Definition set_readers (f : netpipe) (v : Z) : netpipe :=
  {| path := path f; open_mode := open_mode f; force_exit := force_exit f;
     writers := writers f; readers := v; remotemax := remotemax f;
     remotesize := remotesize f; buffer := buffer f;
     poll_handles := poll_handles f; wr_req := wr_req f; rd_req := rd_req f |}.

Definition set_remotemax (f : netpipe) (v : Z) : netpipe :=
  {| path := path f; open_mode := open_mode f; force_exit := force_exit f;
     writers := writers f; readers := readers f; remotemax := v;
     remotesize := remotesize f; buffer := buffer f;
     poll_handles := poll_handles f; wr_req := wr_req f; rd_req := rd_req f |}.

Definition set_remotesize (f : netpipe) (v : Z) : netpipe :=
  {| path := path f; open_mode := open_mode f; force_exit := force_exit f;
     writers := writers f; readers := readers f; remotemax := remotemax f;
     remotesize := v; buffer := buffer f;
     poll_handles := poll_handles f; wr_req := wr_req f; rd_req := rd_req f |}.

Definition set_buffer (f : netpipe) (v : cbuf) : netpipe :=
  {| path := path f; open_mode := open_mode f; force_exit := force_exit f;
     writers := writers f; readers := readers f; remotemax := remotemax f;
     remotesize := remotesize f; buffer := v;
     poll_handles := poll_handles f; wr_req := wr_req f; rd_req := rd_req f |}.

Definition set_poll_handles (f : netpipe) (v : list nat) : netpipe :=
  {| path := path f; open_mode := open_mode f; force_exit := force_exit f;
     writers := writers f; readers := readers f; remotemax := remotemax f;
     remotesize := remotesize f; buffer := buffer f;
     poll_handles := v; wr_req := wr_req f; rd_req := rd_req f |}.

Definition set_wr_req (f : netpipe) (v : list nat) : netpipe :=
  {| path := path f; open_mode := open_mode f; force_exit := force_exit f;
     writers := writers f; readers := readers f; remotemax := remotemax f;
     remotesize := remotesize f; buffer := buffer f;
     poll_handles := poll_handles f; wr_req := v; rd_req := rd_req f |}.

Definition set_rd_req (f : netpipe) (v : list nat) : netpipe :=
  {| path := path f; open_mode := open_mode f; force_exit := force_exit f;
     writers := writers f; readers := readers f; remotemax := remotemax f;
     remotesize := remotesize f; buffer := buffer f;
     poll_handles := poll_handles f; wr_req := wr_req f; rd_req := v |}.

(** [available_remote(file)]: how many bytes can be sent to the remote
    host; a [size_t] subtraction. *)
Definition available_remote (f : netpipe) : Z :=
  size_t (remotemax f - remotesize f).

(** ** The peer channel and the observable effects *)

Inductive condvar := cv_canopen | cv_wr | cv_rd.

(** Messages of include/netpipefs_socket.h, by the function that sends
    them: [send_open_message], [send_close_message], [send_write_message]
    and [send_flush_message] (both WRITE), [send_read_request_message],
    [send_read_message] (READ-UPDATE). *)
Inductive msg :=
| OPEN (p : string) (mode : Z)
| CLOSE (p : string) (mode : Z)
| WRITE (p : string) (data : list byte)
| READ_REQUEST (p : string) (n : Z)
| READ (p : string) (n : Z).

(** What the channel answers to one send. *)
Inductive reply :=
| Delivered (count : positive)
| Lost
| Failed (errno : Z).

(** Effects in the order they happen.  [EvSend] records the message handed
    to the channel, the channel's answer, and the pipe's [remotesize] and
    [remotemax] at that moment. *)
Inductive event :=
| EvSend (m : msg) (r : reply) (rsize rmax : Z)
| EvBroadcast (p : string) (cv : condvar)
| EvPollNotify (ph : nat)
| EvPollDestroy (ph : nat).

(** The shared state: the open files table, the heap of requests (with
    the index of the next one to allocate), the channel ([replies]: what
    it answers to the n-th send; [inbound]: the bytes waiting on the
    socket), the effects so far, the two capacities exchanged in the
    handshake, and [fresh_memory n]: what a block obtained from [malloc]
    holds before anything is written to it, when [n] requests have been
    allocated. *)
Record world := {
  open_files : gmap string netpipe;
  requests : gmap nat netpipe_req;
  next_request : nat;
  replies : nat -> reply;
  sock_calls : nat;
  inbound : list byte;
  trace : list event;
  pipecapacity : Z;
  remotepipecapacity : Z;
  fresh_memory : nat -> list byte
}.

Definition set_open_files (w : world) (v : gmap string netpipe) : world :=
  {| open_files := v; requests := requests w; next_request := next_request w;
     replies := replies w; sock_calls := sock_calls w; inbound := inbound w;
     trace := trace w; pipecapacity := pipecapacity w;
     remotepipecapacity := remotepipecapacity w;
     fresh_memory := fresh_memory w |}.

Definition set_requests (w : world) (v : gmap nat netpipe_req) : world :=
  {| open_files := open_files w; requests := v; next_request := next_request w;
     replies := replies w; sock_calls := sock_calls w; inbound := inbound w;
     trace := trace w; pipecapacity := pipecapacity w;
     remotepipecapacity := remotepipecapacity w;
     fresh_memory := fresh_memory w |}.

Definition set_next_request (w : world) (v : nat) : world :=
  {| open_files := open_files w; requests := requests w; next_request := v;
     replies := replies w; sock_calls := sock_calls w; inbound := inbound w;
     trace := trace w; pipecapacity := pipecapacity w;
     remotepipecapacity := remotepipecapacity w;
     fresh_memory := fresh_memory w |}.

Definition set_sock_calls (w : world) (v : nat) : world :=
  {| open_files := open_files w; requests := requests w;
     next_request := next_request w;
     replies := replies w; sock_calls := v; inbound := inbound w;
     trace := trace w; pipecapacity := pipecapacity w;
     remotepipecapacity := remotepipecapacity w;
     fresh_memory := fresh_memory w |}.

Definition set_inbound (w : world) (v : list byte) : world :=
  {| open_files := open_files w; requests := requests w;
     next_request := next_request w;
     replies := replies w; sock_calls := sock_calls w; inbound := v;
     trace := trace w; pipecapacity := pipecapacity w;
     remotepipecapacity := remotepipecapacity w;
     fresh_memory := fresh_memory w |}.

Definition set_trace (w : world) (v : list event) : world :=
  {| open_files := open_files w; requests := requests w;
     next_request := next_request w;
     replies := replies w; sock_calls := sock_calls w; inbound := inbound w;
     trace := v; pipecapacity := pipecapacity w;
     remotepipecapacity := remotepipecapacity w;
     fresh_memory := fresh_memory w |}.

Definition emit (w : world) (e : event) : world :=
  set_trace w (trace w ++ [e]).

(** Writing the working copy of a pipe back to the table: what the
    stores through [file->] amount to once the mutex is released. *)
Definition store (f : netpipe) (w : world) : world :=
  set_open_files w (<[path f := f]> (open_files w)).

Definition pthread_cond_broadcast (f : netpipe) (cv : condvar) (w : world) : world :=
  emit w (EvBroadcast (path f) cv).

(** Modelled from the spec: the sending functions of
    include/netpipefs_socket.h are not part of the sources.  "Any send
    returning <= 0 ... is treated as connection loss"; a delivered WRITE
    returns the number of payload bytes ("bytes_sent will be set with how
    many bytes were sent", do_send), any other delivered message a
    positive count.  The second component is the value the socket layer
    leaves in [errno], if any. *)
Definition sock_send (f : netpipe) (m : msg) (w : world) : Z * option Z * world :=
  let r := replies w (sock_calls w) in
  let w' := emit (set_sock_calls w (S (sock_calls w)))
                 (EvSend m r (remotesize f) (remotemax f)) in
  match r with
  | Delivered c =>
      (match m with WRITE _ d => Z.of_nat (length d) | _ => Z.pos c end, None, w')
  | Lost => (0, None, w')
  | Failed e => (-1, Some e, w')
  end.

Definition send_open_message (f : netpipe) (p : string) (mode : Z) (w : world) :=
  sock_send f (OPEN p mode) w.

Definition send_close_message (f : netpipe) (p : string) (mode : Z) (w : world) :=
  sock_send f (CLOSE p mode) w.

Definition send_write_message (f : netpipe) (bufptr : list byte) (n : Z) (w : world) :=
  sock_send f (WRITE (path f) (mem_read bufptr n)) w.

Definition send_read_message (f : netpipe) (n : Z) (w : world) :=
  sock_send f (READ (path f) n) w.

Definition send_read_request_message (f : netpipe) (n : Z) (w : world) :=
  sock_send f (READ_REQUEST (path f) n) w.

(** Modelled from the spec: [send_flush_message] is not part of the
    sources.  "attempt to drain up to min(buffer.size, remote_max -
    remote_size) bytes from local buffer to peer via WRITE messages": the
    [n] bytes at the front of the pipe's buffer are the payload, and leave
    the buffer when the message is delivered. *)
Definition send_flush_message (f : netpipe) (n : Z) (w : world)
  : Z * option Z * netpipe * world :=
  let '(b', data, _) := cbuf_get (buffer f) n in
  let '(bytes, e, w') := sock_send f (WRITE (path f) data) w in
  (bytes, e, if 0 <? bytes then set_buffer f b' else f, w').

(** Modelled from the spec: [readn] is not part of the sources.  "any
    receive returning <= 0 is treated as connection loss": the [n] bytes
    are returned when the stream holds them, 0 otherwise. *)
Definition readn (n : Z) (w : world) : Z * list byte * world :=
  if (0 <? n) && (n <=? Z.of_nat (length (inbound w)))
  then (n, take (Z.to_nat n) (inbound w),
        set_inbound w (drop (Z.to_nat n) (inbound w)))
  else (0, [], w).

(** Modelled from the spec: [cbuf_readn] is not part of the sources.
    "reads up to n bytes from a descriptor directly into contiguous free
    space"; "return 0 indicates peer closed". *)
Definition cbuf_readn (b : cbuf) (n : Z) (w : world) : Z * cbuf * world :=
  let '(k, data, w') := readn (Z.min n (cbuf_free b)) w in
  (k, {| cb_capacity := cb_capacity b; cb_data := cb_data b ++ data |}, w').

(** ** Calls that may sleep *)

(** What a call hands back: the C return value and the value left in
    [errno] when the call assigned it ([None]: untouched). *)
Record result (V : Type) := Result { ret : V; errno : option Z }.
Arguments Result {V} _ _.
Arguments ret {V} _.
Arguments errno {V} _.

(** [Done w r]: the call returned [r], leaving the world [w] and the
    mutex of its pipe released (or destroyed with the pipe).
    [Fault]: the call used a pipe or a request that is not there.
    [Wait w p cv waiting k]: the call has released the mutex of pipe [p],
    having left the world [w]: it sleeps on the condition variable [cv],
    or, when [cv] is [None], is between an unlock and the next lock.  It
    may go on, as [k w'], in any later world [w'] where the loop condition
    [waiting w'] is false.
    [DoneLocked w p r]: the call returned [r], leaving the world [w],
    without releasing the mutex of pipe [p].
    [Stuck w p]: the call has left the world [w] and never returns: it
    waits in [netpipe_lock] for the mutex of pipe [p], which its own
    thread holds. *)
Inductive outcome (A : Type) : Type :=
| Done (w : world) (a : A)
| Fault
| Wait (w : world) (p : string) (cv : option condvar)
       (waiting : world -> bool) (k : world -> outcome A)
| DoneLocked (w : world) (p : string) (a : A)
| Stuck (w : world) (p : string).
Arguments Done {A} _ _.
Arguments Fault {A}.
Arguments Wait {A} _ _ _ _ _.
Arguments DoneLocked {A} _ _ _.
Arguments Stuck {A} _ _.

Definition with_file {A} (w : world) (p : string)
    (k : netpipe -> outcome A) : outcome A :=
  match open_files w !! p with
  | Some f => k f
  | None => Fault
  end.

(** [while (cond) pthread_cond_wait(cv, mtx);] followed by [k]. *)
Definition wait_while {A} (f : netpipe) (w : world) (cv : condvar)
    (cond : netpipe -> world -> bool)
    (k : netpipe -> world -> outcome A) : outcome A :=
  if cond f w
  then Wait (store f w) (path f) (Some cv)
         (fun w' => match open_files w' !! path f with
                    | Some f' => cond f' w'
                    | None => false
                    end)
         (fun w' => with_file w' (path f) (fun f' => k f' w'))
  else k f w.

(** [netpipe_unlock(file); ... netpipe_lock(file);]: other threads may run
    in between. *)
Definition unlocked {A} (f : netpipe) (w : world)
    (k : world -> outcome A) : outcome A :=
  Wait (store f w) (path f) None (fun _ => false) k.

(** [r = call(...); netpipe_lock(file);] followed by [g]: once the call
    [o] on pipe [p] has returned, the caller takes the mutex of [p] and
    goes on with [g].  Other threads may run before it gets the mutex;
    when [o] returned with the mutex held, [netpipe_lock] never returns
    (the mutex of [netpipe_alloc] is a default one). *)
Fixpoint lock_after {A B} (o : outcome A) (p : string)
    (g : world -> A -> outcome B) : outcome B :=
  match o with
  | Done w a => Wait w p None (fun _ => false) (fun w' => g w' a)
  | Fault => Fault
  | Wait w q cv waiting k =>
      Wait w q cv waiting (fun w' => lock_after (k w') p g)
  | DoneLocked w q _ => Stuck w q
  | Stuck w q => Stuck w q
  end.

(** The worlds a call may find when it takes the mutex again, having
    left the world [w]: the other threads have only added to the trace
    (lemma [reachable_follows]). *)
Definition follows (w w' : world) : Prop := trace w `prefix_of` trace w'.


(** ** The open files table ([src/openfiles.c])

    The table is the hash table of [openfiles.c], keyed by path;
    [netpipefs_get_or_create_open_file] is taken with the two arguments
    [netpipe.c] calls it with, and allocates with [netpipe_alloc]. *)

Definition netpipe_alloc (w : world) (p : string) : netpipe :=
  {| path := p; open_mode := NOT_OPEN; force_exit := false;
     writers := 0; readers := 0;
     remotemax := remotepipecapacity w; remotesize := 0;
     buffer := cbuf_alloc (pipecapacity w);
     poll_handles := []; wr_req := []; rd_req := [] |}.

Definition netpipefs_get_or_create_open_file (w : world) (p : string)
  : netpipe * bool * world :=
  match open_files w !! p with
  | Some f => (f, false, w)
  | None => let f := netpipe_alloc w p in (f, true, store f w)
  end.

Definition netpipefs_get_open_file (w : world) (p : string) : option netpipe :=
  open_files w !! p.

Definition netpipefs_remove_open_file (w : world) (p : string) : Z * world :=
  match open_files w !! p with
  | Some _ => (0, set_open_files w (delete p (open_files w)))
  | None => (-1, w)
  end.

(** [netpipe_free]: the poll handles are destroyed, the requests still in
    the two lists are freed, and so is the pipe. *)
Definition netpipe_free (f : netpipe) (w : world) : world :=
  let w1 := foldl (fun w0 ph => emit w0 (EvPollDestroy ph)) w (poll_handles f) in
  let w2 := set_requests w1
              (foldr delete (requests w1) (rd_req f ++ wr_req f)) in
  set_open_files w2 (delete (path f) (open_files w2)).

(** ** Requests *)

Definition netpipe_add_request (f : netpipe) (w : world) (buf : list byte)
    (size mode : Z) : nat * netpipe * world :=
  let new_req := next_request w in
  let w' := set_next_request
              (set_requests w
                 (<[new_req := {| req_buf := buf; req_bytes_processed := 0;
                                  req_size := size; req_error := 0 |}]>
                    (requests w)))
              (S new_req) in
  if mode =? O_RDONLY
  then (new_req, set_rd_req f (new_req :: rd_req f), w')
  else (new_req, set_wr_req f (new_req :: wr_req f), w').

(** [free(request)] *)
Definition free_request (w : world) (r : nat) : world :=
  set_requests w (delete r (requests w)).

(** ** Opening *)

(** The label [error:] of [netpipe_open]: the mutex is released only
    when the pipe was just created. *)
Definition open_error (f : netpipe) (w : world) (just_created : bool)
    (e : option Z) : outcome (result (option string)) :=
  if just_created
  then let '(_, w1) := netpipefs_remove_open_file w (path f) in
       Done (netpipe_free f w1) (Result None e)
  else DoneLocked (store f w) (path f) (Result None e).

Definition undo_open (f : netpipe) (w : world) (mode : Z)
    (just_created : bool) (e : option Z) : outcome (result (option string)) :=
  let f' :=
    if mode =? O_RDONLY then
      let f1 := set_readers f (int (readers f - 1)) in
      if readers f1 =? 0 then set_open_mode f1 NOT_OPEN else f1
    else if mode =? O_WRONLY then
      let f1 := set_writers f (int (writers f - 1)) in
      if writers f1 =? 0 then set_open_mode f1 NOT_OPEN else f1
    else f in
  open_error f' w just_created e.

Definition netpipe_open (w : world) (p : string) (mode : Z) (nonblock : bool)
  : outcome (result (option string)) :=
  if mode =? O_RDWR then Done w (Result None (Some EPERM)) else
  let '(f, just_created, w) := netpipefs_get_or_create_open_file w p in
  if force_exit f then open_error f w just_created (Some ENOENT) else
  if negb (open_mode f =? -1) && negb (open_mode f =? mode)
  then open_error f w just_created (Some EPERM) else
  let f :=
    if mode =? O_RDONLY then set_readers f (int (readers f + 1))
    else if mode =? O_WRONLY then set_writers f (int (writers f + 1))
    else f in
  if nonblock && ((readers f =? 0) || (writers f =? 0))
  then undo_open f w mode just_created (Some EAGAIN) else
  let w := pthread_cond_broadcast f cv_canopen w in
  let '(bytes, e, w) := send_open_message f p mode w in
  if bytes <=? 0 then undo_open f w mode just_created e else
  let f := set_open_mode f mode in
  wait_while f w cv_canopen
    (fun f _ => negb (force_exit f) && ((readers f =? 0) || (writers f =? 0)))
    (fun f w =>
       if force_exit f then undo_open f w mode just_created (Some ENOENT)
       else Done (store f w) (Result (Some p) None)).

Definition netpipe_open_update (w : world) (p : string) (mode : Z)
  : outcome (result (option string)) :=
  if mode =? O_RDWR then Done w (Result None (Some EPERM)) else
  let '(f, just_created, w) := netpipefs_get_or_create_open_file w p in
  let f :=
    if mode =? O_RDONLY then set_readers f (int (readers f + 1))
    else if mode =? O_WRONLY then set_writers f (int (writers f + 1))
    else f in
  let w := pthread_cond_broadcast f cv_canopen w in
  Done (store f w) (Result (Some p) None).

(** ** Moving bytes *)

(** [do_send]: returns the status, [*bytes_sent], the [errno] left by the
    socket layer, and the new state. *)
Definition do_send (f : netpipe) (w : world) (bufptr : list byte) (size : Z)
  : Z * Z * option Z * netpipe * world :=
  let bytes_sent := if size <? available_remote f then size else available_remote f in
  if bytes_sent =? 0 then (1, bytes_sent, None, f, w) else
  let '(bytes, e, w) := send_write_message f bufptr bytes_sent w in
  let bytes := int bytes in
  if bytes <=? 0 then (bytes, bytes_sent, e, f, w) else
  let bytes_sent := size_t bytes in
  (1, bytes_sent, e, set_remotesize f (size_t (remotesize f + bytes_sent)), w).

Definition do_flush (f : netpipe) (w : world)
  : Z * Z * option Z * netpipe * world :=
  let available_locally := cbuf_size (buffer f) in
  let bytes_sent :=
    if available_locally <? available_remote f
    then available_locally else available_remote f in
  if bytes_sent =? 0 then (1, bytes_sent, None, f, w) else
  let '(bytes, e, f', w) := send_flush_message f bytes_sent w in
  let bytes := int bytes in
  if bytes <=? 0 then (bytes, bytes_sent, e, f', w) else
  let bytes_sent := size_t bytes in
  (1, bytes_sent, e, set_remotesize f' (size_t (remotesize f' + bytes_sent)), w).

(** [do_buffered_read]: the bytes taken from the buffer are returned next
    to [*bytes_read]. *)
Definition do_buffered_read (f : netpipe) (w : world) (size : Z)
  : Z * Z * list byte * option Z * netpipe * world :=
  let '(b, data, bytes_read) := cbuf_get (buffer f) size in
  let f := set_buffer f b in
  if bytes_read =? 0 then (1, bytes_read, data, None, f, w) else
  let '(bytes, e, w) := send_read_message f bytes_read w in
  if bytes <=? 0 then (bytes, bytes_read, data, e, f, w) else
  (1, bytes_read, data, e, f, w).

Definition loop_poll_notify (f : netpipe) (w : world) : netpipe * world :=
  (set_poll_handles f [],
   foldl (fun w0 ph => emit w0 (EvPollNotify ph)) w (poll_handles f)).

(** [while (cond) body], where the body may leave the function ([inl]).
    [None]: the iterations allowed by [fuel] did not reach the end of the
    loop. *)
Fixpoint while {S R : Type} (fuel : nat) (cond : S -> bool)
    (body : S -> R + S) (s : S) : option (R + S) :=
  match fuel with
  | O => None
  | Datatypes.S n =>
      if cond s then
        match body s with
        | inl r => Some (inl r)
        | inr s' => while n cond body s'
        end
      else Some (inr s)
  end.

(** The wake-up condition shared by the three request loops:
    [!file->force_exit && request->bytes_processed != remaining &&
     !request->error]. *)
Definition request_pending (request : nat) (remaining : Z)
    (f : netpipe) (w : world) : bool :=
  match requests w !! request with
  | Some rq =>
      negb (force_exit f)
      && negb (req_bytes_processed rq =? remaining)
      && (req_error rq =? 0)
  | None => false
  end.

(** ** netpipe_send *)

(** The code of [netpipe_send] after the wait loop; [sent] counts the
    bytes of the direct send and of the writeahead. *)
Definition netpipe_send_wake (sent : Z) (request : nat)
    (f : netpipe) (w : world) : outcome (result Z) :=
  match requests w !! request with
  | None => Fault
  | Some rq =>
      let '(sent, e) :=
        if (req_bytes_processed rq =? 0)
           && (force_exit f || negb (req_error rq =? 0))
        then (size_t (-1),
              Some (if negb (req_error rq =? 0) then req_error rq else EPIPE))
        else (size_t (sent + req_bytes_processed rq), None) in
      Done (free_request (store f w) request) (Result (ssize_t sent) e)
  end.

Definition netpipe_send (w : world) (p : string) (buf : list byte)
    (size : Z) (nonblock : bool) : outcome (result Z) :=
  with_file w p (fun f =>
  let bufptr := buf in
  let sent := 0 in
  if force_exit f || (readers f =? 0)
  then Done w (Result (-1) (Some EPIPE)) else
  (* Flush buffer: send data from buffer *)
  let '(err, bytes, e, f, w) := do_flush f w in
  if err <=? 0 then Done (store f w) (Result (-1) e) else
  let w := if 0 <? bytes then pthread_cond_broadcast f cv_wr w else w in
  (* Directly send data *)
  let direct :=
    if (0 <? available_remote f) && cbuf_empty (buffer f) then
      let '(err, bytes, e, f, w) := do_send f w bufptr size in
      if err <=? 0 then inl (e, f, w)
      else inr (mem_advance bufptr bytes, size_t (sent + bytes), f, w)
    else inr (bufptr, sent, f, w) in
  match direct with
  | inl (e, f, w) => Done (store f w) (Result (-1) e)
  | inr (bufptr, sent, f, w) =>
  if sent =? size then Done (store f w) (Result (ssize_t sent) None) else
  (* writeahead *)
  let '(b, bytes) := cbuf_put (buffer f) bufptr size in
  let f := set_buffer f b in
  let bufptr := mem_advance bufptr bytes in
  let sent := size_t (sent + bytes) in
  if (sent =? size) || nonblock
  then Done (store f w)
         (Result (ssize_t sent) (if sent =? 0 then Some EAGAIN else None)) else
  let remaining := size_t (size - sent) in
  let '(request, f, w) := netpipe_add_request f w bufptr remaining O_WRONLY in
  wait_while f w cv_wr (request_pending request remaining)
    (netpipe_send_wake sent request)
  end).

(** ** send_data: pushing the pending write requests *)

(** How a loop body leaves the function: with a [return], the value
    returned, the value left in [errno] and the state; or with a fault. *)
Inductive loop_exit :=
| ExitReturn (err : Z) (e : option Z) (f : netpipe) (w : world)
| ExitFault.

Record send_state := {
  ss_req : list nat;
  ss_datasent : Z;
  ss_file : netpipe;
  ss_world : world
}.

Definition add_progress (rq : netpipe_req) (data : list byte) (n : Z)
  : netpipe_req :=
  {| req_buf := req_buf rq ++ data;
     req_bytes_processed := size_t (req_bytes_processed rq + n);
     req_size := req_size rq; req_error := req_error rq |}.

Definition set_error (e : Z) (rq : netpipe_req) : netpipe_req :=
  {| req_buf := req_buf rq; req_bytes_processed := req_bytes_processed rq;
     req_size := req_size rq; req_error := e |}.

Definition send_requests_cond (s : send_state) : bool :=
  (0 <? available_remote (ss_file s))
  && match ss_req s with [] => false | _ => true end.

(** The value [PTH(err, pthread_cond_broadcast(..), ..)] leaves in [err]:
    the macro of include/utils.h is not part of the sources; it stores
    the primitive's return value, 0. *)
Definition PTH_err : Z := 0.

Definition send_requests_body (s : send_state) : loop_exit + send_state :=
  match ss_req s with
  | [] => inr s
  | r :: next =>
      match requests (ss_world s) !! r with
      | None => inl ExitFault
      | Some rq =>
          let bufptr := mem_advance (req_buf rq) (req_bytes_processed rq) in
          let remaining := size_t (req_size rq - req_bytes_processed rq) in
          let '(err, bytes, e, f, w) :=
            do_send (ss_file s) (ss_world s) bufptr remaining in
          if err <=? 0 then
            let error := if err =? 0 then ECONNRESET else default 0 e in
            let w := set_requests w (<[r := set_error error rq]> (requests w)) in
            let w := pthread_cond_broadcast f cv_wr w in
            inl (ExitReturn PTH_err e (set_wr_req f next) w)
          else
            let rq := add_progress rq [] bytes in
            let w := set_requests w (<[r := rq]> (requests w)) in
            inr {| ss_req := if req_bytes_processed rq =? req_size rq
                             then next else ss_req s;
                   ss_datasent := size_t (ss_datasent s + bytes);
                   ss_file := f; ss_world := w |}
      end
  end.

Definition writeahead_cond (s : send_state) : bool :=
  match ss_req s with [] => false | _ => true end
  && negb (cbuf_full (buffer (ss_file s))).

Definition writeahead_body (s : send_state) : loop_exit + send_state :=
  match ss_req s with
  | [] => inr s
  | r :: next =>
      match requests (ss_world s) !! r with
      | None => inl ExitFault
      | Some rq =>
          let bufptr := mem_advance (req_buf rq) (req_bytes_processed rq) in
          let remaining := size_t (req_size rq - req_bytes_processed rq) in
          let '(b, bytes) := cbuf_put (buffer (ss_file s)) bufptr remaining in
          let rq := add_progress rq [] bytes in
          let w := set_requests (ss_world s) (<[r := rq]> (requests (ss_world s))) in
          inr {| ss_req := if req_bytes_processed rq =? req_size rq
                           then next else ss_req s;
                 ss_datasent := size_t (ss_datasent s + bytes);
                 ss_file := set_buffer (ss_file s) b; ss_world := w |}
      end
  end.

(** The request at the head is not complete, and the number of bytes
    [do_send] would ask for is a multiple of [2^32]: the [int] that holds
    the count of the WRITE reads 0. *)
Definition head_stalled (s : send_state) : bool :=
  match ss_req s with
  | r :: _ =>
      match requests (ss_world s) !! r with
      | Some rq =>
          let left := size_t (req_size rq - req_bytes_processed rq) in
          negb (left =? 0)
          && (Z.min left (available_remote (ss_file s)) mod 2 ^ 32 =? 0)
      | None => false
      end
  | [] => false
  end.

(** What decreases in the first loop of [send_data]: an iteration that
    goes on has completed the request at the head, or has sent the count
    modulo [2^32] and left the head stalled.  A list of [n] requests
    needs at most [2 * n] iterations. *)
Definition send_requests_measure (s : send_state) : nat :=
  2 * length (ss_req s) - (if head_stalled s then 1 else 0).

(** [send_data]: [None] when a loop does not end, otherwise the value
    returned (a [size_t]) and the new state, or a fault. *)
Definition send_data (f : netpipe) (w : world) : option loop_exit :=
  let '(err, bytes, e, f, w) := do_flush f w in
  if err <=? 0 then Some (ExitReturn (size_t (-1)) e f w) else
  let datasent := if 0 <? bytes then bytes else 0 in
  let s := {| ss_req := wr_req f; ss_datasent := datasent;
              ss_file := f; ss_world := w |} in
  match while (S (2 * length (ss_req s))) send_requests_cond send_requests_body s with
  | None => None
  | Some (inl (ExitReturn err e f w)) => Some (ExitReturn (size_t err) e f w)
  | Some (inl ExitFault) => Some ExitFault
  | Some (inr s) =>
      let s := {| ss_req := ss_req s; ss_datasent := ss_datasent s;
                  ss_file := set_wr_req (ss_file s) (ss_req s);
                  ss_world := ss_world s |} in
      match while (S (length (ss_req s))) writeahead_cond writeahead_body s with
      | None => None
      | Some (inl x) => Some x
      | Some (inr s) =>
          let f := set_wr_req (ss_file s) (ss_req s) in
          let '(f, w) :=
            if 0 <? ss_datasent s then loop_poll_notify f (ss_world s)
            else (f, ss_world s) in
          Some (ExitReturn (ss_datasent s) None f w)
      end
  end.

(** The two dispatcher entries that change the credit and then call
    [send_data].  [err] is an [int].  The two functions assign nothing to
    [errno] themselves: it holds what a failed send inside [send_data]
    left there. *)
Definition after_send_data (o : option loop_exit) : outcome (result Z) :=
  match o with
  | None | Some ExitFault => Fault
  | Some (ExitReturn r e f w) =>
      let err := int r in
      if 0 <? err
      then Done (store f (pthread_cond_broadcast f cv_wr w)) (Result PTH_err e)
      else Done (store f w) (Result err e)
  end.

Definition netpipe_read_request (w : world) (p : string) (size : Z)
  : outcome (result Z) :=
  with_file w p (fun f =>
  let f := set_remotemax f (size_t (remotemax f + size)) in
  after_send_data (send_data f w)).

Definition netpipe_read_update (w : world) (p : string) (size : Z)
  : outcome (result Z) :=
  with_file w p (fun f =>
  let f := set_remotemax f (size_t (remotemax f - size)) in
  let f := set_remotesize f (size_t (remotesize f - size)) in
  after_send_data (send_data f w)).

(** ** netpipe_recv: the dispatcher delivers an incoming WRITE *)

Record recv_state := {
  rs_req : list nat;
  rs_wakeup : Z;
  rs_remaining : Z;
  rs_file : netpipe;
  rs_world : world
}.

Definition recv_buffered_cond (s : recv_state) : bool :=
  match rs_req s with [] => false | _ => true end
  && negb (cbuf_empty (buffer (rs_file s))).

Definition recv_buffered_body (s : recv_state) : loop_exit + recv_state :=
  match rs_req s with
  | [] => inr s
  | r :: next =>
      match requests (rs_world s) !! r with
      | None => inl ExitFault
      | Some rq =>
          let remaining := size_t (req_size rq - req_bytes_processed rq) in
          let '(err, dataread, data, e, f, w) :=
            do_buffered_read (rs_file s) (rs_world s) remaining in
          if err <=? 0 then inl (ExitReturn err e f w) else
          let rq := add_progress rq data dataread in
          let w := set_requests w (<[r := rq]> (requests w)) in
          let done := req_bytes_processed rq =? req_size rq in
          inr {| rs_req := if done then next else rs_req s;
                 rs_wakeup := if done then 1 else rs_wakeup s;
                 rs_remaining := rs_remaining s;
                 rs_file := f; rs_world := w |}
      end
  end.

Definition recv_socket_cond (s : recv_state) : bool :=
  match rs_req s with [] => false | _ => true end
  && cbuf_empty (buffer (rs_file s))
  && (0 <? rs_remaining s).

Definition recv_socket_body (s : recv_state) : loop_exit + recv_state :=
  match rs_req s with
  | [] => inr s
  | r :: next =>
      match requests (rs_world s) !! r with
      | None => inl ExitFault
      | Some rq =>
          let left := size_t (req_size rq - req_bytes_processed rq) in
          let toberead := if left <? rs_remaining s then left else rs_remaining s in
          let '(dataread, data, w) := readn toberead (rs_world s) in
          if dataread <=? 0 then inl (ExitReturn dataread None (rs_file s) w) else
          let '(err, e, w) := send_read_message (rs_file s) dataread w in
          if err <=? 0 then inl (ExitReturn err e (rs_file s) w) else
          let rq := add_progress rq data dataread in
          let w := set_requests w (<[r := rq]> (requests w)) in
          let done := req_bytes_processed rq =? req_size rq in
          inr {| rs_req := if done then next else rs_req s;
                 rs_wakeup := if done then 1 else rs_wakeup s;
                 rs_remaining := size_t (rs_remaining s - dataread);
                 rs_file := rs_file s; rs_world := w |}
      end
  end.

(** [wakeup] is declared without an initialiser: the value it holds until
    the first assignment is whatever the stack holds, the parameter
    [wakeup] here. *)
Definition netpipe_recv (wakeup : Z) (w : world) (p : string) (size : Z)
  : outcome (result Z) :=
  with_file w p (fun f =>
  (* Move data from buffer to pending requests *)
  let s := {| rs_req := rd_req f; rs_wakeup := wakeup; rs_remaining := 0;
              rs_file := f; rs_world := w |} in
  match while (S (length (rs_req s))) recv_buffered_cond recv_buffered_body s with
  | None | Some (inl ExitFault) => Fault
  | Some (inl (ExitReturn err e f w)) => Done (store f w) (Result (int err) e)
  | Some (inr s) =>
  (* Move data from socket to pending requests *)
  let s := {| rs_req := rs_req s; rs_wakeup := rs_wakeup s; rs_remaining := size;
              rs_file := set_rd_req (rs_file s) (rs_req s);
              rs_world := rs_world s |} in
  match while (S (length (rs_req s))) recv_socket_cond recv_socket_body s with
  | None | Some (inl ExitFault) => Fault
  | Some (inl (ExitReturn err e f w)) => Done (store f w) (Result (int err) e)
  | Some (inr s) =>
  let f := set_rd_req (rs_file s) (rs_req s) in
  let w := rs_world s in
  let remaining := rs_remaining s in
  (* Put remaining data from socket to the buffer (readahead) *)
  let readahead :=
    if 0 <? remaining then
      let '(dataread, b, w) := cbuf_readn (buffer f) remaining w in
      if dataread <=? 0 then inl (dataread, w) else inr (set_buffer f b, w)
    else inr (f, w) in
  match readahead with
  | inl (dataread, w) => Done (store f w) (Result (int dataread) None)
  | inr (f, w) =>
      let w := if negb (rs_wakeup s =? 0)
               then pthread_cond_broadcast f cv_rd w else w in
      let '(f, w) := loop_poll_notify f w in
      Done (store f w) (Result (int size) None)
  end
  end
  end).

(** ** netpipe_read

    The value returned is the C return value together with the bytes
    stored in the caller's buffer. *)
(** The code of [netpipe_read] after the wait loop; [read] and [data]
    are the count and the bytes of the buffered read. *)
Definition netpipe_read_wake (read : Z) (data : list byte) (request : nat)
    (f : netpipe) (w : world) : outcome (result (Z * list byte)) :=
  match requests w !! request with
  | None => Fault
  | Some rq =>
      let '(read, e) :=
        if (req_bytes_processed rq =? 0)
           && (force_exit f || negb (req_error rq =? 0))
        then
          (* if (request->error == EPIPE) read = 0;
             else if (request->error) errno = request->error;
             read = -1; *)
          let read := if req_error rq =? EPIPE then 0 else read in
          let e := if req_error rq =? EPIPE then None
                   else if negb (req_error rq =? 0) then Some (req_error rq)
                   else None in
          let read := size_t (-1) in
          (read, e)
        else (size_t (read + req_bytes_processed rq), None) in
      Done (free_request (store f w) request)
           (Result (ssize_t read, data ++ req_buf rq) e)
  end.

Definition netpipe_read (w : world) (p : string) (size : Z) (nonblock : bool)
  : outcome (result (Z * list byte)) :=
  with_file w p (fun f =>
  if force_exit f then Done w (Result (-1, []) (Some EPIPE)) else
  (* Read from buffer (readahead) *)
  let '(err, read, data, e, f, w) := do_buffered_read f w size in
  if err <=? 0 then Done (store f w) (Result (err, data) e) else
  if (read =? size) || nonblock
  then Done (store f w)
         (Result (ssize_t read, data) (if read =? 0 then Some EAGAIN else None)) else
  if writers f =? 0 then Done (store f w) (Result (0, data) None) else
  let remaining := size_t (size - read) in
  let '(request, f, w) := netpipe_add_request f w [] remaining O_RDONLY in
  let '(err, e, w) := send_read_request_message f remaining w in
  if err <=? 0
  then Done (free_request (store f w) request) (Result (err, data) e) else
  wait_while f w cv_rd (request_pending request remaining)
    (netpipe_read_wake read data request)).

(** ** netpipe_flush *)

(** The code of [netpipe_flush] after the wait loop. *)
Definition netpipe_flush_wake (datasent : Z) (request : nat)
    (f : netpipe) (w : world) : outcome (result Z) :=
  match requests w !! request with
  | None => Fault
  | Some rq =>
      let '(datasent, e) :=
        if (req_bytes_processed rq =? 0)
           && (force_exit f || negb (req_error rq =? 0))
        then (-1, Some (if negb (req_error rq =? 0)
                        then req_error rq else EPIPE))
        else (ssize_t (datasent + req_bytes_processed rq), None) in
      Done (free_request (store f w) request) (Result datasent e)
  end.

(** The buffer obtained from [malloc] for the flush request is never
    written: the request stands for whatever the block holds
    ([fresh_memory]).  [if (err <= 0) return -1;] leaves the function
    without unlocking. *)
Definition netpipe_flush (w : world) (p : string) (nonblock : bool)
  : outcome (result Z) :=
  with_file w p (fun f =>
  if force_exit f || (readers f =? 0)
  then Done w (Result (-1) (Some EPIPE)) else
  let '(err, bytes, e, f, w) := do_flush f w in
  if err <=? 0 then DoneLocked (store f w) (path f) (Result (-1) e) else
  let datasent := ssize_t bytes in
  let w := pthread_cond_broadcast f cv_wr w in
  let remaining := cbuf_size (buffer f) in
  if (remaining =? 0) || nonblock
  then Done (store f w) (Result (if datasent =? 0 then -1 else datasent) None) else
  let bufptr := fresh_memory w (next_request w) in
  let '(request, f, w) := netpipe_add_request f w bufptr remaining O_WRONLY in
  wait_while f w cv_wr (request_pending request remaining)
    (netpipe_flush_wake datasent request)).

(** ** netpipe_poll *)

Definition POLLIN : Z := 1.
Definition POLLOUT : Z := 4.
Definition POLLERR : Z := 8.
Definition POLLHUP : Z := 16.

Definition netpipe_poll (w : world) (p : string) (ph : nat) (revents : Z)
  : outcome (result (Z * Z)) :=
  with_file w p (fun f =>
  let f := set_poll_handles f (ph :: poll_handles f) in
  let revents :=
    if open_mode f =? O_RDONLY then
      if negb (cbuf_empty (buffer f)) || (0 <? writers f)
      then Z.lor revents POLLIN
      else if writers f =? 0 then Z.lor revents POLLHUP else revents
    else
      if readers f =? 0 then Z.lor revents POLLERR
      else if 0 <? size_t (available_remote f
                           + size_t (cbuf_capacity (buffer f) - cbuf_size (buffer f)))
      then Z.lor revents POLLOUT else revents in
  Done (store f w) (Result (0, revents) None)).

(** ** Closing *)

(** The value of [errno] after a call that left [e], when it held [e0]
    before. *)
Definition errno_after (e0 e : option Z) : option Z :=
  match e with
  | Some _ => e
  | None => e0
  end.

(** The part of [netpipe_close] from [send_close_message] on; [err] is
    the local variable of the same name, [e0] the value the flush left in
    [errno]. *)
Definition close_finish (f : netpipe) (w : world) (mode : Z) (err : Z)
    (e0 : option Z) : outcome (result Z) :=
  let '(bytes, e, w) := send_close_message f (path f) mode w in
  let e := errno_after e0 e in
  let err := if bytes <=? 0 then -1 else err in
  let '(err, w) :=
    if (writers f =? 0) && (readers f =? 0) then
      let '(deleted, w) := netpipefs_remove_open_file (store f w) (path f) in
      (if deleted =? -1 then -1 else err, netpipe_free f w)
    else (err, store f w) in
  if err =? -1 then Done w (Result (-1) e) else Done w (Result bytes e).

Definition netpipe_close (w : world) (p : string) (mode : Z)
  : outcome (result Z) :=
  with_file w p (fun f =>
  if mode =? O_WRONLY then
    let f := set_writers f (int (writers f - 1)) in
    if writers f =? 0 then
      (* there are no writers, then flush all data before closing *)
      unlocked f w (fun w =>
      lock_after (netpipe_flush w p false) p (fun w r =>
      with_file w p (fun f =>
      let bytes := int (ret r) in
      close_finish f w mode (if bytes <=? 0 then -1 else 0) (errno r))))
    else close_finish f w mode 0 None
  else if mode =? O_RDONLY then
    close_finish (set_readers f (int (readers f - 1))) w mode 0 None
  else close_finish f w mode 0 None).

(** [req->error = EPIPE] for every request of the list. *)
Definition fail_requests (l : list nat) (w : world) : world :=
  set_requests w (foldr (alter (set_error EPIPE)) (requests w) l).

Definition netpipe_close_update (w : world) (p : string) (mode : Z)
  : outcome (result Z) :=
  with_file w p (fun f =>
  let '(f, w) :=
    if mode =? O_WRONLY then
      let f := set_writers f (int (writers f - 1)) in
      if writers f =? 0
      then (set_rd_req f [],
            pthread_cond_broadcast f cv_rd (fail_requests (rd_req f) w))
      else (f, w)
    else if mode =? O_RDONLY then
      let f := set_readers f (int (readers f - 1)) in
      if readers f =? 0
      then (set_wr_req f [],
            pthread_cond_broadcast f cv_wr (fail_requests (wr_req f) w))
      else (f, w)
    else (f, w) in
  let '(f, w) := loop_poll_notify f w in
  if (writers f =? 0) && (readers f =? 0) then
    let '(deleted, w) := netpipefs_remove_open_file (store f w) (path f) in
    Done (netpipe_free f w) (Result (if deleted =? -1 then -1 else 0) None)
  else Done (store f w) (Result 0 None)).

Definition netpipe_force_exit (w : world) (p : string) : outcome (result Z) :=
  with_file w p (fun f =>
  let f := set_force_exit f true in
  let w := pthread_cond_broadcast f cv_canopen w in
  let w := pthread_cond_broadcast f cv_rd w in
  let w := pthread_cond_broadcast f cv_wr w in
  Done (store f w) (Result 0 None)).

(** ** The running system

    The VFS adapter and the dispatcher are the two producers of calls into
    the pipe object.  A configuration is the shared world together with
    the calls that are asleep. *)

Inductive call :=
| call_open (p : string) (mode : Z) (nonblock : bool)
| call_open_update (p : string) (mode : Z)
| call_send (p : string) (buf : list byte) (size : Z) (nonblock : bool)
| call_recv (wakeup : Z) (p : string) (size : Z)
| call_read (p : string) (size : Z) (nonblock : bool)
| call_read_request (p : string) (size : Z)
| call_read_update (p : string) (size : Z)
| call_flush (p : string) (nonblock : bool)
| call_poll (p : string) (ph : nat) (revents : Z)
| call_close (p : string) (mode : Z)
| call_close_update (p : string) (mode : Z)
| call_force_exit (p : string).

(** The value a call returns plays no part in what the system does next. *)
Fixpoint forget {A} (o : outcome A) : outcome unit :=
  match o with
  | Done w _ => Done w tt
  | Fault => Fault
  | Wait w p cv waiting k => Wait w p cv waiting (fun w' => forget (k w'))
  | DoneLocked w p _ => DoneLocked w p tt
  | Stuck w p => Stuck w p
  end.

Definition run (c : call) (w : world) : outcome unit :=
  match c with
  | call_open p mode nonblock => forget (netpipe_open w p mode nonblock)
  | call_open_update p mode => forget (netpipe_open_update w p mode)
  | call_send p buf size nonblock => forget (netpipe_send w p buf size nonblock)
  | call_recv wakeup p size => forget (netpipe_recv wakeup w p size)
  | call_read p size nonblock => forget (netpipe_read w p size nonblock)
  | call_read_request p size => forget (netpipe_read_request w p size)
  | call_read_update p size => forget (netpipe_read_update w p size)
  | call_flush p nonblock => forget (netpipe_flush w p nonblock)
  | call_poll p ph revents => forget (netpipe_poll w p ph revents)
  | call_close p mode => forget (netpipe_close w p mode)
  | call_close_update p mode => forget (netpipe_close_update w p mode)
  | call_force_exit p => forget (netpipe_force_exit w p)
  end.

(** The pipe a call works on. *)
Definition call_path (c : call) : string :=
  match c with
  | call_open p _ _ | call_open_update p _ | call_send p _ _ _
  | call_recv _ p _ | call_read p _ _ | call_read_request p _
  | call_read_update p _ | call_flush p _ | call_poll p _ _
  | call_close p _ | call_close_update p _ | call_force_exit p => p
  end.

(** A configuration: the shared world, the calls that are asleep, and
    the pipes whose mutex was left held for good. *)
Record config := {
  cf_world : world;
  cf_asleep : list (outcome unit);
  cf_locked : list string
}.

Definition settle (o : outcome unit) (asleep : list (outcome unit))
    (locked : list string) : option config :=
  match o with
  | Done w _ => Some {| cf_world := w; cf_asleep := asleep; cf_locked := locked |}
  | Wait w _ _ _ _ =>
      Some {| cf_world := w; cf_asleep := o :: asleep; cf_locked := locked |}
  | Fault => None
  | DoneLocked w p _ | Stuck w p =>
      Some {| cf_world := w; cf_asleep := asleep; cf_locked := p :: locked |}
  end.

(** One step of the system: a call is made on a pipe whose mutex is not
    held for good, and runs until it returns or releases the mutex; or a
    sleeping call whose loop condition is false takes the mutex again; or
    bytes arrive on the socket.  [allowed] restricts the calls: the system
    itself is [step any_call], where the dispatcher passes on whatever the
    peer sends. *)
Inductive step (allowed : world -> call -> Prop) : config -> config -> Prop :=
| step_call cfg c cfg' :
    allowed (cf_world cfg) c ->
    call_path c ∉ cf_locked cfg ->
    settle (run c (cf_world cfg)) (cf_asleep cfg) (cf_locked cfg) = Some cfg' ->
    step allowed cfg cfg'
| step_wake cfg i w0 p cv waiting k cfg' :
    cf_asleep cfg !! i = Some (Wait w0 p cv waiting k) ->
    waiting (cf_world cfg) = false ->
    p ∉ cf_locked cfg ->
    settle (k (cf_world cfg)) (delete i (cf_asleep cfg)) (cf_locked cfg)
      = Some cfg' ->
    step allowed cfg cfg'
| step_arrive cfg data :
    step allowed cfg
      {| cf_world := set_inbound (cf_world cfg) (inbound (cf_world cfg) ++ data);
         cf_asleep := cf_asleep cfg; cf_locked := cf_locked cfg |}.

Definition any_call (w : world) (c : call) : Prop := True.

(** A peer that keeps to the credit window: it asks for a number of bytes
    that keeps the credit a [size_t] (READ-REQUEST), and gives back only
    bytes that are in flight (READ-UPDATE).  Nothing in the code checks
    it. *)
Definition within_window (w : world) (c : call) : Prop :=
  match c with
  | call_read_request p size =>
      0 <= size /\
      forall f, open_files w !! p = Some f -> remotemax f + size < 2 ^ 64
  | call_read_update p size =>
      0 <= size /\
      forall f, open_files w !! p = Some f -> size <= remotesize f
  | _ => True
  end.

(** The system right after the handshake: no pipe is open, the peer has
    advertised [remote_cap]. *)
Definition initial (answers : nat -> reply) (garbage : nat -> list byte)
    (local_cap remote_cap : Z) : config :=
  {| cf_world := {| open_files := ∅; requests := ∅; next_request := 0;
                    replies := answers; sock_calls := 0; inbound := [];
                    trace := []; pipecapacity := size_t local_cap;
                    remotepipecapacity := size_t remote_cap;
                    fresh_memory := garbage |};
     cf_asleep := []; cf_locked := [] |}.

Inductive reachable (allowed : world -> call -> Prop) (c0 : config)
  : config -> Prop :=
| reach_start : reachable allowed c0 c0
| reach_step cfg cfg' :
    reachable allowed c0 cfg -> step allowed cfg cfg' ->
    reachable allowed c0 cfg'.


(** ** Notions used in the statements *)

(** Every pipe is stored under its own path. *)
Definition table_wf (w : world) : Prop :=
  forall p f, open_files w !! p = Some f -> path f = p.


(** The counters are [int]s. *)
Definition counters_typed (f : netpipe) : Prop :=
  - 2 ^ 31 <= readers f < 2 ^ 31 /\ - 2 ^ 31 <= writers f < 2 ^ 31.

(** A world for the examples: both ends advertise 16 bytes, every message
    is delivered. *)
Definition quiet_world : world :=
  {| open_files := ∅; requests := ∅; next_request := 0;
     replies := fun _ => Delivered 1; sock_calls := 0; inbound := [];
     trace := []; pipecapacity := 16; remotepipecapacity := 16;
     fresh_memory := fun _ => [] |}.

Definition a_pipe (p : string) : netpipe := netpipe_alloc quiet_world p.

(** A request is complete when [bytes_processed == size]. *)
Definition completed (h : gmap nat netpipe_req) (r : nat) : Prop :=
  exists rq, h !! r = Some rq /\ req_bytes_processed rq = req_size rq.

(** The requests of the list [l] were served from its head: between the
    stores [h0] and [h] a request was touched only if every request in
    front of it is complete. *)
Definition served_in_order (l : list nat) (h0 h : gmap nat netpipe_req) : Prop :=
  forall (i j : nat) (ri rj : nat),
    (i < j)%nat -> l !! i = Some ri -> l !! j = Some rj ->
    h !! rj <> h0 !! rj -> completed h ri.

(** The shape of the request loops: the loop stands at [req], a suffix of
    the list it started from; what it left behind is complete, what lies
    behind the head of [req] is untouched. *)
Definition in_order (l : list nat) (h0 h : gmap nat netpipe_req)
    (req : list nat) : Prop :=
  exists done : list nat,
    l = done ++ req
    /\ (forall r, r ∈ done -> completed h r)
    /\ (forall r, r ∈ tail req -> h !! r = h0 !! r).

(** The credit of a pipe, and the size of its buffer, are within bounds. *)
Definition credit_ok (f : netpipe) : Prop :=
  0 <= remotesize f /\ remotesize f <= remotemax f /\ remotemax f < 2 ^ 64.

Definition cbuf_ok (b : cbuf) : Prop :=
  cbuf_size b <= Z.max 0 (cb_capacity b) /\ cb_capacity b < 2 ^ 64.

Definition pipe_ok (f : netpipe) : Prop := credit_ok f /\ cbuf_ok (buffer f).

(** A WRITE was within the credit of its pipe when it was sent. *)
Definition write_ok (e : event) : Prop :=
  match e with
  | EvSend (WRITE _ data) _ rsize rmax => rsize + Z.of_nat (length data) <= rmax
  | _ => True
  end.

(** The [size] of a request is a [size_t]. *)
Definition requests_typed (h : gmap nat netpipe_req) : Prop :=
  forall r rq, h !! r = Some rq -> 0 <= req_size rq < 2 ^ 64.

Definition sound (w : world) : Prop :=
  (forall p f, open_files w !! p = Some f -> pipe_ok f)
  /\ Forall write_ok (trace w)
  /\ requests_typed (requests w)
  /\ 0 <= remotepipecapacity w < 2 ^ 64
  /\ pipecapacity w < 2 ^ 64.

(** A call keeps the worlds sound: the world it leaves when it returns or
    goes to sleep is sound, provided the world it wakes up in is. *)
Fixpoint safe {A} (o : outcome A) : Prop :=
  match o with
  | Done w _ | DoneLocked w _ _ | Stuck w _ => sound w
  | Fault => True
  | Wait w _ _ _ k => sound w /\ forall w', sound w' -> safe (k w')
  end.

Definition config_ok (cfg : config) : Prop :=
  sound (cf_world cfg) /\ Forall safe (cf_asleep cfg).

(** A call only adds to the trace: the world it leaves when it returns,
    goes to sleep or gets stuck follows [w0], and what it does once it is
    resumed in a world follows that world. *)
Fixpoint extends {A} (w0 : world) (o : outcome A) : Prop :=
  match o with
  | Done w _ | DoneLocked w _ _ | Stuck w _ => follows w0 w
  | Fault => True
  | Wait w _ _ _ k => follows w0 w /\ forall w', extends w' (k w')
  end.

Definition resumable (o : outcome unit) : Prop :=
  match o with
  | Wait _ _ _ _ k => forall w', extends w' (k w')
  | _ => True
  end.

Definition exit_extends (w0 : world) (x : loop_exit) : Prop :=
  match x with
  | ExitReturn _ _ _ w => follows w0 w
  | ExitFault => True
  end.

(** The configuration after a call, and after the sleeping call [i] has
    taken the mutex again. *)
Definition after_call (c : call) (cfg : config) : config :=
  default cfg (settle (run c (cf_world cfg)) (cf_asleep cfg) (cf_locked cfg)).

Definition after_wake (i : nat) (cfg : config) : config :=
  match cf_asleep cfg !! i with
  | Some (Wait _ _ _ _ k) =>
      default cfg (settle (k (cf_world cfg)) (delete i (cf_asleep cfg))
                     (cf_locked cfg))
  | _ => cfg
  end.

Definition faulty {A} (o : outcome A) : bool :=
  match o with
  | Fault => true
  | _ => false
  end.

(** The sleeping call [i] can take the mutex again and goes on without a
    fault. *)
Definition can_wake (i : nat) (cfg : config) : bool :=
  match cf_asleep cfg !! i with
  | Some (Wait _ p _ waiting k) =>
      negb (waiting (cf_world cfg))
      && bool_decide (p ∉ cf_locked cfg)
      && negb (faulty (k (cf_world cfg)))
  | _ => false
  end.

(** A run in which messages cross on the wire.  Both ends advertise 16
    bytes and every message is delivered.  On the local side: the OPEN of
    the peer's reader arrives; a writer opens [/p] and writes 16 bytes;
    the CLOSE of the peer's reader arrives; the writer closes (the close
    releases the mutex for the flush, takes it again, sends CLOSE and frees
    the pipe).  The peer, which still counts one writer and holds the 16
    bytes in its buffer, lets a second reader open and read them: its OPEN
    and its READ-UPDATE of 16 arrive.  Then a local writer opens [/p] and
    writes one byte. *)
Definition overrun_c0 : config :=
  initial (fun _ => Delivered 1) (fun _ => []) 16 16.
Definition overrun_c1 : config :=
  after_call (call_open_update "/p" O_RDONLY) overrun_c0.
Definition overrun_c2 : config :=
  after_call (call_open "/p" O_WRONLY false) overrun_c1.
Definition overrun_c3 : config :=
  after_call (call_send "/p" (replicate 16 x61) 16 false) overrun_c2.
Definition overrun_c4 : config :=
  after_call (call_close_update "/p" O_RDONLY) overrun_c3.
Definition overrun_c5 : config :=
  after_call (call_close "/p" O_WRONLY) overrun_c4.
Definition overrun_c6 : config := after_wake 0 overrun_c5.
Definition overrun_c7 : config := after_wake 0 overrun_c6.
Definition overrun_c8 : config :=
  after_call (call_open_update "/p" O_RDONLY) overrun_c7.
Definition overrun_c9 : config :=
  after_call (call_read_update "/p" 16) overrun_c8.
Definition overrun_c10 : config :=
  after_call (call_open "/p" O_WRONLY false) overrun_c9.
Definition overrun_c11 : config :=
  after_call (call_send "/p" [x01] 1 false) overrun_c10.

(** What the request loops keep: the working copy of the pipe and the
    world are sound. *)
Definition exit_ok (x : loop_exit) : Prop :=
  match x with
  | ExitReturn _ _ f w => pipe_ok f /\ sound w
  | ExitFault => True
  end.

Definition loop_typed (f : netpipe) (w : world) : Prop := pipe_ok f /\ sound w.

(** ** Tactics *)

(** Reduction that leaves the functions of the model folded. *)
Ltac crunch :=
  cbv beta iota zeta delta [orb andb negb fst snd pthread_cond_broadcast].

(** Reduction of the field accesses only. *)
Ltac fields :=
  cbn [open_files requests next_request replies sock_calls inbound trace
       pipecapacity remotepipecapacity
       set_open_files set_requests set_next_request set_sock_calls
       set_inbound set_trace emit store free_request
       path open_mode force_exit writers readers remotemax remotesize buffer
       poll_handles wr_req rd_req
       set_open_mode set_force_exit set_writers set_readers set_remotemax
       set_remotesize set_buffer set_poll_handles set_wr_req set_rd_req
       req_buf req_bytes_processed req_size req_error add_progress set_error
       cb_capacity cb_data ret errno fst snd].

Ltac fields_in H :=
  cbn [open_files requests next_request replies sock_calls inbound trace
       pipecapacity remotepipecapacity
       set_open_files set_requests set_next_request set_sock_calls
       set_inbound set_trace emit store free_request
       path open_mode force_exit writers readers remotemax remotesize buffer
       poll_handles wr_req rd_req
       set_open_mode set_force_exit set_writers set_readers set_remotemax
       set_remotesize set_buffer set_poll_handles set_wr_req set_rd_req
       req_buf req_bytes_processed req_size req_error add_progress set_error
       cb_capacity cb_data ret errno fst snd] in H.

Ltac unfold_ok := unfold pipe_ok, credit_ok, cbuf_ok, cbuf_size in *.

Ltac loop_fields :=
  cbn [ss_req ss_datasent ss_file ss_world
       rs_req rs_wakeup rs_remaining rs_file rs_world]; fields.

(** Evaluation of the comparisons between the open modes. *)
Ltac eval_modes :=
  change (O_RDONLY =? O_RDWR) with false;
  change (O_WRONLY =? O_RDWR) with false;
  change (O_RDONLY =? O_RDONLY) with true;
  change (O_WRONLY =? O_RDONLY) with false;
  change (O_WRONLY =? O_WRONLY) with true;
  change (O_RDONLY =? O_WRONLY) with false;
  change (NOT_OPEN =? -1) with true;
  change (O_RDONLY =? -1) with false;
  change (O_WRONLY =? -1) with false.

(** The mode of the other end of a pipe. *)
Definition other_mode (mode : Z) : Z :=
  if mode =? O_RDONLY then O_WRONLY else O_RDONLY.

(** ** The handshake ([src/main.c])

    [ipv4_address_to_array] is declared in include/utils.h, which is not
    part of the sources: it is a parameter here.  It fills the four cells
    of the array, or returns -1 ([None]). *)
Section Handshake.

Variable ipv4_address_to_array : string -> option (nat -> Z).

(** [for (int i = 0; i < 4; i++)
       if (firstaddr[i] != secondaddr[i]) return firstaddr[i] - secondaddr[i];],
    from cell [i] on, [n] cells being left; [rest] is what follows the
    loop. *)
Fixpoint hostcmp_loop (n i : nat) (firstaddr secondaddr : nat -> Z) (rest : Z)
  : Z :=
  match n with
  | O => rest
  | S n' =>
      if negb (firstaddr i =? secondaddr i)
      then int (firstaddr i - secondaddr i)
      else hostcmp_loop n' (S i) firstaddr secondaddr rest
  end.

Definition hostcmp (firsthost : string) (firstport : Z)
    (secondhost : string) (secondport : Z) : Z :=
  match ipv4_address_to_array firsthost with
  | None => 0
  | Some firstaddr =>
      match ipv4_address_to_array secondhost with
      | None => 0
      | Some secondaddr =>
          hostcmp_loop 4 0 firstaddr secondaddr (int (firstport - secondport))
      end
  end.

(** What [establish_socket_connection] does with the comparison: it keeps
    the connection it accepted, or the one it made, or gives up with
    EINVAL. *)
Inductive kept := KeepAccepted | KeepConnected | GiveUp.

Definition keep (comparison : Z) : kept :=
  if 0 <? comparison then KeepAccepted
  else if comparison <? 0 then KeepConnected
  else GiveUp.

End Handshake.

(** * Properties *)

Lemma store_same (f : netpipe) (w : world) :
  open_files w !! path f = Some f -> store f w = w.
Proof.
  intros H. destruct w. unfold store, set_open_files. simpl in *.
  f_equal. by apply insert_id.
Qed.



(** ** Machine arithmetic *)

Lemma int_id (z : Z) : - 2 ^ 31 <= z < 2 ^ 31 -> int z = z.
Proof. intros H. unfold int. rewrite Z.mod_small; lia. Qed.

Lemma int_int_add (a c : Z) : int (int a + c) = int (a + c).
Proof.
  unfold int.
  replace ((a + 2 ^ 31) mod 2 ^ 32 - 2 ^ 31 + c + 2 ^ 31)
    with ((a + 2 ^ 31) mod 2 ^ 32 + c) by lia.
  rewrite Zplus_mod_idemp_l. f_equal. f_equal. lia.
Qed.

Lemma int_incr_decr (z : Z) : - 2 ^ 31 <= z < 2 ^ 31 -> int (int (z + 1) - 1) = z.
Proof.
  intros H. replace (int (z + 1) - 1) with (int (z + 1) + -1) by lia.
  rewrite int_int_add. replace (z + 1 + -1) with z by lia. by apply int_id.
Qed.

Lemma int_range (z : Z) : - 2 ^ 31 <= int z < 2 ^ 31.
Proof. unfold int. pose proof (Z.mod_pos_bound (z + 2 ^ 31) (2 ^ 32)). lia. Qed.

Lemma int_le (z : Z) : 0 <= z -> int z <= z.
Proof.
  intros H. unfold int. pose proof (Z.mod_le (z + 2 ^ 31) (2 ^ 32)). lia.
Qed.

Lemma size_t_id (z : Z) : 0 <= z < 2 ^ 64 -> size_t z = z.
Proof. intros H. unfold size_t. apply Z.mod_small; lia. Qed.

Lemma size_t_range (z : Z) : 0 <= size_t z < 2 ^ 64.
Proof. unfold size_t. apply Z.mod_pos_bound. lia. Qed.

(** ** Opening *)

Lemma fresh_pipe_gone (w : world) (p : string) (f0 f : netpipe) :
  open_files w !! p = None ->
  path f0 = p -> path f = p ->
  poll_handles f = [] -> rd_req f = [] -> wr_req f = [] ->
  (let '(_, w1) := netpipefs_remove_open_file (store f0 w) p in
   netpipe_free f w1) = w.
Proof.
  intros Hnone Hp0 Hp Hph Hrd Hwr. destruct w as [tbl rq nx rp sc ib tr pc rc fm].
  unfold netpipefs_remove_open_file, store, netpipe_free, set_open_files,
    set_requests. simpl in *.
  rewrite Hp0, lookup_insert_eq, Hph, Hrd, Hwr, Hp. simpl.
  rewrite delete_insert_eq, delete_delete_eq.
  rewrite delete_id by done. reflexivity.
Qed.

(** C8: a nonblocking [netpipe_open] made while the other side is absent
    fails with EAGAIN and leaves the counters as they were: a pipe created
    by the call is removed again, a pipe that existed keeps its [readers]
    and [writers] (the call returns with its mutex still locked); no OPEN
    message is sent. *)
Theorem netpipe_open_nonblock_try_again (w : world) (p : string) (mode : Z) :
  table_wf w ->
  mode = O_RDONLY \/ mode = O_WRONLY ->
  match open_files w !! p with
  | None => netpipe_open w p mode true = Done w (Result None (Some EAGAIN))
  | Some f =>
      force_exit f = false ->
      open_mode f = -1 \/ open_mode f = mode ->
      counters_typed f ->
      (mode = O_RDONLY -> writers f = 0) ->
      (mode = O_WRONLY -> readers f = 0) ->
      exists f',
        netpipe_open w p mode true
        = DoneLocked (store f' w) p (Result None (Some EAGAIN))
        /\ path f' = p
        /\ readers f' = readers f /\ writers f' = writers f
  end.
Proof.
  intros Hwf Hmode.
  assert (Hrw : (mode =? O_RDWR) = false) by (destruct Hmode; subst; reflexivity).
  destruct (open_files w !! p) as [f|] eqn:Hf.
  - intros Hfe Hom [Hr Hw] Hrd Hwr.
    pose proof (Hwf _ _ Hf) as Hp.
    unfold netpipe_open, netpipefs_get_or_create_open_file.
    rewrite Hrw, Hf, Hfe.
    assert (Hchk : negb (open_mode f =? -1) && negb (open_mode f =? mode) = false).
    { destruct Hom as [-> | ->]; [reflexivity|].
      rewrite Z.eqb_refl. apply andb_false_r. }
    rewrite Hchk.
    destruct Hmode; subst mode; simpl.
    + rewrite (Hrd eq_refl). rewrite orb_true_r. unfold undo_open, open_error. simpl.
      rewrite int_incr_decr by exact Hr.
      destruct (readers f =? 0); eexists;
        (split; [cbn [path set_open_mode set_readers]; rewrite Hp; reflexivity|]);
        simpl; auto.
    + rewrite (Hwr eq_refl). simpl. unfold undo_open, open_error. simpl.
      rewrite int_incr_decr by exact Hw.
      destruct (writers f =? 0); eexists;
        (split; [cbn [path set_open_mode set_writers]; rewrite Hp; reflexivity|]);
        simpl; auto.
  - unfold netpipe_open, netpipefs_get_or_create_open_file.
    rewrite Hrw, Hf.
    destruct Hmode; subst mode; simpl; unfold undo_open, open_error; simpl.
    + pose proof (fresh_pipe_gone w p (netpipe_alloc w p)
        (set_open_mode
            (set_readers (set_readers (netpipe_alloc w p) (int (0 + 1)))
               (int (int (0 + 1) - 1))) NOT_OPEN) Hf) as Hgone.
      destruct (netpipefs_remove_open_file _ _) as [d w1].
      rewrite Hgone; reflexivity.
    + pose proof (fresh_pipe_gone w p (netpipe_alloc w p)
        (set_open_mode
            (set_writers (set_writers (netpipe_alloc w p) (int (0 + 1)))
               (int (int (0 + 1) - 1))) NOT_OPEN) Hf) as Hgone.
      destruct (netpipefs_remove_open_file _ _) as [d w1].
      rewrite Hgone; reflexivity.
Qed.

Lemma netpipe_open_nonblock_try_again_witness :
  let f := set_readers (a_pipe "/p") 1 in
  let w := store f quiet_world in
  exists f',
    netpipe_open w "/p" O_RDONLY true
    = DoneLocked (store f' w) "/p" (Result None (Some EAGAIN))
    /\ path f' = "/p" /\ readers f' = 1 /\ writers f' = 0.
Proof.
  intros f w.
  assert (Hwf : table_wf w).
  { intros p g. unfold w, store. simpl. intros H.
    apply lookup_insert_Some in H as [[<- <-] | [_ H]]; [reflexivity|].
    by rewrite lookup_empty in H. }
  pose proof (netpipe_open_nonblock_try_again w "/p" O_RDONLY Hwf (or_introl eq_refl))
    as H.
  change (open_files w !! "/p") with (Some f) in H.
  apply H; try reflexivity.
  - by left.
  - unfold counters_typed. simpl. lia.
  - discriminate.
Defined.

(** ** Sending *)

Lemma cbuf_put_nothing (b : cbuf) (src : list byte) (n : Z) :
  0 <= n -> cbuf_free b = 0 -> cbuf_put b src n = (b, 0).
Proof.
  intros Hn Hfree. unfold cbuf_put. rewrite Hfree.
  rewrite Z.min_r by lia. unfold mem_read. simpl.
  rewrite take_0, app_nil_r. by destruct b.
Qed.

Lemma set_buffer_same (f : netpipe) : set_buffer f (buffer f) = f.
Proof. by destruct f. Qed.

Lemma cbuf_size_nonneg (b : cbuf) : 0 <= cbuf_size b.
Proof. unfold cbuf_size. lia. Qed.

Lemma do_flush_no_credit (f : netpipe) (w : world) :
  available_remote f = 0 -> do_flush f w = (1, 0, None, f, w).
Proof.
  intros Havail. unfold do_flush. rewrite Havail.
  pose proof (cbuf_size_nonneg (buffer f)).
  destruct (cbuf_size (buffer f) <? 0) eqn:E; [apply Z.ltb_lt in E; lia|].
  reflexivity.
Qed.

(** C7: a nonblocking [netpipe_send] of [size > 0] bytes that can move
    nothing (the peer grants no credit, so neither the flush nor the
    direct send moves a byte, and the local buffer has no room for a
    writeahead) returns at once with [errno = EAGAIN] and a count of 0; it
    does not sleep and leaves the world as it was. *)
Theorem netpipe_send_nonblock_try_again
    (w : world) (p : string) (f : netpipe) (buf : list byte) (size : Z) :
  open_files w !! p = Some f -> path f = p ->
  force_exit f = false -> readers f <> 0 ->
  0 < size ->
  available_remote f = 0 ->
  cbuf_free (buffer f) = 0 ->
  netpipe_send w p buf size true = Done w (Result 0 (Some EAGAIN)).
Proof.
  intros Hf Hp Hfe Hrd Hsize Havail Hfree.
  unfold netpipe_send, with_file. rewrite Hf, Hfe.
  apply Z.eqb_neq in Hrd. rewrite Hrd.
  rewrite do_flush_no_credit by assumption. crunch.
  rewrite Havail.
  change (1 <=? 0) with false. change (0 <? 0) with false. crunch.
  assert (Hne : (0 =? size) = false) by (apply Z.eqb_neq; lia).
  rewrite Hne.
  rewrite cbuf_put_nothing by (lia || assumption). crunch.
  rewrite set_buffer_same.
  rewrite store_same by (by rewrite Hp).
  change (size_t (0 + 0)) with 0.
  destruct (0 =? size); reflexivity.
Qed.

Lemma netpipe_send_nonblock_try_again_witness :
  let f := set_buffer (set_remotesize (set_readers (a_pipe "/p") 1) 16)
             {| cb_capacity := 2; cb_data := [x01; x02] |} in
  let w := store f quiet_world in
  netpipe_send w "/p" [x03; x04; x05] 3 true = Done w (Result 0 (Some EAGAIN)).
Proof.
  intros f w.
  apply (netpipe_send_nonblock_try_again w "/p" f); try reflexivity.
  - discriminate.
Defined.

(** ** Flushing *)

Lemma available_remote_nonneg (f : netpipe) : 0 <= available_remote f < 2 ^ 64.
Proof. apply size_t_range. Qed.

Lemma do_flush_empty (f : netpipe) (w : world) :
  cbuf_size (buffer f) = 0 -> do_flush f w = (1, 0, None, f, w).
Proof.
  intros Hb. unfold do_flush. rewrite Hb.
  pose proof (available_remote_nonneg f) as Ha.
  destruct (0 <? available_remote f) eqn:E; [reflexivity|].
  apply Z.ltb_ge in E. replace (available_remote f) with 0 by lia. reflexivity.
Qed.

(** C5, as the code has it: on a pipe with a reader, [force_exit] unset and
    an empty buffer, [netpipe_flush] returns -1 without touching [errno]
    (no byte was flushed: [datasent ? datasent : -1]); apart from the
    broadcast of [wr] nothing changes, and a second call gives the same
    result. *)
Theorem netpipe_flush_empty_buffer
    (w : world) (p : string) (f : netpipe) (nonblock : bool) :
  open_files w !! p = Some f -> path f = p ->
  force_exit f = false -> readers f <> 0 ->
  cbuf_size (buffer f) = 0 ->
  let w' := emit w (EvBroadcast p cv_wr) in
  netpipe_flush w p nonblock = Done w' (Result (-1) None)
  /\ open_files w' = open_files w
  /\ requests w' = requests w
  /\ sock_calls w' = sock_calls w
  /\ netpipe_flush w' p nonblock
     = Done (emit w' (EvBroadcast p cv_wr)) (Result (-1) None).
Proof.
  intros Hf Hp Hfe Hrd Hb w'.
  apply Z.eqb_neq in Hrd.
  assert (Hflush : forall w0, open_files w0 !! p = Some f ->
            netpipe_flush w0 p nonblock
            = Done (emit w0 (EvBroadcast p cv_wr)) (Result (-1) None)).
  { intros w0 Hf0. unfold netpipe_flush, with_file. rewrite Hf0, Hfe, Hrd.
    rewrite do_flush_empty by assumption. crunch.
    change (1 <=? 0) with false. crunch. rewrite Hb.
    change (0 =? 0) with true. crunch.
    change (ssize_t 0 =? 0) with true. crunch.
    rewrite store_same by (by rewrite Hp). by rewrite Hp. }
  repeat split.
  - by apply Hflush.
  - by apply Hflush.
Qed.

Lemma netpipe_flush_empty_buffer_witness :
  let f := set_readers (a_pipe "/p") 1 in
  let w := store f quiet_world in
  netpipe_flush w "/p" false
  = Done (emit w (EvBroadcast "/p" cv_wr)) (Result (-1) None).
Proof.
  intros f w.
  apply (netpipe_flush_empty_buffer w "/p" f false); try reflexivity.
  discriminate.
Defined.

(** C5, as stated: the flush of an empty buffer does not succeed. *)
Lemma netpipe_flush_empty_buffer_fails :
  let f := set_readers (a_pipe "/p") 1 in
  let w := store f quiet_world in
  (0 <? readers f) = true /\ force_exit f = false
  /\ cbuf_size (buffer f) = 0
  /\ exists w' r, netpipe_flush w "/p" false = Done w' r /\ ret r = -1.
Proof.
  intros f w. repeat split. eexists _, _. split; reflexivity.
Qed.

(** ** Reading *)

Lemma cbuf_get_empty (b : cbuf) (n : Z) :
  0 <= n -> cbuf_size b = 0 -> cbuf_get b n = (b, [], 0).
Proof.
  intros Hn Hb. unfold cbuf_get. rewrite Hb, Z.min_r by lia.
  simpl. rewrite take_0, drop_0. by destruct b.
Qed.

Lemma do_buffered_read_empty (f : netpipe) (w : world) (n : Z) :
  0 <= n -> cbuf_size (buffer f) = 0 ->
  do_buffered_read f w n = (1, 0, [], None, f, w).
Proof.
  intros Hn Hb. unfold do_buffered_read.
  rewrite cbuf_get_empty by assumption. crunch.
  by rewrite set_buffer_same.
Qed.

(** C2, as the code has it: a [netpipe_read] that found the buffer empty
    goes to sleep; when it wakes with its request untouched
    ([bytes_processed = 0]) and flagged EPIPE because the peer closed its
    write side, the assignment [read = 0] is overwritten by [read = -1]:
    the call returns -1, not 0, and leaves [errno] as it was. *)
Theorem netpipe_read_peer_closed
    (w : world) (p : string) (f : netpipe) (size : Z) (c : positive) :
  open_files w !! p = Some f -> path f = p ->
  force_exit f = false -> writers f <> 0 ->
  cbuf_size (buffer f) = 0 ->
  0 < size < 2 ^ 64 ->
  replies w (sock_calls w) = Delivered c ->
  exists w1 waiting k,
    netpipe_read w p size false = Wait w1 p (Some cv_rd) waiting k
    /\ forall w' f' rq,
         open_files w' !! p = Some f' ->
         requests w' !! next_request w = Some rq ->
         req_bytes_processed rq = 0 -> req_error rq = EPIPE ->
         waiting w' = false
         /\ k w' = Done (free_request (store f' w') (next_request w))
                        (Result (-1, req_buf rq) None).
Proof.
  intros Hf Hp Hfe Hwr Hb Hsize Hreply.
  apply Z.eqb_neq in Hwr.
  unfold netpipe_read, with_file. rewrite Hf, Hfe.
  rewrite do_buffered_read_empty by (lia || assumption). crunch.
  change (1 <=? 0) with false.
  assert (Hne : (0 =? size) = false) by (apply Z.eqb_neq; lia).
  rewrite Hne, Hwr. crunch.
  replace (size - 0) with size by lia. rewrite size_t_id by lia.
  unfold netpipe_add_request. change (O_RDONLY =? O_RDONLY) with true. crunch.
  unfold send_read_request_message, sock_send. fields.
  rewrite Hreply. crunch.
  change (Z.pos c <=? 0) with false. crunch.
  unfold wait_while, request_pending at 1.
  fields. rewrite lookup_insert_eq. fields. rewrite Hne, Hfe. crunch.
  change (0 =? 0) with true. crunch. rewrite Hp.
  eexists _, _, _. split; [reflexivity|].
  intros w' f' rq Hf' Hrq Hbp Herr.
  unfold with_file, request_pending, netpipe_read_wake.
  rewrite Hf', Hrq, Hbp, Herr. split.
  - change (EPIPE =? 0) with false. apply andb_false_r.
  - change (0 =? 0) with true. change (EPIPE =? 0) with false.
    change (EPIPE =? EPIPE) with true. crunch.
    destruct (force_exit f'); reflexivity.
Qed.

Lemma netpipe_read_peer_closed_witness :
  let f := set_open_mode (set_writers (set_readers (a_pipe "/p") 1) 1) O_RDONLY in
  let w := store f quiet_world in
  exists w1 waiting k,
    netpipe_read w "/p" 4 false = Wait w1 "/p" (Some cv_rd) waiting k
    /\ forall w' f' rq,
         open_files w' !! "/p" = Some f' ->
         requests w' !! 0%nat = Some rq ->
         req_bytes_processed rq = 0 -> req_error rq = EPIPE ->
         waiting w' = false
         /\ k w' = Done (free_request (store f' w') 0%nat)
                        (Result (-1, req_buf rq) None).
Proof.
  intros f w.
  apply (netpipe_read_peer_closed w "/p" f 4 1%positive); try reflexivity.
  - discriminate.
  - lia.
Defined.

(** The same on a run: B holds the read end and sleeps in a read of 4
    bytes; the peer's CLOSE of its write end arrives; the read wakes up and
    returns -1. *)
Example netpipe_read_eof_run :
  let f := set_open_mode (set_writers (set_readers (a_pipe "/p") 1) 1) O_RDONLY in
  let w := store f quiet_world in
  match netpipe_read w "/p" 4 false with
  | Wait w1 _ _ waiting k =>
      match netpipe_close_update w1 "/p" O_WRONLY with
      | Done w2 _ =>
          waiting w2 = false
          /\ match k w2 with
             | Done _ r => r = Result (-1, []) None
             | _ => False
             end
      | _ => False
      end
  | _ => False
  end.
Proof. vm_compute. split; reflexivity. Qed.

(** ** Waking up from a blocking send *)

Lemma sock_send_next_request (f : netpipe) (m : msg) (w : world) :
  next_request (sock_send f m w).2 = next_request w.
Proof. unfold sock_send. by destruct (replies w (sock_calls w)). Qed.

Lemma do_flush_next_request (f : netpipe) (w : world) :
  next_request (do_flush f w).2 = next_request w.
Proof.
  unfold do_flush, send_flush_message.
  destruct (_ =? 0); [reflexivity|].
  destruct (cbuf_get _ _) as [[b' data] n].
  pose proof (sock_send_next_request f (WRITE (path f) data) w) as Hs.
  destruct (sock_send _ _ _) as [[bytes e] w'].
  cbv zeta. by destruct (int bytes <=? 0).
Qed.

Lemma do_send_next_request (f : netpipe) (w : world) (bufptr : list byte) (n : Z) :
  next_request (do_send f w bufptr n).2 = next_request w.
Proof.
  unfold do_send, send_write_message.
  destruct (_ =? 0); [reflexivity|].
  match goal with |- context [sock_send ?a ?b ?c] =>
    pose proof (sock_send_next_request a b c) as Hs;
    destruct (sock_send a b c) as [[bytes e] w'] end.
  cbv zeta. by destruct (int bytes <=? 0).
Qed.

Lemma netpipe_send_wake_result
    (sent : Z) (request : nat) (f : netpipe) (w : world) (rq : netpipe_req) :
  requests w !! request = Some rq ->
  force_exit f = true \/ req_error rq <> 0 ->
  netpipe_send_wake sent request f w
  = Done (free_request (store f w) request)
      (if req_bytes_processed rq =? 0
       then Result (-1) (Some (if req_error rq =? 0 then EPIPE else req_error rq))
       else Result (ssize_t (size_t (sent + req_bytes_processed rq))) None).
Proof.
  intros Hrq Hwhy. unfold netpipe_send_wake. rewrite Hrq.
  assert (Hor : force_exit f || negb (req_error rq =? 0) = true).
  { destruct Hwhy as [-> | Hne]; [reflexivity|].
    apply Z.eqb_neq in Hne. rewrite Hne. apply orb_true_r. }
  rewrite Hor, andb_true_r.
  destruct (req_bytes_processed rq =? 0); [|reflexivity].
  destruct (req_error rq =? 0); reflexivity.
Qed.

(** What a successful [do_send] leaves: the credit it used is counted in
    [remotesize], nothing else of the pipe changes. *)
Lemma do_send_effect (f : netpipe) (w : world) (bufptr : list byte) (size : Z)
    (err bytes : Z) (e : option Z) (f' : netpipe) (w' : world) :
  do_send f w bufptr size = (err, bytes, e, f', w') -> 0 < err ->
  (bytes = 0 \/ 0 < bytes < 2 ^ 64)
  /\ remotesize f'
     = (if bytes =? 0 then remotesize f else size_t (remotesize f + bytes))
  /\ buffer f' = buffer f /\ wr_req f' = wr_req f /\ path f' = path f.
Proof.
  unfold do_send, send_write_message.
  destruct (_ =? 0) eqn:E0.
  { intros H _. injection H as <- <- <- <- <-. apply Z.eqb_eq in E0.
    rewrite E0. repeat split. by left. }
  destruct (sock_send _ _ _) as [[n e1] w1]. cbv zeta.
  pose proof (int_range n) as Hr.
  destruct (int n <=? 0) eqn:E.
  - intros H Hpos. injection H as <- <- <- <- <-. apply Z.leb_le in E. lia.
  - intros H _. injection H as <- <- <- <- <-. apply Z.leb_gt in E.
    rewrite (size_t_id (int n)) by lia.
    replace (int n =? 0) with false by (symmetry; apply Z.eqb_neq; lia).
    repeat split. right. lia.
Qed.

(** C3, as the code has it.  A blocking [netpipe_send] that goes to sleep
    has, after the flush it starts with (which leaves the pipe [f1]),
    sent [direct] bytes (the credit they use is counted in [remotesize]),
    buffered the next [ahead] bytes of [buf] behind those in the buffer,
    and queued a request for what follows them, of size
    [size - (direct + ahead)].  When it wakes with [force_exit] set or an
    error flagged it fails exactly when the request itself made no
    progress, whatever [direct + ahead] is; otherwise it returns
    [direct + ahead] plus the progress of the request. *)
Theorem netpipe_send_wakes
    (w : world) (p : string) (buf : list byte) (size : Z) (f : netpipe)
    (err0 n0 : Z) (e0 : option Z) (f1 : netpipe) (wa : world)
    (w1 : world) (waiting : world -> bool) (k : world -> outcome (result Z)) :
  open_files w !! p = Some f ->
  0 <= size < 2 ^ 64 ->
  do_flush f w = (err0, n0, e0, f1, wa) ->
  netpipe_send w p buf size false = Wait w1 p (Some cv_wr) waiting k ->
  exists direct ahead fs,
    0 <= direct /\ 0 <= ahead
    /\ open_files w1 !! p = Some fs
    /\ remotesize fs
       = (if direct =? 0 then remotesize f1
          else size_t (remotesize f1 + direct))
    /\ cb_data (buffer fs)
       = cb_data (buffer f1) ++ mem_read (mem_advance buf direct) ahead
    /\ wr_req fs = next_request w :: wr_req f1
    /\ requests w1 !! next_request w
       = Some {| req_buf := mem_advance (mem_advance buf direct) ahead;
                 req_bytes_processed := 0;
                 req_size := size_t (size - size_t (direct + ahead));
                 req_error := 0 |}
    /\ forall w' f' rq,
         open_files w' !! p = Some f' ->
         requests w' !! next_request w = Some rq ->
         force_exit f' = true \/ req_error rq <> 0 ->
         waiting w' = false
         /\ k w' = Done (free_request (store f' w') (next_request w))
              (if req_bytes_processed rq =? 0
               then Result (-1)
                      (Some (if req_error rq =? 0 then EPIPE else req_error rq))
               else Result (ssize_t (size_t (size_t (direct + ahead)
                                             + req_bytes_processed rq))) None).
Proof.
  intros Hf Hsize Hfl H. unfold netpipe_send, with_file in H.
  rewrite Hf in H.
  destruct (force_exit f || (readers f =? 0)); [discriminate|].
  pose proof (do_flush_next_request f w) as Hwa.
  rewrite Hfl in H, Hwa. cbn [snd] in Hwa.
  destruct (err0 <=? 0); [discriminate|].
  set (wb := if 0 <? n0 then pthread_cond_broadcast f1 cv_wr wa else wa) in H.
  assert (Hwb : next_request wb = next_request w).
  { subst wb. by destruct (0 <? n0). }
  clearbody wb.
  assert (Hgen : forall bufptr direct f2 wc,
    next_request wc = next_request w ->
    (if direct =? size then Done (store f2 wc) (Result (ssize_t direct) None) else
      let '(b, bytes) := cbuf_put (buffer f2) bufptr size in
      let f := set_buffer f2 b in
      let bufptr := mem_advance bufptr bytes in
      let sent := size_t (direct + bytes) in
      if (sent =? size) || false
      then Done (store f wc)
             (Result (ssize_t sent) (if sent =? 0 then Some EAGAIN else None)) else
      let remaining := size_t (size - sent) in
      let '(request, f, w) := netpipe_add_request f wc bufptr remaining O_WRONLY in
      wait_while f w cv_wr (request_pending request remaining)
        (netpipe_send_wake sent request))
    = Wait w1 p (Some cv_wr) waiting k ->
    exists ahead fs,
      0 <= ahead
      /\ open_files w1 !! p = Some fs
      /\ remotesize fs = remotesize f2
      /\ cb_data (buffer fs) = cb_data (buffer f2) ++ mem_read bufptr ahead
      /\ wr_req fs = next_request w :: wr_req f2
      /\ requests w1 !! next_request w
         = Some {| req_buf := mem_advance bufptr ahead;
                   req_bytes_processed := 0;
                   req_size := size_t (size - size_t (direct + ahead));
                   req_error := 0 |}
      /\ forall w' f' rq,
           open_files w' !! p = Some f' ->
           requests w' !! next_request w = Some rq ->
           force_exit f' = true \/ req_error rq <> 0 ->
           waiting w' = false
           /\ k w' = Done (free_request (store f' w') (next_request w))
                (if req_bytes_processed rq =? 0
                 then Result (-1)
                        (Some (if req_error rq =? 0 then EPIPE else req_error rq))
                 else Result (ssize_t (size_t (size_t (direct + ahead)
                                               + req_bytes_processed rq))) None)).
  { clear H. intros bufptr direct f2 wc Hnext H.
    destruct (direct =? size); [discriminate|].
    unfold cbuf_put in H. cbv zeta in H.
    set (ahead := Z.min size (cbuf_free (buffer f2))) in H.
    assert (Hahead : 0 <= ahead) by (subst ahead; unfold cbuf_free; lia).
    destruct ((size_t (direct + ahead) =? size) || false); [discriminate|].
    unfold netpipe_add_request in H.
    change (O_WRONLY =? O_RDONLY) with false in H. cbv iota in H.
    unfold wait_while in H.
    match type of H with (if ?c then _ else _) = _ => destruct c end.
    - injection H as <- Hp <- <-. fields_in Hp. fields. rewrite Hnext.
      exists ahead. eexists. split; [exact Hahead|].
      split; [rewrite <- Hp; apply lookup_insert_eq|]. fields.
      split; [reflexivity|]. split; [reflexivity|]. split; [reflexivity|].
      split; [apply lookup_insert_eq|].
      intros w' f' rq Hf' Hrq Hwhy. rewrite Hp, Hf'. unfold with_file.
      rewrite Hf'. split.
      + unfold request_pending. rewrite Hrq.
        destruct Hwhy as [-> | Hne]; [reflexivity|].
        apply Z.eqb_neq in Hne. rewrite Hne. apply andb_false_r.
      + by apply netpipe_send_wake_result.
    - unfold netpipe_send_wake in H. fields_in H.
      rewrite lookup_insert_eq in H.
      destruct ((req_bytes_processed _ =? 0) && _) in H; discriminate. }
  destruct ((0 <? available_remote f1) && cbuf_empty (buffer f1)).
  - destruct (do_send f1 wb buf size) as [[[[err2 bytes2] e2] f2] wc] eqn:Hds.
    destruct (err2 <=? 0) eqn:Herr; [discriminate|]. apply Z.leb_gt in Herr.
    destruct (do_send_effect _ _ _ _ _ _ _ _ _ Hds Herr)
      as (Hb2 & Hrs & Hbuf & Hwq & _).
    assert (Hsent : size_t (0 + bytes2) = bytes2).
    { apply size_t_id. destruct Hb2; lia. }
    rewrite Hsent in H.
    destruct (Hgen (mem_advance buf bytes2) bytes2 f2 wc)
      as (ahead & fs & Ha & Hfs & Hrs' & Hdata & Hwq' & Hreq & Hwake);
      [|exact H|].
    { pose proof (do_send_next_request f1 wb buf size) as Hn.
      rewrite Hds in Hn. cbn [snd] in Hn. by rewrite Hn. }
    exists bytes2, ahead, fs.
    split; [destruct Hb2; lia|]. split; [exact Ha|]. split; [exact Hfs|].
    split; [by rewrite Hrs', Hrs|]. split; [by rewrite Hdata, Hbuf|].
    split; [by rewrite Hwq', Hwq|]. split; [exact Hreq | exact Hwake].
  - destruct (Hgen buf 0 f1 wb Hwb H)
      as (ahead & fs & Ha & Hfs & Hrs' & Hdata & Hwq' & Hreq & Hwake).
    exists 0, ahead, fs.
    split; [lia|]. split; [exact Ha|]. split; [exact Hfs|].
    split; [exact Hrs'|]. split; [exact Hdata|].
    split; [exact Hwq'|]. split; [exact Hreq | exact Hwake].
Qed.

Lemma netpipe_send_wakes_witness :
  let f := set_remotesize (set_writers (set_readers (a_pipe "/p") 1) 1) 12 in
  let w := store f quiet_world in
  let buf := replicate 32 x61 in
  exists w1 waiting k,
    netpipe_send w "/p" buf 32 false = Wait w1 "/p" (Some cv_wr) waiting k
    /\ exists direct ahead fs,
         0 <= direct /\ 0 <= ahead
         /\ open_files w1 !! "/p" = Some fs
         /\ remotesize fs
            = (if direct =? 0 then remotesize f
               else size_t (remotesize f + direct))
         /\ cb_data (buffer fs)
            = cb_data (buffer f) ++ mem_read (mem_advance buf direct) ahead
         /\ wr_req fs = next_request w :: wr_req f
         /\ requests w1 !! next_request w
            = Some {| req_buf := mem_advance (mem_advance buf direct) ahead;
                      req_bytes_processed := 0;
                      req_size := size_t (32 - size_t (direct + ahead));
                      req_error := 0 |}
         /\ forall w' f' rq,
              open_files w' !! "/p" = Some f' ->
              requests w' !! next_request w = Some rq ->
              force_exit f' = true \/ req_error rq <> 0 ->
              waiting w' = false
              /\ k w' = Done (free_request (store f' w') (next_request w))
                   (if req_bytes_processed rq =? 0
                    then Result (-1)
                           (Some (if req_error rq =? 0 then EPIPE else req_error rq))
                    else Result (ssize_t (size_t (size_t (direct + ahead)
                                                  + req_bytes_processed rq)))
                                None).
Proof.
  intros f w buf.
  assert (E : exists w1 waiting k,
             netpipe_send w "/p" buf 32 false
             = Wait w1 "/p" (Some cv_wr) waiting k)
    by (eexists _, _, _; reflexivity).
  destruct E as (w1 & waiting & k & E).
  exists w1, waiting, k. split; [exact E|].
  apply (netpipe_send_wakes w "/p" buf 32 f 1 0 None f w w1 waiting k);
    [reflexivity | lia | reflexivity | exact E].
Defined.

(** C3, as stated: with 4 bytes of credit and an empty 16 byte buffer a
    blocking write of 32 bytes sends 4 bytes, buffers 16 and sleeps on a
    request for the last 12; if teardown wakes it before the request
    progresses it fails with EPIPE, although 20 bytes were taken. *)
Lemma netpipe_send_fails_after_progress :
  let f := set_remotesize (set_writers (set_readers (a_pipe "/p") 1) 1) 12 in
  let w := store f quiet_world in
  match netpipe_send w "/p" (replicate 32 x61) 32 false with
  | Wait w1 _ _ waiting k =>
      (exists f1, open_files w1 !! "/p" = Some f1
                  /\ remotesize f1 = remotesize f + 4
                  /\ cbuf_size (buffer f1) = 16
                  /\ trace w1 = [EvSend (WRITE "/p" (replicate 4 x61)) (Delivered 1) 12 16])
      /\ match netpipe_force_exit w1 "/p" with
         | Done w2 _ =>
             waiting w2 = false
             /\ match k w2 with
                | Done _ r => r = Result (-1) (Some EPIPE)
                | _ => False
                end
         | _ => False
         end
  | _ => False
  end.
Proof.
  vm_compute. split.
  - eexists. repeat split.
  - split; reflexivity.
Qed.

(** ** Receiving *)

Lemma poll_notify_trace (l : list nat) (w : world) :
  trace (foldl (fun w0 ph => emit w0 (EvPollNotify ph)) w l)
  = trace w ++ map EvPollNotify l.
Proof.
  revert w. induction l as [|ph l IH]; intros w; simpl.
  - by rewrite app_nil_r.
  - rewrite IH. simpl. by rewrite <- app_assoc.
Qed.

Lemma poll_notify_requests (l : list nat) (w : world) :
  requests (foldl (fun w0 ph => emit w0 (EvPollNotify ph)) w l) = requests w.
Proof. revert w. induction l as [|ph l IH]; intros w; simpl; [done|]. by rewrite IH. Qed.

(** C9, as the code has it: [wakeup] has no initialiser.  On a pipe
    without pending read requests no request can complete, the two loops
    never assign [wakeup], and [rd] is broadcast exactly when the stack
    left a non-zero value in it. *)
Theorem netpipe_recv_wakeup_uninitialised
    (wakeup : Z) (w : world) (p : string) (f : netpipe) (size : Z) :
  open_files w !! p = Some f -> path f = p ->
  rd_req f = [] ->
  0 < size ->
  size <= cbuf_free (buffer f) ->
  size <= Z.of_nat (length (inbound w)) ->
  exists w',
    netpipe_recv wakeup w p size = Done w' (Result (int size) None)
    /\ requests w' = requests w
    /\ trace w' = trace w
                  ++ (if wakeup =? 0 then [] else [EvBroadcast p cv_rd])
                  ++ map EvPollNotify (poll_handles f).
Proof.
  intros Hf Hp Hrd Hsize Hroom Hin.
  unfold netpipe_recv, with_file. rewrite Hf, Hrd.
  cbn [rs_req length while recv_buffered_cond recv_socket_cond andb].
  cbn [rs_req rs_wakeup rs_file rs_world rs_remaining length while
       recv_socket_cond andb].
  assert (Hpos : (0 <? size) = true) by (apply Z.ltb_lt; lia).
  rewrite Hpos. unfold cbuf_readn, readn.
  fields.
  rewrite Z.min_l by lia. rewrite Hpos.
  assert (Hle : (size <=? Z.of_nat (length (inbound w))) = true)
    by (apply Z.leb_le; lia).
  rewrite Hle. crunch.
  assert (Hle0 : (size <=? 0) = false) by (apply Z.leb_gt; lia).
  rewrite Hle0. unfold loop_poll_notify. fields.
  eexists. split; [reflexivity|]. fields. split.
  - rewrite poll_notify_requests. by destruct (wakeup =? 0).
  - rewrite poll_notify_trace, Hp.
    destruct (wakeup =? 0); simpl; [reflexivity|].
    by rewrite <- app_assoc.
Qed.

Lemma netpipe_recv_wakeup_uninitialised_witness :
  let f := set_writers (set_readers (a_pipe "/p") 1) 1 in
  let w := set_inbound (store f quiet_world) [xaa; xbb] in
  exists w',
    netpipe_recv 1 w "/p" 2 = Done w' (Result (int 2) None)
    /\ requests w' = requests w
    /\ trace w' = trace w ++ [EvBroadcast "/p" cv_rd] ++ [].
Proof.
  intros f w.
  apply (netpipe_recv_wakeup_uninitialised 1 w "/p" f 2);
    try reflexivity; vm_compute; discriminate.
Defined.

(** ** Closing *)



Lemma poll_destroy_trace (l : list nat) (w : world) :
  trace (foldl (fun w0 ph => emit w0 (EvPollDestroy ph)) w l)
  = trace w ++ map EvPollDestroy l.
Proof.
  revert w. induction l as [|ph l IH]; intros w; simpl.
  - by rewrite app_nil_r.
  - rewrite IH. simpl. by rewrite <- app_assoc.
Qed.





(** X22: a flush that fails on the socket keeps the mutex.  When the
    channel does not deliver the WRITE of [do_flush], [netpipe_flush]
    returns -1 at [if (err <= 0) return -1;] without unlocking the pipe.
    A [netpipe_close] of the last writer that runs into this never gets
    past the [netpipe_lock] that follows its flush: it sends no CLOSE
    message and does not return. *)
Theorem netpipe_close_stuck_after_failed_flush
    (w : world) (p : string) (f : netpipe) (wa : world) (fa : netpipe) :
  open_files w !! p = Some f -> writers f = 1 ->
  open_files wa !! p = Some fa -> path fa = p ->
  force_exit fa = false -> readers fa <> 0 ->
  Z.min (cbuf_size (buffer fa)) (available_remote fa) <> 0 ->
  (forall c, replies wa (sock_calls wa) <> Delivered c) ->
  exists k,
    netpipe_close w p O_WRONLY
    = Wait (store (set_writers f 0) w) (path f) None (fun _ => false) k
    /\ exists w' data,
         netpipe_flush wa p false
         = DoneLocked w' p
             (Result (-1) (match replies wa (sock_calls wa) with
                           | Failed e => Some e
                           | _ => None
                           end))
         /\ k wa = Stuck w' p
         /\ trace w'
            = trace wa
              ++ [EvSend (WRITE p data) (replies wa (sock_calls wa))
                         (remotesize fa) (remotemax fa)].
Proof.
  intros Hf Hw Hfa Hp Hfe Hrd Hn Hrep.
  unfold netpipe_close, with_file. rewrite Hf.
  change (O_WRONLY =? O_WRONLY) with true. cbv iota zeta. fields. rewrite Hw.
  change (int (1 - 1)) with 0. change (0 =? 0) with true. cbv iota.
  unfold unlocked. fields. eexists. split; [reflexivity|].
  cbv beta. unfold netpipe_flush, with_file. rewrite Hfa, Hfe.
  apply Z.eqb_neq in Hrd. rewrite Hrd. cbn [orb].
  unfold do_flush.
  replace (if cbuf_size (buffer fa) <? available_remote fa
           then cbuf_size (buffer fa) else available_remote fa)
    with (Z.min (cbuf_size (buffer fa)) (available_remote fa))
    by (destruct (_ <? _) eqn:E;
        [apply Z.ltb_lt in E | apply Z.ltb_ge in E]; lia).
  set (n := Z.min _ _) in *.
  apply Z.eqb_neq in Hn. rewrite Hn.
  unfold send_flush_message, cbuf_get, sock_send.
  assert (Hk : Z.min n (cbuf_size (buffer fa)) = n) by (subst n; lia).
  rewrite Hk.
  destruct (replies wa (sock_calls wa)) as [c| |e] eqn:Hr;
    [by destruct (Hrep c)| |];
    cbv beta iota zeta;
    [change (int 0) with 0; change (0 <? 0) with false
    |change (int (-1)) with (-1); change (0 <? -1) with false];
    cbv beta iota zeta;
    [change (0 <=? 0) with true | change (-1 <=? 0) with true];
    cbv beta iota zeta; cbn [lock_after];
    rewrite Hp; (do 2 eexists; split; [reflexivity|]);
    (split; [reflexivity|]); reflexivity.
Qed.

Lemma netpipe_close_stuck_after_failed_flush_witness :
  let f := set_buffer (set_readers (set_writers (a_pipe "/p") 1) 1)
             {| cb_capacity := 16; cb_data := [xaa; xbb] |} in
  let w := store f {| open_files := ∅; requests := ∅; next_request := 0;
                      replies := fun _ => Lost; sock_calls := 0; inbound := [];
                      trace := []; pipecapacity := 16;
                      remotepipecapacity := 16;
                      fresh_memory := fun _ => [] |} in
  let w0 := store (set_writers f 0) w in
  exists k,
    netpipe_close w "/p" O_WRONLY = Wait w0 "/p" None (fun _ => false) k
    /\ exists w' data,
         netpipe_flush w0 "/p" false = DoneLocked w' "/p" (Result (-1) None)
         /\ k w0 = Stuck w' "/p"
         /\ trace w' = trace w0 ++ [EvSend (WRITE "/p" data) Lost 0 16].
Proof.
  intros f w w0.
  apply (netpipe_close_stuck_after_failed_flush w "/p" f w0 (set_writers f 0));
    try reflexivity; try discriminate; try (vm_compute; intuition discriminate).
Defined.

(** ** The order in which pending requests are served *)

Lemma while_inv {S R : Type} (I : S -> Prop) (Q : R -> Prop)
    (cond : S -> bool) (body : S -> R + S) :
  (forall s, I s -> cond s = true ->
     match body s with inl r => Q r | inr s' => I s' end) ->
  forall fuel s res,
    I s -> while fuel cond body s = Some res ->
    match res with inl r => Q r | inr s' => I s' /\ cond s' = false end.
Proof.
  intros Hbody. induction fuel as [|n IH]; intros s res Hs H; simpl in H.
  - discriminate.
  - destruct (cond s) eqn:Hc.
    + specialize (Hbody s Hs Hc). destruct (body s) as [r|s'].
      * injection H as <-. exact Hbody.
      * by apply (IH s').
    + injection H as <-. by split.
Qed.

Lemma in_order_start (l : list nat) (h : gmap nat netpipe_req) :
  in_order l h h l.
Proof.
  exists []. split; [reflexivity|]. split; [|reflexivity].
  intros r Hr. by apply elem_of_nil in Hr.
Qed.

Lemma in_order_served (l : list nat) (h0 h : gmap nat netpipe_req) (req : list nat) :
  in_order l h0 h req -> served_in_order l h0 h.
Proof.
  intros (done & -> & Hdone & Htail) i j ri rj Hij Hi Hj Hchanged.
  destruct (decide (j < length done + 1)%nat) as [Hlt|Hge].
  - apply Hdone. apply list_elem_of_lookup. exists i.
    rewrite lookup_app_l in Hi by lia. exact Hi.
  - exfalso. apply Hchanged. apply Htail.
    rewrite lookup_app_r in Hj by lia.
    destruct req as [|r0 req]; [by rewrite lookup_nil in Hj|].
    destruct (j - length done)%nat as [|m] eqn:E; [lia|].
    simpl in *. apply list_elem_of_lookup. by exists m.
Qed.

Lemma in_order_touch_head (l : list nat) (h0 h : gmap nat netpipe_req)
    (r : nat) (next : list nat) (rq : netpipe_req) :
  NoDup l -> in_order l h0 h (r :: next) ->
  in_order l h0 (<[r := rq]> h) (r :: next)
  /\ (req_bytes_processed rq = req_size rq ->
      in_order l h0 (<[r := rq]> h) next).
Proof.
  intros Hnd (done & -> & Hdone & Htail).
  apply NoDup_app in Hnd as (Hnd1 & Hdisj & Hnd2).
  apply NoDup_cons in Hnd2 as (Hr & Hnd2).
  assert (Hkeep : forall d, d ∈ done -> completed (<[r := rq]> h) d).
  { intros d Hd. destruct (Hdone d Hd) as (rq' & Hl & Hc).
    exists rq'. split; [|exact Hc].
    rewrite lookup_insert_ne; [exact Hl|].
    intros <-. apply (Hdisj r Hd). by left. }
  split.
  - exists done. split; [reflexivity|]. split; [exact Hkeep|].
    simpl. intros x Hx. rewrite lookup_insert_ne; [by apply Htail|].
    by intros <-.
  - intros Hc. exists (done ++ [r]). split; [by rewrite <- app_assoc|]. split.
    + intros d Hd. apply elem_of_app in Hd as [Hd|Hd]; [by apply Hkeep|].
      apply list_elem_of_singleton in Hd as ->.
      exists rq. split; [apply lookup_insert_eq | exact Hc].
    + intros x Hx. assert (Hxn : x ∈ next).
      { destruct next; simpl in Hx; [by apply elem_of_nil in Hx | by right]. }
      rewrite lookup_insert_ne; [|by intros <-].
      apply Htail. simpl. exact Hxn.
Qed.

Section request_loop.
Context {S : Type}.
Variables (req_of : S -> list nat) (world_of : S -> world).
Variables (cond : S -> bool) (body : S -> loop_exit + S).

Hypothesis cond_nonempty : forall s, cond s = true -> req_of s <> [].

(** One iteration writes to the request at the head only, and moves on
    to the next request only when the head is complete. *)
Hypothesis body_head : forall s r next,
  req_of s = r :: next ->
  match body s with
  | inl ExitFault => True
  | inl (ExitReturn _ _ _ w) =>
      requests w = requests (world_of s)
      \/ exists rq, requests w = <[r := rq]> (requests (world_of s))
  | inr s' =>
      exists rq,
        requests (world_of s') = <[r := rq]> (requests (world_of s))
        /\ (req_of s' = r :: next
            \/ (req_of s' = next /\ req_bytes_processed rq = req_size rq))
  end.

Lemma request_loop_in_order (l : list nat) (h0 : gmap nat netpipe_req)
    (fuel : nat) (s : S) (res : loop_exit + S) :
  NoDup l ->
  in_order l h0 (requests (world_of s)) (req_of s) ->
  while fuel cond body s = Some res ->
  match res with
  | inl ExitFault => True
  | inl (ExitReturn _ _ _ w) => served_in_order l h0 (requests w)
  | inr s' => in_order l h0 (requests (world_of s')) (req_of s')
  end.
Proof.
  intros Hnd Hs Hw.
  pose proof (while_inv
    (fun s => in_order l h0 (requests (world_of s)) (req_of s))
    (fun r => match r with
              | ExitFault => True
              | ExitReturn _ _ _ w => served_in_order l h0 (requests w)
              end) cond body) as Hinv.
  cut (match res with
       | inl r => match r with
                  | ExitFault => True
                  | ExitReturn _ _ _ w => served_in_order l h0 (requests w)
                  end
       | inr s' => in_order l h0 (requests (world_of s')) (req_of s')
                   /\ cond s' = false
       end).
  { destruct res as [[]|]; tauto. }
  apply (Hinv) with (fuel := fuel) (s := s); [|exact Hs|exact Hw].
  clear s Hs Hw res. intros s Hs Hc.
  apply cond_nonempty in Hc.
  destruct (req_of s) as [|r next] eqn:Hreq; [done|].
  specialize (body_head s r next Hreq).
  destruct (body s) as [[err f w|]|s'].
  - destruct body_head as [-> | (rq & ->)].
    + by eapply in_order_served.
    + eapply in_order_served.
      exact (proj1 (in_order_touch_head l h0 _ r next rq Hnd Hs)).
  - exact I.
  - destruct body_head as (rq & -> & [-> | [-> Hdone]]).
    + exact (proj1 (in_order_touch_head l h0 _ r next rq Hnd Hs)).
    + exact (proj2 (in_order_touch_head l h0 _ r next rq Hnd Hs) Hdone).
Qed.
End request_loop.

Lemma sock_send_requests (f : netpipe) (m : msg) (w : world) :
  requests (sock_send f m w).2 = requests w.
Proof. unfold sock_send. by destruct (replies w (sock_calls w)). Qed.

Lemma do_flush_requests (f : netpipe) (w : world) :
  requests (do_flush f w).2 = requests w.
Proof.
  unfold do_flush, send_flush_message.
  destruct (_ =? 0); [reflexivity|].
  destruct (cbuf_get _ _) as [[b' data] n].
  pose proof (sock_send_requests f (WRITE (path f) data) w) as Hs.
  destruct (sock_send _ _ _) as [[bytes e] w'].
  cbv zeta. by destruct (int bytes <=? 0).
Qed.

Lemma do_send_requests (f : netpipe) (w : world) (bufptr : list byte) (n : Z) :
  requests (do_send f w bufptr n).2 = requests w.
Proof.
  unfold do_send, send_write_message.
  destruct (_ =? 0); [reflexivity|].
  match goal with |- context [sock_send ?a ?b ?c] =>
    pose proof (sock_send_requests a b c) as Hs;
    destruct (sock_send a b c) as [[bytes e] w'] end.
  cbv zeta. by destruct (int bytes <=? 0).
Qed.

Lemma do_buffered_read_requests (f : netpipe) (w : world) (n : Z) :
  requests (do_buffered_read f w n).2 = requests w.
Proof.
  unfold do_buffered_read, send_read_message.
  destruct (cbuf_get _ _) as [[b data] k].
  destruct (k =? 0); [reflexivity|].
  match goal with |- context [sock_send ?a ?b ?c] =>
    pose proof (sock_send_requests a b c) as Hs;
    destruct (sock_send a b c) as [[bytes e] w'] end.
  by destruct (bytes <=? 0).
Qed.

Lemma readn_requests (n : Z) (w : world) : requests (readn n w).2 = requests w.
Proof. unfold readn. by destruct (_ && _). Qed.

Lemma cbuf_readn_requests (b : cbuf) (n : Z) (w : world) :
  requests (cbuf_readn b n w).2 = requests w.
Proof.
  unfold cbuf_readn. pose proof (readn_requests (n `min` cbuf_free b) w) as H.
  by destruct (readn _ _) as [[k data] w'].
Qed.

Lemma recv_buffered_body_head (s : recv_state) (r : nat) (next : list nat) :
  rs_req s = r :: next ->
  match recv_buffered_body s with
  | inl ExitFault => True
  | inl (ExitReturn _ _ _ w) =>
      requests w = requests (rs_world s)
      \/ exists rq, requests w = <[r := rq]> (requests (rs_world s))
  | inr s' =>
      exists rq,
        requests (rs_world s') = <[r := rq]> (requests (rs_world s))
        /\ (rs_req s' = r :: next
            \/ (rs_req s' = next /\ req_bytes_processed rq = req_size rq))
  end.
Proof.
  intros Hreq. unfold recv_buffered_body. rewrite Hreq.
  destruct (requests (rs_world s) !! r) as [rq|]; [|exact I].
  match goal with |- context [do_buffered_read ?a ?b ?c] =>
    pose proof (do_buffered_read_requests a b c) as Hfr;
    destruct (do_buffered_read a b c) as [[[[[err n] data] e] f] w] end.
  simpl in Hfr. destruct (err <=? 0); [by left|].
  eexists. fields. rewrite Hfr. split; [reflexivity|].
  destruct (_ =? _) eqn:E; [right | by left].
  split; [reflexivity|]. by apply Z.eqb_eq in E.
Qed.

Lemma recv_socket_body_head (s : recv_state) (r : nat) (next : list nat) :
  rs_req s = r :: next ->
  match recv_socket_body s with
  | inl ExitFault => True
  | inl (ExitReturn _ _ _ w) =>
      requests w = requests (rs_world s)
      \/ exists rq, requests w = <[r := rq]> (requests (rs_world s))
  | inr s' =>
      exists rq,
        requests (rs_world s') = <[r := rq]> (requests (rs_world s))
        /\ (rs_req s' = r :: next
            \/ (rs_req s' = next /\ req_bytes_processed rq = req_size rq))
  end.
Proof.
  intros Hreq. unfold recv_socket_body. rewrite Hreq.
  destruct (requests (rs_world s) !! r) as [rq|]; [|exact I].
  match goal with |- context [readn ?a ?b] =>
    pose proof (readn_requests a b) as Hfr;
    destruct (readn a b) as [[n data] w] end.
  simpl in Hfr. destruct (n <=? 0); [by left|].
  unfold send_read_message.
  match goal with |- context [sock_send ?a ?b ?c] =>
    pose proof (sock_send_requests a b c) as Hfs;
    destruct (sock_send a b c) as [[err e] w'] end.
  simpl in Hfs. destruct (err <=? 0); [left; congruence|].
  eexists. fields. rewrite Hfs, Hfr. split; [reflexivity|].
  destruct (_ =? _) eqn:E; [right | by left].
  split; [reflexivity|]. by apply Z.eqb_eq in E.
Qed.

Lemma send_requests_body_head (s : send_state) (r : nat) (next : list nat) :
  ss_req s = r :: next ->
  match send_requests_body s with
  | inl ExitFault => True
  | inl (ExitReturn _ _ _ w) =>
      requests w = requests (ss_world s)
      \/ exists rq, requests w = <[r := rq]> (requests (ss_world s))
  | inr s' =>
      exists rq,
        requests (ss_world s') = <[r := rq]> (requests (ss_world s))
        /\ (ss_req s' = r :: next
            \/ (ss_req s' = next /\ req_bytes_processed rq = req_size rq))
  end.
Proof.
  intros Hreq. unfold send_requests_body. rewrite Hreq.
  destruct (requests (ss_world s) !! r) as [rq|]; [|exact I].
  match goal with |- context [do_send ?a ?b ?c ?d] =>
    pose proof (do_send_requests a b c d) as Hfr;
    destruct (do_send a b c d) as [[[[err n] e] f] w] end.
  simpl in Hfr. destruct (err <=? 0).
  - right. eexists. unfold pthread_cond_broadcast. fields. by rewrite Hfr.
  - eexists. fields. rewrite Hfr. split; [reflexivity|].
    destruct (_ =? _) eqn:E; [right | by left].
    split; [reflexivity|]. by apply Z.eqb_eq in E.
Qed.

Lemma writeahead_body_head (s : send_state) (r : nat) (next : list nat) :
  ss_req s = r :: next ->
  match writeahead_body s with
  | inl ExitFault => True
  | inl (ExitReturn _ _ _ w) =>
      requests w = requests (ss_world s)
      \/ exists rq, requests w = <[r := rq]> (requests (ss_world s))
  | inr s' =>
      exists rq,
        requests (ss_world s') = <[r := rq]> (requests (ss_world s))
        /\ (ss_req s' = r :: next
            \/ (ss_req s' = next /\ req_bytes_processed rq = req_size rq))
  end.
Proof.
  intros Hreq. unfold writeahead_body. rewrite Hreq.
  destruct (requests (ss_world s) !! r) as [rq|]; [|exact I].
  destruct (cbuf_put _ _ _) as [b n].
  eexists. fields. split; [reflexivity|].
  destruct (_ =? _) eqn:E; [right | by left].
  split; [reflexivity|]. by apply Z.eqb_eq in E.
Qed.

Lemma recv_buffered_cond_nonempty (s : recv_state) :
  recv_buffered_cond s = true -> rs_req s <> [].
Proof. unfold recv_buffered_cond. by destruct (rs_req s). Qed.

Lemma recv_socket_cond_nonempty (s : recv_state) :
  recv_socket_cond s = true -> rs_req s <> [].
Proof. unfold recv_socket_cond. by destruct (rs_req s). Qed.

Lemma send_requests_cond_nonempty (s : send_state) :
  send_requests_cond s = true -> ss_req s <> [].
Proof.
  unfold send_requests_cond. destruct (ss_req s); [|done].
  by rewrite andb_false_r.
Qed.

Lemma writeahead_cond_nonempty (s : send_state) :
  writeahead_cond s = true -> ss_req s <> [].
Proof. unfold writeahead_cond. by destruct (ss_req s). Qed.

Lemma netpipe_recv_in_order
    (wakeup : Z) (w : world) (p : string) (size : Z) (f : netpipe)
    (w' : world) (r : result Z) :
  open_files w !! p = Some f -> NoDup (rd_req f) ->
  netpipe_recv wakeup w p size = Done w' r ->
  served_in_order (rd_req f) (requests w) (requests w').
Proof.
  intros Hf Hnd H. unfold netpipe_recv, with_file in H. rewrite Hf in H.
  match type of H with
  | context [while ?n recv_buffered_cond recv_buffered_body ?s] =>
      pose proof (request_loop_in_order rs_req rs_world
                    recv_buffered_cond recv_buffered_body
                    recv_buffered_cond_nonempty
                    recv_buffered_body_head
                    (rd_req f) (requests w) n s) as L1;
      destruct (while n recv_buffered_cond recv_buffered_body s)
        as [[[err en f1 w1|]|s1]|]; try discriminate
  end.
  - specialize (L1 _ Hnd (in_order_start _ _) eq_refl).
    injection H as <- _. exact L1.
  - specialize (L1 _ Hnd (in_order_start _ _) eq_refl). cbv beta iota in L1.
    match type of H with
    | context [while ?n recv_socket_cond recv_socket_body ?s] =>
        pose proof (request_loop_in_order rs_req rs_world
                      recv_socket_cond recv_socket_body
                      recv_socket_cond_nonempty
                      recv_socket_body_head
                      (rd_req f) (requests w) n s) as L2;
        destruct (while n recv_socket_cond recv_socket_body s)
          as [[[err en f2 w2|]|s2]|]; try discriminate
    end.
    + specialize (L2 _ Hnd L1 eq_refl). injection H as <- _. exact L2.
    + specialize (L2 _ Hnd L1 eq_refl). cbv beta iota in L2.
      apply in_order_served in L2.
      destruct (0 <? rs_remaining s2).
      * pose proof (cbuf_readn_requests (buffer (set_rd_req (rs_file s2) (rs_req s2)))
                      (rs_remaining s2) (rs_world s2)) as Hfr.
        destruct (cbuf_readn _ _ _) as [[n b] w3]. simpl in Hfr.
        destruct (n <=? 0).
        -- injection H as <- _. fields. by rewrite Hfr.
        -- unfold loop_poll_notify in H. injection H as <- _. fields.
           rewrite poll_notify_requests.
           destruct (negb _); unfold pthread_cond_broadcast; fields;
             by rewrite Hfr.
      * unfold loop_poll_notify in H. injection H as <- _. fields.
        rewrite poll_notify_requests.
        by destruct (negb _); unfold pthread_cond_broadcast; fields.
Qed.

Lemma send_data_in_order (f : netpipe) (w : world) (x : Z) (ex : option Z)
    (f' : netpipe) (w' : world) :
  NoDup (wr_req f) ->
  send_data f w = Some (ExitReturn x ex f' w') ->
  served_in_order (wr_req f) (requests w) (requests w').
Proof.
  intros Hnd H. unfold send_data in H.
  pose proof (do_flush_requests f w) as Hfl.
  assert (Hwr : wr_req (do_flush f w).1.2 = wr_req f).
  { unfold do_flush, send_flush_message.
    destruct (_ =? 0); [reflexivity|].
    destruct (cbuf_get _ _) as [[b' data] n].
    destruct (sock_send _ _ _) as [[bytes e] w0].
    cbv zeta. by destruct (int bytes <=? 0); destruct (0 <? bytes). }
  destruct (do_flush f w) as [[[[err bytes] e] f1] w1]. simpl in Hfl, Hwr.
  destruct (err <=? 0).
  { injection H as _ _ _ <-. rewrite Hfl.
    apply (in_order_served _ _ _ (wr_req f)), in_order_start. }
  match type of H with
  | context [while ?n send_requests_cond send_requests_body ?s] =>
      pose proof (request_loop_in_order ss_req ss_world
                    send_requests_cond send_requests_body
                    send_requests_cond_nonempty send_requests_body_head
                    (wr_req f) (requests w) n s) as L1;
      destruct (while n send_requests_cond send_requests_body s)
        as [[[err1 en f2 w2|]|s1]|]; try discriminate
  end; fields_in L1; cbn [ss_req ss_world] in L1; rewrite Hfl, Hwr in L1;
    specialize (L1 _ Hnd (in_order_start _ _) eq_refl); cbv beta iota in L1.
  - injection H as _ _ _ <-. exact L1.
  - match type of H with
    | context [while ?n writeahead_cond writeahead_body ?s] =>
        pose proof (request_loop_in_order ss_req ss_world
                      writeahead_cond writeahead_body
                      writeahead_cond_nonempty writeahead_body_head
                      (wr_req f) (requests w) n s) as L2;
        destruct (while n writeahead_cond writeahead_body s)
          as [[[err2 en f3 w3|]|s2]|]; try discriminate
    end; specialize (L2 _ Hnd L1 eq_refl); cbv beta iota in L2.
    + injection H as _ _ _ <-. exact L2.
    + apply in_order_served in L2.
      destruct (0 <? ss_datasent s2).
      * unfold loop_poll_notify in H. injection H as _ _ _ <-.
        by rewrite poll_notify_requests.
      * by injection H as _ _ _ <-.
Qed.

(** C1, as the code has it: the pending requests form a stack.
    [netpipe_add_request] links a new request in front of its list;
    [netpipe_recv] and [send_data] walk the list from the front and touch
    a request only when every request in front of it, that is every
    request enqueued after it, is complete. *)
Theorem pending_requests_served_from_head
    (wakeup : Z) (w : world) (p : string) (size : Z) (f : netpipe)
    (buf : list byte) (n mode : Z) :
  open_files w !! p = Some f ->
  NoDup (rd_req f) -> NoDup (wr_req f) ->
  (let '(new_req, f', _) := netpipe_add_request f w buf n mode in
   if mode =? O_RDONLY
   then rd_req f' = new_req :: rd_req f /\ wr_req f' = wr_req f
   else wr_req f' = new_req :: wr_req f /\ rd_req f' = rd_req f)
  /\ (forall w' r,
        netpipe_recv wakeup w p size = Done w' r ->
        served_in_order (rd_req f) (requests w) (requests w'))
  /\ (forall x e f' w',
        send_data f w = Some (ExitReturn x e f' w') ->
        served_in_order (wr_req f) (requests w) (requests w')).
Proof.
  intros Hf Hrd Hwr. split; [|split].
  - unfold netpipe_add_request. by destruct (mode =? O_RDONLY).
  - intros w' r H. by eapply netpipe_recv_in_order.
  - intros x e f' w' H. by eapply send_data_in_order.
Qed.

Lemma pending_requests_served_from_head_witness :
  let f := set_rd_req (set_writers (set_readers (a_pipe "/p") 1) 1) [1; 0]%nat in
  let rq := {| req_buf := []; req_bytes_processed := 0;
               req_size := 2; req_error := 0 |} in
  let w := set_inbound
             (set_requests (store f quiet_world)
                (<[1%nat := rq]> (<[0%nat := rq]> ∅)))
             [xaa; xbb] in
  (let '(new_req, f', _) := netpipe_add_request f w [] 2 O_RDONLY in
   if O_RDONLY =? O_RDONLY
   then rd_req f' = new_req :: rd_req f /\ wr_req f' = wr_req f
   else wr_req f' = new_req :: wr_req f /\ rd_req f' = rd_req f)
  /\ (forall w' r,
        netpipe_recv 0 w "/p" 2 = Done w' r ->
        served_in_order (rd_req f) (requests w) (requests w'))
  /\ (forall x e f' w',
        send_data f w = Some (ExitReturn x e f' w') ->
        served_in_order (wr_req f) (requests w) (requests w')).
Proof.
  intros f rq w.
  apply (pending_requests_served_from_head 0 w "/p" 2 f [] 2 O_RDONLY).
  - reflexivity.
  - apply NoDup_cons. split; [|apply NoDup_singleton].
    intros H. apply list_elem_of_singleton in H. discriminate H.
  - apply NoDup_nil_2.
Defined.

(** C1, as stated: two reads of 2 bytes sleep on the same pipe, the first
    on request 0 and the second on request 1; a WRITE of 2 bytes arrives.
    The bytes go to request 1, enqueued last; request 0, enqueued first,
    gets nothing. *)
Lemma first_request_not_served_first :
  let f := set_open_mode (set_writers (set_readers (a_pipe "/p") 1) 1) O_RDONLY in
  let w := store f quiet_world in
  match netpipe_read w "/p" 2 false with
  | Wait w1 _ _ _ _ =>
      match netpipe_read w1 "/p" 2 false with
      | Wait w2 _ _ _ _ =>
          match netpipe_recv 0 (set_inbound w2 [xaa; xbb]) "/p" 2 with
          | Done w3 _ =>
              requests w1 !! 0%nat
              = Some {| req_buf := []; req_bytes_processed := 0;
                        req_size := 2; req_error := 0 |}
              /\ requests w1 !! 1%nat = None
              /\ requests w3 !! 0%nat
                 = Some {| req_buf := []; req_bytes_processed := 0;
                           req_size := 2; req_error := 0 |}
              /\ requests w3 !! 1%nat
                 = Some {| req_buf := [xaa; xbb]; req_bytes_processed := 2;
                           req_size := 2; req_error := 0 |}
          | _ => False
          end
      | _ => False
      end
  | _ => False
  end.
Proof. vm_compute. repeat split. Qed.

(** ** Flow control: the credit invariant *)

Lemma sound_store (f : netpipe) (w : world) :
  sound w -> pipe_ok f -> sound (store f w).
Proof.
  intros (Ht & Hrest) Hf. unfold sound. fields. split; [|exact Hrest].
  intros p g Hg. apply lookup_insert_Some in Hg as [[_ <-]|[_ Hg]];
    [apply Hf | by apply (Ht p g)].
Qed.

Lemma sound_emit (w : world) (e : event) :
  sound w -> write_ok e -> sound (emit w e).
Proof.
  intros (Ht & Htr & Hrest) He. unfold sound. fields.
  split; [exact Ht|]. split; [|exact Hrest].
  apply Forall_app. split; [assumption|]. by constructor.
Qed.

Lemma sound_frame (w w' : world) :
  open_files w' = open_files w -> trace w' = trace w ->
  requests w' = requests w ->
  remotepipecapacity w' = remotepipecapacity w ->
  pipecapacity w' = pipecapacity w ->
  sound w -> sound w'.
Proof.
  unfold sound. intros -> -> -> -> ->. tauto.
Qed.

Lemma sound_set_requests (w : world) (h : gmap nat netpipe_req) :
  sound w -> requests_typed h -> sound (set_requests w h).
Proof.
  intros (Ht & Htr & Hrq & Hcap) Hh. unfold sound. fields. tauto.
Qed.

Lemma requests_typed_insert (h : gmap nat netpipe_req) (r : nat) (rq : netpipe_req) :
  requests_typed h -> 0 <= req_size rq < 2 ^ 64 -> requests_typed (<[r := rq]> h).
Proof.
  intros Hh Hrq r' rq' H. apply lookup_insert_Some in H as [[_ <-]|[_ H]];
    [exact Hrq | by apply (Hh r')].
Qed.

Lemma requests_typed_delete (h : gmap nat netpipe_req) (r : nat) :
  requests_typed h -> requests_typed (delete r h).
Proof.
  intros Hh r' rq' H. apply lookup_delete_Some in H as [_ H]. by apply (Hh r').
Qed.

Lemma sock_send_sound (f : netpipe) (m : msg) (w : world) :
  sound w ->
  (forall r, write_ok (EvSend m r (remotesize f) (remotemax f))) ->
  sound (sock_send f m w).2.
Proof.
  intros Hw Hm. unfold sock_send.
  assert (Hs : sound (emit (set_sock_calls w (S (sock_calls w)))
                        (EvSend m (replies w (sock_calls w))
                           (remotesize f) (remotemax f)))).
  { apply sound_emit; [|apply Hm]. revert Hw. by apply sound_frame. }
  by destruct (replies w (sock_calls w)).
Qed.

Lemma mem_read_length (m : list byte) (n : Z) :
  length (mem_read m n) = Z.to_nat n.
Proof.
  unfold mem_read. rewrite length_take, length_app, length_replicate. lia.
Qed.

Lemma available_remote_ok (f : netpipe) :
  credit_ok f -> available_remote f = remotemax f - remotesize f.
Proof.
  intros (H0 & H1 & H2). unfold available_remote. apply size_t_id. lia.
Qed.

Lemma do_send_ok (f : netpipe) (w : world) (bufptr : list byte) (size : Z) :
  pipe_ok f -> sound w ->
  pipe_ok (do_send f w bufptr size).1.2 /\ sound (do_send f w bufptr size).2.
Proof.
  intros Hf Hw. unfold do_send.
  pose proof (available_remote_ok f (proj1 Hf)) as Ha.
  pose proof Hf as ((H0 & H1 & H2) & Hb).
  set (n := if size <? available_remote f then size else available_remote f).
  assert (Hn : n <= remotemax f - remotesize f).
  { subst n. destruct (size <? available_remote f) eqn:E; [apply Z.ltb_lt in E|]; lia. }
  destruct (n =? 0); [by split|].
  unfold send_write_message.
  assert (Hs : sound (sock_send f (WRITE (path f) (mem_read bufptr n)) w).2).
  { apply sock_send_sound; [exact Hw|]. intros r. simpl.
    rewrite mem_read_length. lia. }
  unfold sock_send in *.
  destruct (replies w (sock_calls w)); cbn [fst snd] in *; cbv zeta.
  - rewrite mem_read_length.
    set (c := Z.of_nat (Z.to_nat n)).
    pose proof (int_le c ltac:(lia)) as Hle. pose proof (int_range c) as Hr.
    destruct (int c <=? 0) eqn:E; cbn [fst snd]; [by split|].
    split; [|exact Hs]. apply Z.leb_gt in E.
    unfold_ok. fields.
    rewrite (size_t_id (int c)) by lia.
    rewrite size_t_id by lia. repeat split; try lia; apply Hb.
  - change (int 0 <=? 0) with true. by split.
  - change (int (-1) <=? 0) with true. by split.
Qed.

Lemma cbuf_get_ok (b : cbuf) (n : Z) : cbuf_ok b -> cbuf_ok (cbuf_get b n).1.1.
Proof.
  intros (Hs & Hc). unfold cbuf_get, cbuf_ok, cbuf_size in *. simpl.
  rewrite length_drop. split; [lia | exact Hc].
Qed.

Lemma cbuf_get_length (b : cbuf) (n : Z) :
  Z.of_nat (length (cbuf_get b n).1.2) <= Z.max 0 n.
Proof. unfold cbuf_get. simpl. rewrite length_take. unfold cbuf_size. lia. Qed.

Lemma cbuf_put_ok (b : cbuf) (src : list byte) (n : Z) :
  cbuf_ok b -> cbuf_ok (cbuf_put b src n).1.
Proof.
  intros (Hs & Hc). unfold cbuf_put, cbuf_ok, cbuf_free in *.
  unfold cbuf_size in *. cbn [fst cb_data cb_capacity].
  rewrite length_app, mem_read_length. split; [lia | exact Hc].
Qed.

Lemma readn_sound (n : Z) (w : world) : sound w -> sound (readn n w).2.
Proof.
  intros Hw. unfold readn. destruct (_ && _); [|exact Hw].
  revert Hw. by apply sound_frame.
Qed.

Lemma readn_length (n : Z) (w : world) :
  Z.of_nat (length (readn n w).1.2) <= Z.max 0 n.
Proof.
  unfold readn. destruct (_ && _); simpl; [|lia]. rewrite length_take. lia.
Qed.

Lemma cbuf_readn_ok (b : cbuf) (n : Z) (w : world) :
  cbuf_ok b -> sound w ->
  cbuf_ok (cbuf_readn b n w).1.2 /\ sound (cbuf_readn b n w).2.
Proof.
  intros (Hs & Hc) Hw. unfold cbuf_readn.
  pose proof (readn_sound (n `min` cbuf_free b) w Hw) as H1.
  pose proof (readn_length (n `min` cbuf_free b) w) as H2.
  destruct (readn _ _) as [[k data] w']. cbn [fst snd] in *.
  split; [|exact H1]. unfold cbuf_ok, cbuf_free in *. unfold cbuf_size in *.
  cbn [cb_data cb_capacity].
  rewrite length_app. split; [lia | exact Hc].
Qed.

Lemma do_flush_ok (f : netpipe) (w : world) :
  pipe_ok f -> sound w ->
  pipe_ok (do_flush f w).1.2 /\ sound (do_flush f w).2.
Proof.
  intros Hf Hw. unfold do_flush.
  pose proof (available_remote_ok f (proj1 Hf)) as Ha.
  pose proof Hf as ((H0 & H1 & H2) & Hb).
  set (n := if cbuf_size (buffer f) <? available_remote f
            then cbuf_size (buffer f) else available_remote f).
  assert (Hn : n <= remotemax f - remotesize f).
  { subst n. destruct (_ <? _) eqn:E; [apply Z.ltb_lt in E|]; lia. }
  destruct (n =? 0); [by split|].
  unfold send_flush_message.
  pose proof (cbuf_get_ok (buffer f) n Hb) as Hb'.
  pose proof (cbuf_get_length (buffer f) n) as Hlen.
  destruct (cbuf_get (buffer f) n) as [[b' data] k]. simpl in Hb', Hlen.
  assert (Hs : sound (sock_send f (WRITE (path f) data) w).2).
  { apply sock_send_sound; [exact Hw|]. intros r. simpl. lia. }
  unfold sock_send in *.
  destruct (replies w (sock_calls w)); cbn [fst snd] in *; cbv zeta.
  - set (c := Z.of_nat (length data)) in *.
    pose proof (int_le c ltac:(lia)) as Hle. pose proof (int_range c) as Hr.
    assert (Hf' : pipe_ok (if 0 <? c then set_buffer f b' else f)).
    { destruct (0 <? c); [|exact Hf]. split; [by repeat split | exact Hb']. }
    destruct (int c <=? 0) eqn:E; cbn [fst snd]; [by split|].
    apply Z.leb_gt in E.
    replace (0 <? c) with true in * by (symmetry; apply Z.ltb_lt; lia).
    split; [|exact Hs]. unfold_ok. fields.
    rewrite (size_t_id (int c)) by lia.
    rewrite size_t_id by lia. repeat split; try lia; apply Hb'.
  - change (int 0 <=? 0) with true. change (0 <? 0) with false. by split.
  - change (int (-1) <=? 0) with true. change (0 <? -1) with false. by split.
Qed.

Lemma do_buffered_read_ok (f : netpipe) (w : world) (size : Z) :
  pipe_ok f -> sound w ->
  pipe_ok (do_buffered_read f w size).1.2 /\ sound (do_buffered_read f w size).2.
Proof.
  intros (Hc & Hb) Hw. unfold do_buffered_read.
  pose proof (cbuf_get_ok (buffer f) size Hb) as Hb'.
  destruct (cbuf_get (buffer f) size) as [[b' data] k]. simpl in Hb'.
  assert (Hf' : pipe_ok (set_buffer f b')) by (by split).
  destruct (k =? 0); [by split|].
  unfold send_read_message.
  pose proof (sock_send_sound (set_buffer f b') (READ (path (set_buffer f b')) k) w
                Hw (fun _ => I)) as Hs.
  destruct (sock_send _ _ _) as [[bytes e] w']. simpl in Hs.
  by destruct (bytes <=? 0).
Qed.

Lemma poll_notify_sound (l : list nat) (w : world) :
  sound w -> sound (foldl (fun w0 ph => emit w0 (EvPollNotify ph)) w l).
Proof.
  revert w. induction l as [|ph l IH]; intros w Hw; simpl; [exact Hw|].
  apply IH. by apply sound_emit.
Qed.

Lemma poll_destroy_sound (l : list nat) (w : world) :
  sound w -> sound (foldl (fun w0 ph => emit w0 (EvPollDestroy ph)) w l).
Proof.
  revert w. induction l as [|ph l IH]; intros w Hw; simpl; [exact Hw|].
  apply IH. by apply sound_emit.
Qed.

Lemma loop_poll_notify_ok (f : netpipe) (w : world) :
  pipe_ok f -> sound w ->
  pipe_ok (loop_poll_notify f w).1 /\ sound (loop_poll_notify f w).2.
Proof.
  intros Hf Hw. unfold loop_poll_notify. simpl. split; [exact Hf|].
  by apply poll_notify_sound.
Qed.

Lemma netpipe_add_request_ok (f : netpipe) (w : world) (buf : list byte)
    (size mode : Z) :
  pipe_ok f -> sound w -> 0 <= size < 2 ^ 64 ->
  pipe_ok (netpipe_add_request f w buf size mode).1.2
  /\ sound (netpipe_add_request f w buf size mode).2.
Proof.
  intros Hf Hw Hsize. unfold netpipe_add_request.
  assert (Hs : sound (set_next_request
                        (set_requests w
                           (<[next_request w :=
                                {| req_buf := buf; req_bytes_processed := 0;
                                   req_size := size; req_error := 0 |}]>
                              (requests w)))
                        (S (next_request w)))).
  { apply (sound_frame (set_requests w
                          (<[next_request w :=
                                {| req_buf := buf; req_bytes_processed := 0;
                                   req_size := size; req_error := 0 |}]>
                              (requests w)))); try reflexivity.
    apply sound_set_requests; [exact Hw|].
    apply requests_typed_insert; [apply Hw | exact Hsize]. }
  by destruct (mode =? O_RDONLY).
Qed.

Lemma free_request_sound (w : world) (r : nat) :
  sound w -> sound (free_request w r).
Proof.
  intros Hw. apply sound_set_requests; [exact Hw|].
  apply requests_typed_delete, Hw.
Qed.

Lemma netpipe_free_sound (f : netpipe) (w : world) :
  sound w -> sound (netpipe_free f w).
Proof.
  intros Hw. unfold netpipe_free.
  pose proof (poll_destroy_sound (poll_handles f) w Hw) as H1.
  set (w1 := foldl _ w _) in *. clearbody w1.
  assert (H2 : requests_typed (foldr delete (requests w1) (rd_req f ++ wr_req f))).
  { induction (rd_req f ++ wr_req f) as [|r l IH]; simpl; [apply H1|].
    by apply requests_typed_delete. }
  destruct H1 as (Ht & Htr & Hrq & Hcap).
  unfold sound. fields. split; [|tauto].
  intros p g Hg. apply lookup_delete_Some in Hg as [_ Hg]. by apply (Ht p g).
Qed.

Lemma remove_open_file_sound (w : world) (p : string) :
  sound w -> sound (netpipefs_remove_open_file w p).2.
Proof.
  intros Hw. unfold netpipefs_remove_open_file.
  destruct (open_files w !! p); [|exact Hw]. simpl.
  destruct Hw as (Ht & Hrest). unfold sound. fields. split; [|exact Hrest].
  intros q g Hg. apply lookup_delete_Some in Hg as [_ Hg]. by apply (Ht q g).
Qed.

Lemma safe_with_file {A} (w : world) (p : string) (k : netpipe -> outcome A) :
  sound w ->
  (forall f, open_files w !! p = Some f -> pipe_ok f -> safe (k f)) ->
  safe (with_file w p k).
Proof.
  intros Hw Hk. unfold with_file.
  destruct (open_files w !! p) as [f|] eqn:Hf; [|exact I].
  apply Hk; [reflexivity|]. by apply (proj1 Hw p f).
Qed.

Lemma safe_wait_while {A} (f : netpipe) (w : world) (cv : condvar)
    (cond : netpipe -> world -> bool) (k : netpipe -> world -> outcome A) :
  pipe_ok f -> sound w ->
  (forall f' w', pipe_ok f' -> sound w' -> safe (k f' w')) ->
  safe (wait_while f w cv cond k).
Proof.
  intros Hf Hw Hk. unfold wait_while. destruct (cond f w); [|by apply Hk].
  simpl. split; [by apply sound_store|].
  intros w' Hw'. apply safe_with_file; [exact Hw'|].
  intros f' _ Hf'. by apply Hk.
Qed.

Lemma safe_lock_after {A B} (o : outcome A) (p : string)
    (g : world -> A -> outcome B) :
  safe o -> (forall w a, sound w -> safe (g w a)) -> safe (lock_after o p g).
Proof.
  intros Ho Hg.
  induction o as [w a| |w q cv waiting k IH|w q a|w q]; cbn [lock_after safe] in *.
  - split; [exact Ho|]. intros w' Hw'. by apply Hg.
  - exact I.
  - destruct Ho as [Hw Hk]. split; [exact Hw|].
    intros w' Hw'. apply IH. by apply Hk.
  - exact Ho.
  - exact Ho.
Qed.

Lemma safe_forget {A} (o : outcome A) : safe o -> safe (forget o).
Proof.
  intros Ho.
  induction o as [w a| |w q cv waiting k IH|w q a|w q]; cbn [forget safe] in *;
    try exact Ho.
  destruct Ho as [Hw Hk]. split; [exact Hw|].
  intros w' Hw'. apply IH. by apply Hk.
Qed.

Lemma sound_update_request (w : world) (r : nat) (rq rq' : netpipe_req) :
  sound w -> requests w !! r = Some rq -> req_size rq' = req_size rq ->
  sound (set_requests w (<[r := rq']> (requests w))).
Proof.
  intros Hw Hr Hsz. apply sound_set_requests; [exact Hw|].
  apply requests_typed_insert; [apply Hw|].
  rewrite Hsz. destruct Hw as (_ & _ & Hrq & _). by apply (Hrq r).
Qed.

Lemma recv_buffered_body_ok (s : recv_state) :
  pipe_ok (rs_file s) -> sound (rs_world s) ->
  match recv_buffered_body s with
  | inl x => exit_ok x
  | inr s' => pipe_ok (rs_file s') /\ sound (rs_world s')
  end.
Proof.
  intros Hf Hw. unfold recv_buffered_body.
  destruct (rs_req s) as [|r next]; [by split|].
  destruct (requests (rs_world s) !! r) as [rq|] eqn:Hr; [|exact I].
  match goal with |- context [do_buffered_read ?a ?b ?c] =>
    pose proof (do_buffered_read_ok a b c Hf Hw) as [Hf' Hw'];
    pose proof (do_buffered_read_requests a b c) as Hfr;
    destruct (do_buffered_read a b c) as [[[[[err n] data] e] f] w] end.
  fields_in Hf'. fields_in Hw'. fields_in Hfr.
  destruct (err <=? 0); [by split|]. fields. split; [exact Hf'|].
  eapply sound_update_request; [exact Hw' | by rewrite Hfr | reflexivity].
Qed.

Lemma recv_socket_body_ok (s : recv_state) :
  pipe_ok (rs_file s) -> sound (rs_world s) ->
  match recv_socket_body s with
  | inl x => exit_ok x
  | inr s' => pipe_ok (rs_file s') /\ sound (rs_world s')
  end.
Proof.
  intros Hf Hw. unfold recv_socket_body.
  destruct (rs_req s) as [|r next]; [by split|].
  destruct (requests (rs_world s) !! r) as [rq|] eqn:Hr; [|exact I].
  match goal with |- context [readn ?a ?b] =>
    pose proof (readn_sound a b Hw) as Hw1;
    pose proof (readn_requests a b) as Hfr;
    destruct (readn a b) as [[n data] w] end.
  fields_in Hw1. fields_in Hfr.
  destruct (n <=? 0); [by split|].
  unfold send_read_message.
  match goal with |- context [sock_send ?a ?b ?c] =>
    pose proof (sock_send_sound a b c Hw1 (fun _ => I)) as Hw2;
    pose proof (sock_send_requests a b c) as Hfs;
    destruct (sock_send a b c) as [[err e] w'] end.
  fields_in Hw2. fields_in Hfs.
  destruct (err <=? 0); [by split|]. fields. split; [exact Hf|].
  eapply sound_update_request; [exact Hw2 | by rewrite Hfs, Hfr | reflexivity].
Qed.

Lemma send_requests_body_ok (s : send_state) :
  pipe_ok (ss_file s) -> sound (ss_world s) ->
  match send_requests_body s with
  | inl x => exit_ok x
  | inr s' => pipe_ok (ss_file s') /\ sound (ss_world s')
  end.
Proof.
  intros Hf Hw. unfold send_requests_body.
  destruct (ss_req s) as [|r next]; [by split|].
  destruct (requests (ss_world s) !! r) as [rq|] eqn:Hr; [|exact I].
  match goal with |- context [do_send ?a ?b ?c ?d] =>
    pose proof (do_send_ok a b c d Hf Hw) as [Hf' Hw'];
    pose proof (do_send_requests a b c d) as Hfr;
    destruct (do_send a b c d) as [[[[err n] e] f] w] end.
  fields_in Hf'. fields_in Hw'. fields_in Hfr.
  destruct (err <=? 0).
  - unfold exit_ok, pthread_cond_broadcast. split; [exact Hf'|].
    apply sound_emit; [|exact I].
    eapply sound_update_request; [exact Hw' | by rewrite Hfr | reflexivity].
  - fields. split; [exact Hf'|].
    eapply sound_update_request; [exact Hw' | by rewrite Hfr | reflexivity].
Qed.

Lemma writeahead_body_ok (s : send_state) :
  pipe_ok (ss_file s) -> sound (ss_world s) ->
  match writeahead_body s with
  | inl x => exit_ok x
  | inr s' => pipe_ok (ss_file s') /\ sound (ss_world s')
  end.
Proof.
  intros Hf Hw. unfold writeahead_body.
  destruct (ss_req s) as [|r next]; [by split|].
  destruct (requests (ss_world s) !! r) as [rq|] eqn:Hr; [|exact I].
  match goal with |- context [cbuf_put ?a ?b ?c] =>
    pose proof (cbuf_put_ok a b c (proj2 Hf)) as Hb;
    destruct (cbuf_put a b c) as [b' n] end.
  fields_in Hb. fields. split; [split; [apply Hf | exact Hb]|].
  eapply sound_update_request; [exact Hw | exact Hr | reflexivity].
Qed.

Lemma request_loop_ok {S : Type} (file_of : S -> netpipe) (world_of : S -> world)
    (cond : S -> bool) (body : S -> loop_exit + S) :
  (forall s, pipe_ok (file_of s) -> sound (world_of s) ->
     match body s with
     | inl x => exit_ok x
     | inr s' => pipe_ok (file_of s') /\ sound (world_of s')
     end) ->
  forall fuel s res,
    pipe_ok (file_of s) -> sound (world_of s) ->
    while fuel cond body s = Some res ->
    match res with
    | inl x => exit_ok x
    | inr s' => pipe_ok (file_of s') /\ sound (world_of s')
    end.
Proof.
  intros Hbody fuel s res Hf Hw H.
  pose proof (while_inv (fun s => pipe_ok (file_of s) /\ sound (world_of s))
                exit_ok cond body) as Hinv.
  cut (match res with
       | inl x => exit_ok x
       | inr s' => (pipe_ok (file_of s') /\ sound (world_of s')) /\ cond s' = false
       end).
  { destruct res; tauto. }
  apply Hinv with (fuel := fuel) (s := s); [|by split|exact H].
  intros s0 [Hf0 Hw0] _. by apply Hbody.
Qed.

Lemma send_data_ok (f : netpipe) (w : world) :
  pipe_ok f -> sound w ->
  match send_data f w with Some x => exit_ok x | None => True end.
Proof.
  intros Hf Hw. unfold send_data.
  pose proof (do_flush_ok f w Hf Hw) as [Hf1 Hw1].
  destruct (do_flush f w) as [[[[err bytes] e] f1] w1].
  fields_in Hf1. fields_in Hw1.
  destruct (err <=? 0); [by split|].
  match goal with
  | |- context [while ?n send_requests_cond send_requests_body ?s] =>
      pose proof (request_loop_ok ss_file ss_world send_requests_cond
                    send_requests_body send_requests_body_ok n s) as L1;
      destruct (while n send_requests_cond send_requests_body s)
        as [[[err1 en f2 w2|]|s1]|]; try exact I
  end; specialize (L1 _ Hf1 Hw1 eq_refl); cbv beta iota in L1.
  - exact L1.
  - destruct L1 as [Hf2 Hw2].
    match goal with
    | |- context [while ?n writeahead_cond writeahead_body ?s] =>
        pose proof (request_loop_ok ss_file ss_world writeahead_cond
                      writeahead_body writeahead_body_ok n s) as L2;
        destruct (while n writeahead_cond writeahead_body s)
          as [[x|s2]|]; try exact I
    end; specialize (L2 _ Hf2 Hw2 eq_refl); cbv beta iota in L2.
    + exact L2.
    + destruct L2 as [Hf3 Hw3].
      destruct (0 <? ss_datasent s2).
      * unfold loop_poll_notify. split; [exact Hf3|].
        by apply poll_notify_sound.
      * by split.
Qed.

Lemma after_send_data_safe (o : option loop_exit) :
  match o with Some x => exit_ok x | None => True end ->
  safe (after_send_data o).
Proof.
  intros Ho. unfold after_send_data.
  destruct o as [[r f w|]|]; try exact I. destruct Ho as [Hf Hw].
  destruct (0 <? int r); simpl.
  - apply sound_store; [|exact Hf]. by apply sound_emit.
  - by apply sound_store.
Qed.

Lemma netpipe_read_request_safe (w : world) (p : string) (size : Z) :
  sound w -> within_window w (call_read_request p size) ->
  safe (netpipe_read_request w p size).
Proof.
  intros Hw [Hsize Hadm]. unfold netpipe_read_request.
  apply safe_with_file; [exact Hw|]. intros f Hf ((H0 & H1 & H2) & Hb).
  apply after_send_data_safe, send_data_ok; [|exact Hw].
  specialize (Hadm f Hf). unfold_ok. fields.
  rewrite size_t_id by lia. repeat split; try lia; apply Hb.
Qed.

Lemma netpipe_read_update_safe (w : world) (p : string) (size : Z) :
  sound w -> within_window w (call_read_update p size) ->
  safe (netpipe_read_update w p size).
Proof.
  intros Hw [Hsize Hadm]. unfold netpipe_read_update.
  apply safe_with_file; [exact Hw|]. intros f Hf ((H0 & H1 & H2) & Hb).
  apply after_send_data_safe, send_data_ok; [|exact Hw].
  specialize (Hadm f Hf). unfold_ok. fields.
  rewrite !size_t_id by lia. repeat split; try lia; apply Hb.
Qed.

Lemma netpipe_alloc_ok (w : world) (p : string) :
  sound w -> pipe_ok (netpipe_alloc w p).
Proof.
  intros (_ & _ & _ & Hrc & Hpc). unfold netpipe_alloc. unfold_ok. fields.
  simpl. lia.
Qed.

Lemma get_or_create_ok (w : world) (p : string) :
  sound w ->
  pipe_ok (netpipefs_get_or_create_open_file w p).1.1
  /\ sound (netpipefs_get_or_create_open_file w p).2.
Proof.
  intros Hw. unfold netpipefs_get_or_create_open_file.
  destruct (open_files w !! p) as [f|] eqn:Hf; fields.
  - split; [by apply (proj1 Hw p f) | exact Hw].
  - split; [by apply netpipe_alloc_ok|].
    apply sound_store; [exact Hw | by apply netpipe_alloc_ok].
Qed.

Lemma open_error_safe (f : netpipe) (w : world) (jc : bool) (e : option Z) :
  pipe_ok f -> sound w -> safe (open_error f w jc e).
Proof.
  intros Hf Hw. unfold open_error. destruct jc.
  - pose proof (remove_open_file_sound w (path f) Hw) as H.
    destruct (netpipefs_remove_open_file w (path f)) as [d w1]. simpl in *.
    by apply netpipe_free_sound.
  - simpl. by apply sound_store.
Qed.

Lemma undo_open_safe (f : netpipe) (w : world) (mode : Z) (jc : bool)
    (e : option Z) :
  pipe_ok f -> sound w -> safe (undo_open f w mode jc e).
Proof.
  intros Hf Hw. unfold undo_open. apply open_error_safe; [|exact Hw].
  destruct (mode =? O_RDONLY); [|destruct (mode =? O_WRONLY)];
    try match goal with |- context [if ?c then _ else _] => destruct c end;
    exact Hf.
Qed.

Lemma netpipe_open_safe (w : world) (p : string) (mode : Z) (nonblock : bool) :
  sound w -> safe (netpipe_open w p mode nonblock).
Proof.
  intros Hw. unfold netpipe_open.
  destruct (mode =? O_RDWR); [exact Hw|].
  pose proof (get_or_create_ok w p Hw) as [Hf Hw1].
  destruct (netpipefs_get_or_create_open_file w p) as [[f jc] w1].
  fields_in Hf. fields_in Hw1.
  destruct (force_exit f); [by apply open_error_safe|].
  destruct (_ && _); [by apply open_error_safe|].
  set (f1 := if mode =? O_RDONLY then _ else _).
  assert (Hf1 : pipe_ok f1).
  { subst f1. destruct (mode =? O_RDONLY); [|destruct (mode =? O_WRONLY)]; exact Hf. }
  clearbody f1.
  destruct (nonblock && _); [by apply undo_open_safe|].
  unfold send_open_message.
  pose proof (sock_send_sound f1 (OPEN p mode)
                (pthread_cond_broadcast f1 cv_canopen w1)
                (sound_emit w1 (EvBroadcast (path f1) cv_canopen) Hw1 I)
                (fun _ => I)) as Hw2.
  destruct (sock_send _ _ _) as [[bytes e] w2]. fields_in Hw2.
  destruct (bytes <=? 0); [by apply undo_open_safe|].
  apply safe_wait_while; [exact Hf1 | exact Hw2 |].
  intros f' w' Hf' Hw'. destruct (force_exit f'); [by apply undo_open_safe|].
  simpl. by apply sound_store.
Qed.

Lemma netpipe_open_update_safe (w : world) (p : string) (mode : Z) :
  sound w -> safe (netpipe_open_update w p mode).
Proof.
  intros Hw. unfold netpipe_open_update.
  destruct (mode =? O_RDWR); [exact Hw|].
  pose proof (get_or_create_ok w p Hw) as [Hf Hw1].
  destruct (netpipefs_get_or_create_open_file w p) as [[f jc] w1].
  fields_in Hf. fields_in Hw1. simpl.
  apply sound_store; [by apply sound_emit|].
  destruct (mode =? O_RDONLY); [|destruct (mode =? O_WRONLY)]; exact Hf.
Qed.

Lemma netpipe_send_wake_safe (sent : Z) (request : nat) (f : netpipe) (w : world) :
  pipe_ok f -> sound w -> safe (netpipe_send_wake sent request f w).
Proof.
  intros Hf Hw. unfold netpipe_send_wake.
  destruct (requests w !! request); [|exact I].
  destruct (_ && _); simpl; by apply free_request_sound, sound_store.
Qed.

Lemma netpipe_read_wake_safe (read : Z) (data : list byte) (request : nat)
    (f : netpipe) (w : world) :
  pipe_ok f -> sound w -> safe (netpipe_read_wake read data request f w).
Proof.
  intros Hf Hw. unfold netpipe_read_wake.
  destruct (requests w !! request); [|exact I].
  destruct (_ && _); simpl; by apply free_request_sound, sound_store.
Qed.

Lemma netpipe_flush_wake_safe (datasent : Z) (request : nat)
    (f : netpipe) (w : world) :
  pipe_ok f -> sound w -> safe (netpipe_flush_wake datasent request f w).
Proof.
  intros Hf Hw. unfold netpipe_flush_wake.
  destruct (requests w !! request); [|exact I].
  destruct (_ && _); simpl; by apply free_request_sound, sound_store.
Qed.

Lemma netpipe_send_safe (w : world) (p : string) (buf : list byte) (size : Z)
    (nonblock : bool) :
  sound w -> safe (netpipe_send w p buf size nonblock).
Proof.
  intros Hw. unfold netpipe_send. apply safe_with_file; [exact Hw|].
  intros f _ Hf.
  destruct (force_exit f || _); [exact Hw|].
  pose proof (do_flush_ok f w Hf Hw) as [Hf1 Hw1].
  destruct (do_flush f w) as [[[[err bytes] e] f1] w1].
  fields_in Hf1. fields_in Hw1.
  destruct (err <=? 0); [by apply sound_store|].
  set (wb := if 0 <? bytes then _ else _).
  assert (Hwb : sound wb).
  { subst wb. destruct (0 <? bytes); [by apply sound_emit | exact Hw1]. }
  clearbody wb.
  assert (Hrest : forall bufptr sent f2 wc, pipe_ok f2 -> sound wc ->
    safe (if sent =? size then Done (store f2 wc) (Result (ssize_t sent) None) else
      let '(b, bytes) := cbuf_put (buffer f2) bufptr size in
      let f := set_buffer f2 b in
      let bufptr := mem_advance bufptr bytes in
      let sent := size_t (sent + bytes) in
      if (sent =? size) || nonblock
      then Done (store f wc)
             (Result (ssize_t sent) (if sent =? 0 then Some EAGAIN else None)) else
      let remaining := size_t (size - sent) in
      let '(request, f, w) := netpipe_add_request f wc bufptr remaining O_WRONLY in
      wait_while f w cv_wr (request_pending request remaining)
        (netpipe_send_wake sent request))).
  { intros bufptr sent f2 wc Hf2 Hwc.
    destruct (sent =? size); [by apply sound_store|].
    pose proof (cbuf_put_ok (buffer f2) bufptr size (proj2 Hf2)) as Hb.
    destruct (cbuf_put (buffer f2) bufptr size) as [b put]. fields_in Hb.
    cbv zeta.
    assert (Hf3 : pipe_ok (set_buffer f2 b)) by (split; [apply Hf2 | exact Hb]).
    destruct (_ || nonblock); [by apply sound_store|].
    match goal with |- context [netpipe_add_request ?a ?b ?c ?d ?e] =>
      pose proof (netpipe_add_request_ok a b c d e Hf3 Hwc (size_t_range _))
        as [Hf4 Hw4];
      destruct (netpipe_add_request a b c d e) as [[request f4] w4] end.
    fields_in Hf4. fields_in Hw4.
    apply safe_wait_while; [exact Hf4 | exact Hw4 |].
    intros f' w'. apply netpipe_send_wake_safe. }
  destruct ((0 <? available_remote f1) && cbuf_empty (buffer f1)).
  - pose proof (do_send_ok f1 wb buf size Hf1 Hwb) as [Hf2 Hw2].
    destruct (do_send f1 wb buf size) as [[[[err2 bytes2] e2] f2] w2].
    fields_in Hf2. fields_in Hw2.
    destruct (err2 <=? 0); [by apply sound_store|].
    by apply Hrest.
  - by apply Hrest.
Qed.

Lemma netpipe_read_safe (w : world) (p : string) (size : Z) (nonblock : bool) :
  sound w -> safe (netpipe_read w p size nonblock).
Proof.
  intros Hw. unfold netpipe_read. apply safe_with_file; [exact Hw|].
  intros f _ Hf.
  destruct (force_exit f); [exact Hw|].
  pose proof (do_buffered_read_ok f w size Hf Hw) as [Hf1 Hw1].
  destruct (do_buffered_read f w size) as [[[[[err read] data] e] f1] w1].
  fields_in Hf1. fields_in Hw1.
  destruct (err <=? 0); [by apply sound_store|].
  destruct (_ || nonblock); [by apply sound_store|].
  destruct (writers f1 =? 0); [by apply sound_store|].
  match goal with |- context [netpipe_add_request ?a ?b ?c ?d ?e] =>
    pose proof (netpipe_add_request_ok a b c d e Hf1 Hw1 (size_t_range _))
      as [Hf2 Hw2];
    destruct (netpipe_add_request a b c d e) as [[request f2] w2] end.
  fields_in Hf2. fields_in Hw2.
  unfold send_read_request_message.
  match goal with |- context [sock_send ?a ?b ?c] =>
    pose proof (sock_send_sound a b c Hw2 (fun _ => I)) as Hw3;
    destruct (sock_send a b c) as [[err3 e3] w3] end.
  fields_in Hw3.
  destruct (err3 <=? 0); [by apply free_request_sound, sound_store|].
  apply safe_wait_while; [exact Hf2 | exact Hw3 |].
  intros f' w'. apply netpipe_read_wake_safe.
Qed.

Lemma netpipe_flush_safe (w : world) (p : string) (nonblock : bool) :
  sound w -> safe (netpipe_flush w p nonblock).
Proof.
  intros Hw. unfold netpipe_flush. apply safe_with_file; [exact Hw|].
  intros f _ Hf.
  destruct (force_exit f || _); [exact Hw|].
  pose proof (do_flush_ok f w Hf Hw) as [Hf1 Hw1].
  destruct (do_flush f w) as [[[[err bytes] e] f1] w1].
  fields_in Hf1. fields_in Hw1.
  destruct (err <=? 0); [by apply sound_store|].
  pose proof (sound_emit w1 (EvBroadcast (path f1) cv_wr) Hw1 I) as Hw2.
  destruct (_ || nonblock); [by apply sound_store|].
  assert (Hsz : 0 <= cbuf_size (buffer f1) < 2 ^ 64).
  { destruct Hf1 as (_ & Hs & Hc). pose proof (cbuf_size_nonneg (buffer f1)). lia. }
  match goal with |- context [netpipe_add_request ?a ?b ?c ?d ?e] =>
    pose proof (netpipe_add_request_ok a b c d e Hf1 Hw2 Hsz) as [Hf3 Hw3];
    destruct (netpipe_add_request a b c d e) as [[request f3] w3] end.
  fields_in Hf3. fields_in Hw3.
  apply safe_wait_while; [exact Hf3 | exact Hw3 |].
  intros f' w'. apply netpipe_flush_wake_safe.
Qed.

Lemma netpipe_poll_safe (w : world) (p : string) (ph : nat) (revents : Z) :
  sound w -> safe (netpipe_poll w p ph revents).
Proof.
  intros Hw. unfold netpipe_poll. apply safe_with_file; [exact Hw|].
  intros f _ Hf. simpl. by apply sound_store.
Qed.

Lemma netpipe_force_exit_safe (w : world) (p : string) :
  sound w -> safe (netpipe_force_exit w p).
Proof.
  intros Hw. unfold netpipe_force_exit. apply safe_with_file; [exact Hw|].
  intros f _ Hf. simpl. apply sound_store; [|exact Hf].
  unfold pthread_cond_broadcast. by repeat apply sound_emit.
Qed.

Lemma netpipe_recv_safe (wakeup : Z) (w : world) (p : string) (size : Z) :
  sound w -> safe (netpipe_recv wakeup w p size).
Proof.
  intros Hw. unfold netpipe_recv. apply safe_with_file; [exact Hw|].
  intros f _ Hf.
  match goal with
  | |- context [while ?n recv_buffered_cond recv_buffered_body ?s] =>
      pose proof (request_loop_ok rs_file rs_world recv_buffered_cond
                    recv_buffered_body recv_buffered_body_ok n s) as L1;
      destruct (while n recv_buffered_cond recv_buffered_body s)
        as [[[err en f1 w1|]|s1]|]; try exact I
  end; specialize (L1 _ Hf Hw eq_refl); cbv beta iota in L1.
  - destruct L1. by apply sound_store.
  - destruct L1 as [Hf1 Hw1].
    match goal with
    | |- context [while ?n recv_socket_cond recv_socket_body ?s] =>
        pose proof (request_loop_ok rs_file rs_world recv_socket_cond
                      recv_socket_body recv_socket_body_ok n s) as L2;
        destruct (while n recv_socket_cond recv_socket_body s)
          as [[[err en f2 w2|]|s2]|]; try exact I
    end; specialize (L2 _ Hf1 Hw1 eq_refl); cbv beta iota in L2.
    + destruct L2. by apply sound_store.
    + destruct L2 as [Hf2 Hw2].
      assert (Hf3 : pipe_ok (set_rd_req (rs_file s2) (rs_req s2))) by exact Hf2.
      set (f3 := set_rd_req (rs_file s2) (rs_req s2)) in *. clearbody f3.
      assert (Hend : forall f4 w4, pipe_ok f4 -> sound w4 ->
        safe (let w := if negb (rs_wakeup s2 =? 0)
                       then pthread_cond_broadcast f4 cv_rd w4 else w4 in
              let '(f, w) := loop_poll_notify f4 w in
              Done (store f w) (Result (int size) None))).
      { intros f4 w4 Hf4 Hw4. cbv zeta.
        assert (Hw5 : sound (if negb (rs_wakeup s2 =? 0)
                             then pthread_cond_broadcast f4 cv_rd w4 else w4)).
        { destruct (negb _); [by apply sound_emit | exact Hw4]. }
        pose proof (loop_poll_notify_ok f4 _ Hf4 Hw5) as [Hf6 Hw6].
        destruct (loop_poll_notify f4 _) as [f6 w6]. simpl.
        by apply sound_store. }
      destruct (0 <? rs_remaining s2).
      * pose proof (cbuf_readn_ok (buffer f3) (rs_remaining s2) (rs_world s2)
                      (proj2 Hf3) Hw2) as [Hb Hw3].
        destruct (cbuf_readn _ _ _) as [[n b] w3]. fields_in Hb. fields_in Hw3.
        destruct (n <=? 0); [by apply sound_store|].
        apply Hend; [|exact Hw3]. split; [apply Hf3 | exact Hb].
      * by apply Hend.
Qed.

Lemma close_finish_safe (f : netpipe) (w : world) (mode err : Z)
    (e0 : option Z) :
  pipe_ok f -> sound w -> safe (close_finish f w mode err e0).
Proof.
  intros Hf Hw. unfold close_finish, send_close_message.
  pose proof (sock_send_sound f (CLOSE (path f) mode) w Hw (fun _ => I)) as Hw1.
  destruct (sock_send _ _ _) as [[bytes e] w1]. fields_in Hw1.
  assert (Hw2 : sound (store f w1)) by (by apply sound_store).
  destruct (_ && _).
  - pose proof (remove_open_file_sound (store f w1) (path f) Hw2) as Hw3.
    destruct (netpipefs_remove_open_file _ _) as [d w3]. fields_in Hw3.
    pose proof (netpipe_free_sound f w3 Hw3).
    by destruct (_ =? -1).
  - by destruct (_ =? -1).
Qed.

Lemma netpipe_close_safe (w : world) (p : string) (mode : Z) :
  sound w -> safe (netpipe_close w p mode).
Proof.
  intros Hw. unfold netpipe_close. apply safe_with_file; [exact Hw|].
  intros f _ Hf.
  destruct (mode =? O_WRONLY); [|destruct (mode =? O_RDONLY)];
    try (by apply close_finish_safe).
  match goal with |- context [if ?c then _ else _] => destruct c end;
    [|by apply close_finish_safe].
  unfold unlocked. cbn [safe]. split; [by apply sound_store|].
  intros w1 Hw1. apply safe_lock_after; [by apply netpipe_flush_safe|].
  intros w3 r Hw3. apply safe_with_file; [exact Hw3|].
  intros f3 _ Hf3. by apply close_finish_safe.
Qed.

Lemma fail_requests_sound (l : list nat) (w : world) :
  sound w -> sound (fail_requests l w).
Proof.
  intros Hw. apply sound_set_requests; [exact Hw|].
  destruct Hw as (_ & _ & Hrq & _).
  induction l as [|r l IH]; simpl; [exact Hrq|].
  intros r' rq' H. apply lookup_alter_Some in H as [(_ & rq & H & ->)|[_ H]].
  - simpl. exact (IH _ _ H).
  - exact (IH _ _ H).
Qed.

Lemma netpipe_close_update_safe (w : world) (p : string) (mode : Z) :
  sound w -> safe (netpipe_close_update w p mode).
Proof.
  intros Hw. unfold netpipe_close_update. apply safe_with_file; [exact Hw|].
  intros f _ Hf.
  set (fw := if mode =? O_WRONLY then _ else _).
  assert (Hfw : pipe_ok fw.1 /\ sound fw.2).
  { subst fw.
    destruct (mode =? O_WRONLY); [|destruct (mode =? O_RDONLY)];
      try match goal with |- context [if ?c then _ else _] => destruct c end;
      fields; split; try exact Hf; try exact Hw;
      apply sound_emit; try exact I; by apply fail_requests_sound. }
  destruct fw as [f1 w1]. destruct Hfw as [Hf1 Hw1]. fields_in Hf1. fields_in Hw1.
  pose proof (loop_poll_notify_ok f1 w1 Hf1 Hw1) as [Hf2 Hw2].
  destruct (loop_poll_notify f1 w1) as [f2 w2]. fields_in Hf2. fields_in Hw2.
  assert (Hw3 : sound (store f2 w2)) by (by apply sound_store).
  destruct (_ && _); [|exact Hw3].
  pose proof (remove_open_file_sound (store f2 w2) (path f2) Hw3) as Hw4.
  destruct (netpipefs_remove_open_file _ _) as [d w4]. fields_in Hw4.
  simpl. by apply netpipe_free_sound.
Qed.

Lemma run_safe (c : call) (w : world) :
  sound w -> within_window w c -> safe (run c w).
Proof.
  intros Hw Hadm. destruct c; cbn [run]; apply safe_forget.
  - by apply netpipe_open_safe.
  - by apply netpipe_open_update_safe.
  - by apply netpipe_send_safe.
  - by apply netpipe_recv_safe.
  - by apply netpipe_read_safe.
  - by apply netpipe_read_request_safe.
  - by apply netpipe_read_update_safe.
  - by apply netpipe_flush_safe.
  - by apply netpipe_poll_safe.
  - by apply netpipe_close_safe.
  - by apply netpipe_close_update_safe.
  - by apply netpipe_force_exit_safe.
Qed.

Lemma settle_ok (o : outcome unit) (asleep : list (outcome unit))
    (locked : list string) (cfg : config) :
  safe o -> Forall safe asleep -> settle o asleep locked = Some cfg ->
  config_ok cfg.
Proof.
  intros Ho Has H. destruct o as [w a| |w p cv waiting k|w p a|w p];
    cbn [settle] in H; try discriminate; injection H as <-;
    split; cbn [cf_world cf_asleep safe] in *; try assumption.
  - apply Ho.
  - by constructor.
Qed.

Lemma step_config_ok (cfg cfg' : config) :
  config_ok cfg -> step within_window cfg cfg' -> config_ok cfg'.
Proof.
  intros [Hw Has] Hstep.
  destruct Hstep as [cfg c cfg' Hadm _ Hs
                    |cfg i w0 p cv waiting k cfg' Hi Hwait _ Hs
                    |cfg data].
  - eapply settle_ok; [|exact Has|exact Hs]. by apply run_safe.
  - eapply settle_ok; [| |exact Hs].
    + assert (Hin : safe (Wait w0 p cv waiting k)).
      { eapply Forall_lookup_1; eassumption. }
      by apply Hin.
    + apply Forall_delete. exact Has.
  - split; cbn [cf_world cf_asleep]; [|exact Has].
    revert Hw. by apply sound_frame.
Qed.

Lemma initial_ok (answers : nat -> reply) (garbage : nat -> list byte)
    (local_cap remote_cap : Z) :
  config_ok (initial answers garbage local_cap remote_cap).
Proof.
  split; simpl; [|constructor]. unfold sound. simpl.
  split; [intros p f H; by rewrite lookup_empty in H|].
  split; [constructor|].
  split; [intros r rq H; by rewrite lookup_empty in H|].
  pose proof (size_t_range remote_cap). pose proof (size_t_range local_cap).
  split; lia.
Qed.

Lemma reachable_ok (c0 cfg : config) :
  config_ok c0 -> reachable within_window c0 cfg -> config_ok cfg.
Proof.
  intros H0 Hr. induction Hr as [|cfg cfg' _ IH Hstep]; [exact H0|].
  by apply (step_config_ok cfg).
Qed.

(** What the code does keep: as long as every READ-REQUEST and READ-UPDATE
    the dispatcher passes on stays within the credit window
    ([within_window], a condition on the peer that the code never
    checks), every pipe has [0 <= remotesize <= remotemax], its buffer
    holds no more than its capacity, and every WRITE handed to the
    channel had [remotesize + n <= remotemax] at that moment. *)
Lemma credit_kept_within_window
    (answers : nat -> reply) (garbage : nat -> list byte)
    (local_cap remote_cap : Z) (cfg : config) :
  reachable within_window (initial answers garbage local_cap remote_cap) cfg ->
  (forall p f, open_files (cf_world cfg) !! p = Some f ->
     0 <= remotesize f <= remotemax f
     /\ 0 <= cbuf_size (buffer f) <= Z.max 0 (cbuf_capacity (buffer f)))
  /\ (forall p data r rsize rmax,
        EvSend (WRITE p data) r rsize rmax ∈ trace (cf_world cfg) ->
        rsize + Z.of_nat (length data) <= rmax).
Proof.
  intros Hr.
  destruct (reachable_ok _ _ (initial_ok answers garbage local_cap remote_cap) Hr)
    as [(Ht & Htr & _) _].
  split.
  - intros p f Hf. destruct (Ht p f Hf) as ((H0 & H1 & _) & Hs & _).
    pose proof (cbuf_size_nonneg (buffer f)). unfold cbuf_capacity. lia.
  - intros p data r rsize rmax Hin.
    rewrite Forall_forall in Htr. exact (Htr _ Hin).
Qed.

Lemma step_after_call (allowed : world -> call -> Prop) (c : call)
    (cfg : config) :
  allowed (cf_world cfg) c -> call_path c ∉ cf_locked cfg ->
  faulty (run c (cf_world cfg)) = false ->
  step allowed cfg (after_call c cfg).
Proof.
  intros Hal Hfree Hrun. apply (step_call _ _ c); [exact Hal | exact Hfree|].
  unfold after_call. by destruct (run c (cf_world cfg)).
Qed.

Lemma step_after_wake (allowed : world -> call -> Prop) (i : nat)
    (cfg : config) :
  can_wake i cfg = true -> step allowed cfg (after_wake i cfg).
Proof.
  unfold can_wake, after_wake. intros H.
  destruct (cf_asleep cfg !! i) as [[| |w0 p cv waiting k| |]|] eqn:Hi;
    try discriminate.
  apply andb_true_iff in H as [H Hrun].
  apply andb_true_iff in H as [Hwait Hfree].
  apply negb_true_iff in Hwait. apply bool_decide_eq_true in Hfree.
  apply (step_wake _ _ i w0 p cv waiting k); [exact Hi | exact Hwait | exact Hfree|].
  by destruct (k (cf_world cfg)).
Qed.

(** C6, on the code: the credit invariant is broken by messages that cross
    on the wire, the peer running this very code.  The peer's reader
    opens [/p], the local writer opens it and writes 16 bytes (the whole
    credit), which the peer buffers; the peer's reader closes without
    reading, the local writer closes, and the pipe, both counters at 0,
    is freed with 16 bytes unacknowledged.  Before the CLOSE reaches the
    peer a second reader opens [/p] there and reads the 16 buffered
    bytes: its OPEN creates a fresh local pipe ([remotesize = 0],
    [remotemax = 16]), and its READ-UPDATE of 16 takes both below:
    [remotemax = 0], [remotesize = 2^64 - 16].  [available_remote] is 16
    again, and the next local write hands a WRITE to the channel with
    [remotesize + n] above [remotemax]. *)
Theorem write_beyond_credit :
  reachable any_call (initial (fun _ => Delivered 1) (fun _ => []) 16 16) overrun_c11
  /\ (exists f,
        open_files (cf_world overrun_c9) !! "/p" = Some f
        /\ remotemax f = 0 /\ remotesize f = 2 ^ 64 - 16)
  /\ (exists f,
        open_files (cf_world overrun_c11) !! "/p" = Some f
        /\ remotemax f = 0 /\ remotesize f = 2 ^ 64 - 15)
  /\ EvSend (WRITE "/p" [x01]) (Delivered 1) (2 ^ 64 - 16) 0
     ∈ trace (cf_world overrun_c11).
Proof.
  assert (Hcall : forall c cfg,
            bool_decide (call_path c ∉ cf_locked cfg)
            && negb (faulty (run c (cf_world cfg))) = true ->
            step any_call cfg (after_call c cfg)).
  { intros c cfg H. apply andb_true_iff in H as [Hfree Hrun].
    apply bool_decide_eq_true in Hfree. apply negb_true_iff in Hrun.
    by apply step_after_call. }
  split; [|split; [|split]].
  - apply (reach_step _ _ overrun_c10);
      [apply (reach_step _ _ overrun_c9);
       [apply (reach_step _ _ overrun_c8);
        [apply (reach_step _ _ overrun_c7);
         [apply (reach_step _ _ overrun_c6);
          [apply (reach_step _ _ overrun_c5);
           [apply (reach_step _ _ overrun_c4);
            [apply (reach_step _ _ overrun_c3);
             [apply (reach_step _ _ overrun_c2);
              [apply (reach_step _ _ overrun_c1);
               [apply (reach_step _ _ overrun_c0); [apply reach_start|]
               |]|]|]|]|]|]|]|]|]|].
    + apply (Hcall (call_open_update "/p" O_RDONLY) overrun_c0).
      vm_compute; reflexivity.
    + apply (Hcall (call_open "/p" O_WRONLY false) overrun_c1).
      vm_compute; reflexivity.
    + apply (Hcall (call_send "/p" (replicate 16 x61) 16 false) overrun_c2).
      vm_compute; reflexivity.
    + apply (Hcall (call_close_update "/p" O_RDONLY) overrun_c3).
      vm_compute; reflexivity.
    + apply (Hcall (call_close "/p" O_WRONLY) overrun_c4).
      vm_compute; reflexivity.
    + apply (step_after_wake any_call 0 overrun_c5). vm_compute; reflexivity.
    + apply (step_after_wake any_call 0 overrun_c6). vm_compute; reflexivity.
    + apply (Hcall (call_open_update "/p" O_RDONLY) overrun_c7).
      vm_compute; reflexivity.
    + apply (Hcall (call_read_update "/p" 16) overrun_c8).
      vm_compute; reflexivity.
    + apply (Hcall (call_open "/p" O_WRONLY false) overrun_c9).
      vm_compute; reflexivity.
    + apply (Hcall (call_send "/p" [x01] 1 false) overrun_c10).
      vm_compute; reflexivity.
  - assert (H : match open_files (cf_world overrun_c9) !! "/p" with
                | Some f => remotemax f = 0 /\ remotesize f = 2 ^ 64 - 16
                | None => False
                end) by (vm_compute; split; reflexivity).
    destruct (open_files (cf_world overrun_c9) !! "/p") as [f|]; [|destruct H].
    exists f. split; [reflexivity | exact H].
  - assert (H : match open_files (cf_world overrun_c11) !! "/p" with
                | Some f => remotemax f = 0 /\ remotesize f = 2 ^ 64 - 15
                | None => False
                end) by (vm_compute; split; reflexivity).
    destruct (open_files (cf_world overrun_c11) !! "/p") as [f|]; [|destruct H].
    exists f. split; [reflexivity | exact H].
  - apply list_elem_of_In.
    assert (H : trace (cf_world overrun_c11)
                = trace (cf_world overrun_c10)
                  ++ [EvSend (WRITE "/p" [x01]) (Delivered 1) (2 ^ 64 - 16) 0])
      by (vm_compute; reflexivity).
    rewrite H. apply in_or_app. right. by left.
Qed.

(** ** The trace only grows

    Every function of the pipe object appends to the trace and never
    takes an effect back.  So the worlds in which the system resumes a
    sleeping call follow the world the call left, which is what [runs]
    asks of them. *)

Lemma follows_refl (w : world) : follows w w.
Proof. unfold follows. reflexivity. Qed.

Lemma follows_trans (w0 w1 w2 : world) :
  follows w0 w1 -> follows w1 w2 -> follows w0 w2.
Proof. unfold follows. intros H1 H2. by etrans. Qed.

Lemma follows_emit (w0 w : world) (e : event) :
  follows w0 w -> follows w0 (emit w e).
Proof.
  unfold follows. intros H. cbn [emit set_trace trace].
  by apply prefix_app_r.
Qed.

Lemma extends_mono {A} (w0 w1 : world) (o : outcome A) :
  follows w0 w1 -> extends w1 o -> extends w0 o.
Proof.
  intros H Ho. destruct o as [w a| |w q cv waiting k|w q a|w q];
    cbn [extends] in *; try exact I;
    try (by apply (follows_trans w0 w1 w)).
  destruct Ho as [Hw Hk]. split; [by apply (follows_trans w0 w1 w) | exact Hk].
Qed.

Lemma sock_send_follows (w0 : world) (f : netpipe) (m : msg) (w : world) :
  follows w0 w -> follows w0 (sock_send f m w).2.
Proof.
  intros H. unfold sock_send.
  destruct (replies w (sock_calls w)); cbn [snd]; by apply follows_emit.
Qed.

Lemma do_send_follows (w0 : world) (f : netpipe) (w : world)
    (bufptr : list byte) (size : Z) :
  follows w0 w -> follows w0 (do_send f w bufptr size).2.
Proof.
  intros H. unfold do_send. destruct (_ =? 0); [exact H|].
  unfold send_write_message.
  match goal with |- context [sock_send ?a ?b ?c] =>
    pose proof (sock_send_follows w0 a b c H) as H1;
    destruct (sock_send a b c) as [[bytes e] w1] end.
  cbv zeta. by destruct (int bytes <=? 0).
Qed.

Lemma do_flush_follows (w0 : world) (f : netpipe) (w : world) :
  follows w0 w -> follows w0 (do_flush f w).2.
Proof.
  intros H. unfold do_flush. destruct (_ =? 0); [exact H|].
  unfold send_flush_message.
  destruct (cbuf_get _ _) as [[b' data] k].
  match goal with |- context [sock_send ?a ?b ?c] =>
    pose proof (sock_send_follows w0 a b c H) as H1;
    destruct (sock_send a b c) as [[bytes e] w1] end.
  cbv zeta. by destruct (int bytes <=? 0).
Qed.

Lemma do_buffered_read_follows (w0 : world) (f : netpipe) (w : world) (size : Z) :
  follows w0 w -> follows w0 (do_buffered_read f w size).2.
Proof.
  intros H. unfold do_buffered_read.
  destruct (cbuf_get _ _) as [[b' data] k].
  destruct (k =? 0); [exact H|]. unfold send_read_message.
  match goal with |- context [sock_send ?a ?b ?c] =>
    pose proof (sock_send_follows w0 a b c H) as H1;
    destruct (sock_send a b c) as [[bytes e] w1] end.
  by destruct (bytes <=? 0).
Qed.

Lemma readn_follows (w0 : world) (n : Z) (w : world) :
  follows w0 w -> follows w0 (readn n w).2.
Proof. intros H. unfold readn. by destruct (_ && _). Qed.

Lemma cbuf_readn_follows (w0 : world) (b : cbuf) (n : Z) (w : world) :
  follows w0 w -> follows w0 (cbuf_readn b n w).2.
Proof.
  intros H. unfold cbuf_readn.
  pose proof (readn_follows w0 (n `min` cbuf_free b) w H) as H1.
  by destruct (readn _ _) as [[k data] w'].
Qed.

Lemma emit_all_follows (ev : nat -> event) (w0 : world) (l : list nat) (w : world) :
  follows w0 w -> follows w0 (foldl (fun w1 ph => emit w1 (ev ph)) w l).
Proof.
  revert w. induction l as [|ph l IH]; intros w H; simpl; [exact H|].
  apply IH. by apply follows_emit.
Qed.

Lemma netpipe_add_request_follows (w0 : world) (f : netpipe) (w : world)
    (buf : list byte) (size mode : Z) :
  follows w0 w -> follows w0 (netpipe_add_request f w buf size mode).2.
Proof. intros H. unfold netpipe_add_request. by destruct (mode =? O_RDONLY). Qed.

Lemma netpipe_free_follows (w0 : world) (f : netpipe) (w : world) :
  follows w0 w -> follows w0 (netpipe_free f w).
Proof.
  intros H. unfold netpipe_free.
  exact (emit_all_follows EvPollDestroy w0 (poll_handles f) w H).
Qed.

Lemma remove_open_file_follows (w0 w : world) (p : string) :
  follows w0 w -> follows w0 (netpipefs_remove_open_file w p).2.
Proof.
  intros H. unfold netpipefs_remove_open_file. by destruct (open_files w !! p).
Qed.

Lemma get_or_create_follows (w0 w : world) (p : string) :
  follows w0 w -> follows w0 (netpipefs_get_or_create_open_file w p).2.
Proof.
  intros H. unfold netpipefs_get_or_create_open_file.
  by destruct (open_files w !! p).
Qed.

Lemma extends_with_file {A} (w0 w : world) (p : string) (k : netpipe -> outcome A) :
  (forall f, extends w0 (k f)) -> extends w0 (with_file w p k).
Proof.
  intros Hk. unfold with_file. destruct (open_files w !! p); [apply Hk | exact I].
Qed.

Lemma extends_wait_while {A} (w0 : world) (f : netpipe) (w : world) (cv : condvar)
    (cond : netpipe -> world -> bool) (k : netpipe -> world -> outcome A) :
  follows w0 w ->
  (forall w1 f' w', follows w1 w' -> extends w1 (k f' w')) ->
  extends w0 (wait_while f w cv cond k).
Proof.
  intros Hw Hk. unfold wait_while. destruct (cond f w); [|by apply Hk].
  cbn [extends]. split; [exact Hw|].
  intros w'. apply extends_with_file. intros f'. apply Hk, follows_refl.
Qed.

Lemma extends_lock_after {A B} (w0 : world) (o : outcome A) (p : string)
    (g : world -> A -> outcome B) :
  extends w0 o -> (forall w a, extends w (g w a)) -> extends w0 (lock_after o p g).
Proof.
  intros Ho Hg. revert w0 Ho.
  induction o as [w a| |w q cv waiting k IH|w q a|w q]; intros w0 Ho;
    cbn [lock_after extends] in *; try exact Ho.
  - split; [exact Ho|]. intros w'. apply Hg.
  - destruct Ho as [Hw Hk]. split; [exact Hw|].
    intros w'. apply IH, Hk.
Qed.

Lemma extends_forget {A} (w0 : world) (o : outcome A) :
  extends w0 o -> extends w0 (forget o).
Proof.
  revert w0.
  induction o as [w a| |w q cv waiting k IH|w q a|w q]; intros w0 Ho;
    cbn [forget extends] in *; try exact Ho.
  destruct Ho as [Hw Hk]. split; [exact Hw|].
  intros w'. apply IH, Hk.
Qed.

Lemma recv_buffered_body_follows (w0 : world) (s : recv_state) :
  follows w0 (rs_world s) ->
  match recv_buffered_body s with
  | inl x => exit_extends w0 x
  | inr s' => follows w0 (rs_world s')
  end.
Proof.
  intros Hw. unfold recv_buffered_body.
  destruct (rs_req s) as [|r next]; [exact Hw|].
  destruct (requests (rs_world s) !! r) as [rq|]; [|exact I].
  match goal with |- context [do_buffered_read ?a ?b ?c] =>
    pose proof (do_buffered_read_follows w0 a b c Hw) as Hw';
    destruct (do_buffered_read a b c) as [[[[[err n] data] e] f] w] end.
  by destruct (err <=? 0).
Qed.

Lemma recv_socket_body_follows (w0 : world) (s : recv_state) :
  follows w0 (rs_world s) ->
  match recv_socket_body s with
  | inl x => exit_extends w0 x
  | inr s' => follows w0 (rs_world s')
  end.
Proof.
  intros Hw. unfold recv_socket_body.
  destruct (rs_req s) as [|r next]; [exact Hw|].
  destruct (requests (rs_world s) !! r) as [rq|]; [|exact I].
  match goal with |- context [readn ?a ?b] =>
    pose proof (readn_follows w0 a b Hw) as Hw1;
    destruct (readn a b) as [[dataread data] w1] end.
  cbn [snd] in Hw1. destruct (dataread <=? 0); [exact Hw1|].
  unfold send_read_message.
  match goal with |- context [sock_send ?a ?b ?c] =>
    pose proof (sock_send_follows w0 a b c Hw1) as Hw2;
    destruct (sock_send a b c) as [[err e] w2] end.
  by destruct (err <=? 0).
Qed.

Lemma send_requests_body_follows (w0 : world) (s : send_state) :
  follows w0 (ss_world s) ->
  match send_requests_body s with
  | inl x => exit_extends w0 x
  | inr s' => follows w0 (ss_world s')
  end.
Proof.
  intros Hw. unfold send_requests_body.
  destruct (ss_req s) as [|r next]; [exact Hw|].
  destruct (requests (ss_world s) !! r) as [rq|]; [|exact I].
  match goal with |- context [do_send ?a ?b ?c ?d] =>
    pose proof (do_send_follows w0 a b c d Hw) as Hw';
    destruct (do_send a b c d) as [[[[err n] e] f] w] end.
  cbn [snd] in Hw'.
  destruct (err <=? 0); [|exact Hw'].
  cbv zeta. cbn [exit_extends]. unfold pthread_cond_broadcast.
  by apply follows_emit.
Qed.

Lemma writeahead_body_follows (w0 : world) (s : send_state) :
  follows w0 (ss_world s) ->
  match writeahead_body s with
  | inl x => exit_extends w0 x
  | inr s' => follows w0 (ss_world s')
  end.
Proof.
  intros Hw. unfold writeahead_body.
  destruct (ss_req s) as [|r next]; [exact Hw|].
  destruct (requests (ss_world s) !! r) as [rq|]; [|exact I].
  by destruct (cbuf_put _ _ _) as [b bytes].
Qed.

Lemma request_loop_follows {S : Type} (w0 : world) (world_of : S -> world)
    (cond : S -> bool) (body : S -> loop_exit + S) :
  (forall s, follows w0 (world_of s) ->
     match body s with
     | inl x => exit_extends w0 x
     | inr s' => follows w0 (world_of s')
     end) ->
  forall fuel s res,
    follows w0 (world_of s) ->
    while fuel cond body s = Some res ->
    match res with
    | inl x => exit_extends w0 x
    | inr s' => follows w0 (world_of s')
    end.
Proof.
  intros Hbody fuel s res Hw H.
  pose proof (while_inv (fun s => follows w0 (world_of s)) (exit_extends w0)
                cond body) as Hinv.
  cut (match res with
       | inl x => exit_extends w0 x
       | inr s' => follows w0 (world_of s') /\ cond s' = false
       end).
  { destruct res; tauto. }
  apply Hinv with (fuel := fuel) (s := s); [|exact Hw|exact H].
  intros s0 Hw0 _. by apply Hbody.
Qed.

Lemma send_data_follows (w0 : world) (f : netpipe) (w : world) :
  follows w0 w ->
  match send_data f w with Some x => exit_extends w0 x | None => True end.
Proof.
  intros Hw. unfold send_data.
  pose proof (do_flush_follows w0 f w Hw) as Hw1.
  destruct (do_flush f w) as [[[[err bytes] e] f1] w1]. cbn [snd] in Hw1.
  destruct (err <=? 0); [exact Hw1|].
  match goal with
  | |- context [while ?n send_requests_cond send_requests_body ?s] =>
      pose proof (request_loop_follows w0 ss_world send_requests_cond
                    send_requests_body (send_requests_body_follows w0) n s) as L1;
      destruct (while n send_requests_cond send_requests_body s)
        as [[[err1 e1 f2 w2|]|s1]|]; try exact I
  end; specialize (L1 _ Hw1 eq_refl); cbv beta iota in L1.
  - exact L1.
  - match goal with
    | |- context [while ?n writeahead_cond writeahead_body ?s] =>
        pose proof (request_loop_follows w0 ss_world writeahead_cond
                      writeahead_body (writeahead_body_follows w0) n s) as L2;
        destruct (while n writeahead_cond writeahead_body s)
          as [[x|s2]|]; try exact I
    end; specialize (L2 _ L1 eq_refl); cbv beta iota in L2.
    + exact L2.
    + destruct (0 <? ss_datasent s2); [|exact L2].
      unfold loop_poll_notify. by apply emit_all_follows.
Qed.

Lemma after_send_data_extends (w0 : world) (o : option loop_exit) :
  match o with Some x => exit_extends w0 x | None => True end ->
  extends w0 (after_send_data o).
Proof.
  intros Ho. unfold after_send_data.
  destruct o as [[r e f w|]|]; try exact I.
  cbv zeta. destruct (0 <? int r); cbn [extends]; [|exact Ho].
  by apply (follows_emit w0 w).
Qed.

Lemma open_error_extends (w0 : world) (f : netpipe) (w : world) (jc : bool)
    (e : option Z) :
  follows w0 w -> extends w0 (open_error f w jc e).
Proof.
  intros Hw. unfold open_error. destruct jc; [|exact Hw].
  pose proof (remove_open_file_follows w0 w (path f) Hw) as H.
  destruct (netpipefs_remove_open_file w (path f)) as [d w1]. cbn [snd] in H.
  by apply netpipe_free_follows.
Qed.

Lemma undo_open_extends (w0 : world) (f : netpipe) (w : world) (mode : Z)
    (jc : bool) (e : option Z) :
  follows w0 w -> extends w0 (undo_open f w mode jc e).
Proof. intros Hw. unfold undo_open. by apply open_error_extends. Qed.

Lemma netpipe_open_extends (w : world) (p : string) (mode : Z) (nonblock : bool) :
  extends w (netpipe_open w p mode nonblock).
Proof.
  pose proof (follows_refl w) as Hw. revert Hw. generalize w at 1 3. intros w0 Hw.
  unfold netpipe_open.
  destruct (mode =? O_RDWR); [exact Hw|].
  pose proof (get_or_create_follows w0 w p Hw) as Hw1.
  destruct (netpipefs_get_or_create_open_file w p) as [[f jc] w1].
  cbn [snd] in Hw1.
  destruct (force_exit f); [by apply open_error_extends|].
  destruct (_ && _); [by apply open_error_extends|].
  set (f1 := if mode =? O_RDONLY then _ else _). clearbody f1.
  destruct (nonblock && _); [by apply undo_open_extends|].
  unfold send_open_message.
  pose proof (sock_send_follows w0 f1 (OPEN p mode)
                (pthread_cond_broadcast f1 cv_canopen w1)
                (follows_emit w0 w1 _ Hw1)) as Hw2.
  destruct (sock_send _ _ _) as [[bytes e] w2]. cbn [snd] in Hw2.
  destruct (bytes <=? 0); [by apply undo_open_extends|].
  apply extends_wait_while; [exact Hw2|].
  intros w3 f' w' Hw'. destruct (force_exit f'); [by apply undo_open_extends|].
  exact Hw'.
Qed.

Lemma netpipe_open_update_extends (w : world) (p : string) (mode : Z) :
  extends w (netpipe_open_update w p mode).
Proof.
  pose proof (follows_refl w) as Hw. revert Hw. generalize w at 1 3. intros w0 Hw.
  unfold netpipe_open_update.
  destruct (mode =? O_RDWR); [exact Hw|].
  pose proof (get_or_create_follows w0 w p Hw) as Hw1.
  destruct (netpipefs_get_or_create_open_file w p) as [[f jc] w1].
  cbn [snd] in Hw1. cbv zeta. cbn [extends].
  by apply (follows_emit w0 w1).
Qed.

Lemma netpipe_send_wake_extends (w0 : world) (sent : Z) (request : nat)
    (f : netpipe) (w : world) :
  follows w0 w -> extends w0 (netpipe_send_wake sent request f w).
Proof.
  intros Hw. unfold netpipe_send_wake.
  destruct (requests w !! request); [|exact I].
  by destruct (_ && _).
Qed.

Lemma netpipe_read_wake_extends (w0 : world) (read : Z) (data : list byte)
    (request : nat) (f : netpipe) (w : world) :
  follows w0 w -> extends w0 (netpipe_read_wake read data request f w).
Proof.
  intros Hw. unfold netpipe_read_wake.
  destruct (requests w !! request); [|exact I].
  by destruct (_ && _).
Qed.

Lemma netpipe_flush_wake_extends (w0 : world) (datasent : Z) (request : nat)
    (f : netpipe) (w : world) :
  follows w0 w -> extends w0 (netpipe_flush_wake datasent request f w).
Proof.
  intros Hw. unfold netpipe_flush_wake.
  destruct (requests w !! request); [|exact I].
  by destruct (_ && _).
Qed.

Lemma netpipe_send_extends (w : world) (p : string) (buf : list byte) (size : Z)
    (nonblock : bool) :
  extends w (netpipe_send w p buf size nonblock).
Proof.
  pose proof (follows_refl w) as Hw. revert Hw. generalize w at 1 3. intros w0 Hw.
  unfold netpipe_send. apply extends_with_file. intros f.
  destruct (force_exit f || _); [exact Hw|].
  pose proof (do_flush_follows w0 f w Hw) as Hw1.
  destruct (do_flush f w) as [[[[err bytes] e] f1] w1]. cbn [snd] in Hw1.
  destruct (err <=? 0); [exact Hw1|].
  set (wb := if 0 <? bytes then _ else _).
  assert (Hwb : follows w0 wb).
  { subst wb. destruct (0 <? bytes); [by apply (follows_emit w0 w1) | exact Hw1]. }
  clearbody wb.
  assert (Hrest : forall bufptr sent f2 wc, follows w0 wc ->
    extends w0 (if sent =? size then Done (store f2 wc) (Result (ssize_t sent) None) else
      let '(b, bytes) := cbuf_put (buffer f2) bufptr size in
      let f := set_buffer f2 b in
      let bufptr := mem_advance bufptr bytes in
      let sent := size_t (sent + bytes) in
      if (sent =? size) || nonblock
      then Done (store f wc)
             (Result (ssize_t sent) (if sent =? 0 then Some EAGAIN else None)) else
      let remaining := size_t (size - sent) in
      let '(request, f, w) := netpipe_add_request f wc bufptr remaining O_WRONLY in
      wait_while f w cv_wr (request_pending request remaining)
        (netpipe_send_wake sent request))).
  { intros bufptr sent f2 wc Hwc.
    destruct (sent =? size); [exact Hwc|].
    destruct (cbuf_put _ _ _) as [b k]. cbv zeta.
    destruct (_ || nonblock); [exact Hwc|].
    match goal with |- context [netpipe_add_request ?a ?b ?c ?d ?e] =>
      pose proof (netpipe_add_request_follows w0 a b c d e Hwc) as Hw3;
      destruct (netpipe_add_request a b c d e) as [[request f3] w3] end.
    cbn [snd] in Hw3. apply extends_wait_while; [exact Hw3|].
    intros w4 f' w'. apply netpipe_send_wake_extends. }
  destruct (_ && _); [|by apply Hrest].
  pose proof (do_send_follows w0 f1 wb buf size Hwb) as Hw2.
  destruct (do_send f1 wb buf size) as [[[[err2 bytes2] e2] f2] w2].
  cbn [snd] in Hw2.
  destruct (err2 <=? 0); [exact Hw2 | by apply Hrest].
Qed.

Lemma netpipe_read_extends (w : world) (p : string) (size : Z) (nonblock : bool) :
  extends w (netpipe_read w p size nonblock).
Proof.
  pose proof (follows_refl w) as Hw. revert Hw. generalize w at 1 3. intros w0 Hw.
  unfold netpipe_read. apply extends_with_file. intros f.
  destruct (force_exit f); [exact Hw|].
  pose proof (do_buffered_read_follows w0 f w size Hw) as Hw1.
  destruct (do_buffered_read f w size) as [[[[[err read] data] e] f1] w1].
  cbn [snd] in Hw1.
  destruct (err <=? 0); [exact Hw1|].
  destruct (_ || nonblock); [exact Hw1|].
  destruct (writers f1 =? 0); [exact Hw1|].
  match goal with |- context [netpipe_add_request ?a ?b ?c ?d ?e] =>
    pose proof (netpipe_add_request_follows w0 a b c d e Hw1) as Hw2;
    destruct (netpipe_add_request a b c d e) as [[request f2] w2] end.
  cbn [snd] in Hw2. unfold send_read_request_message.
  match goal with |- context [sock_send ?a ?b ?c] =>
    pose proof (sock_send_follows w0 a b c Hw2) as Hw3;
    destruct (sock_send a b c) as [[err3 e3] w3] end.
  cbn [snd] in Hw3.
  destruct (err3 <=? 0); [exact Hw3|].
  apply extends_wait_while; [exact Hw3|].
  intros w4 f' w'. apply netpipe_read_wake_extends.
Qed.

Lemma netpipe_flush_extends (w : world) (p : string) (nonblock : bool) :
  extends w (netpipe_flush w p nonblock).
Proof.
  pose proof (follows_refl w) as Hw. revert Hw. generalize w at 1 3. intros w0 Hw.
  unfold netpipe_flush. apply extends_with_file. intros f.
  destruct (force_exit f || _); [exact Hw|].
  pose proof (do_flush_follows w0 f w Hw) as Hw1.
  destruct (do_flush f w) as [[[[err bytes] e] f1] w1]. cbn [snd] in Hw1.
  destruct (err <=? 0); [exact Hw1|].
  cbv zeta.
  pose proof (follows_emit w0 w1 (EvBroadcast (path f1) cv_wr) Hw1) as Hw2.
  destruct (_ || nonblock); [exact Hw2|].
  match goal with |- context [netpipe_add_request ?a ?b ?c ?d ?e] =>
    pose proof (netpipe_add_request_follows w0 a b c d e Hw2) as Hw3;
    destruct (netpipe_add_request a b c d e) as [[request f3] w3] end.
  cbn [snd] in Hw3. apply extends_wait_while; [exact Hw3|].
  intros w4 f' w'. apply netpipe_flush_wake_extends.
Qed.

Lemma netpipe_recv_extends (wakeup : Z) (w : world) (p : string) (size : Z) :
  extends w (netpipe_recv wakeup w p size).
Proof.
  pose proof (follows_refl w) as Hw. revert Hw. generalize w at 1 3. intros w0 Hw.
  unfold netpipe_recv. apply extends_with_file. intros f.
  match goal with
  | |- context [while ?n recv_buffered_cond recv_buffered_body ?s] =>
      pose proof (request_loop_follows w0 rs_world recv_buffered_cond
                    recv_buffered_body (recv_buffered_body_follows w0) n s) as L1;
      destruct (while n recv_buffered_cond recv_buffered_body s)
        as [[[err e1 f1 w1|]|s1]|]; try exact I
  end; specialize (L1 _ Hw eq_refl); cbv beta iota in L1.
  - exact L1.
  - match goal with
    | |- context [while ?n recv_socket_cond recv_socket_body ?s] =>
        pose proof (request_loop_follows w0 rs_world recv_socket_cond
                      recv_socket_body (recv_socket_body_follows w0) n s) as L2;
        destruct (while n recv_socket_cond recv_socket_body s)
          as [[[err e2 f2 w2|]|s2]|]; try exact I
    end; specialize (L2 _ L1 eq_refl); cbv beta iota in L2.
    + exact L2.
    + set (f3 := set_rd_req (rs_file s2) (rs_req s2)). clearbody f3.
      assert (Hend : forall f4 w4, follows w0 w4 ->
        extends w0 (let w := if negb (rs_wakeup s2 =? 0)
                        then pthread_cond_broadcast f4 cv_rd w4 else w4 in
               let '(f, w) := loop_poll_notify f4 w in
               Done (store f w) (Result (int size) None))).
      { intros f4 w4 Hw4. cbv zeta. unfold loop_poll_notify. cbn [extends].
        apply (emit_all_follows EvPollNotify).
        destruct (negb _); [by apply (follows_emit w0 w4) | exact Hw4]. }
      cbv zeta.
      destruct (0 <? rs_remaining s2); [|by apply Hend].
      pose proof (cbuf_readn_follows w0 (buffer f3) (rs_remaining s2) (rs_world s2) L2)
        as Hw5.
      destruct (cbuf_readn _ _ _) as [[dataread b] w5]. cbn [snd] in Hw5.
      destruct (dataread <=? 0); [exact Hw5 | by apply Hend].
Qed.

Lemma netpipe_poll_extends (w : world) (p : string) (ph : nat) (revents : Z) :
  extends w (netpipe_poll w p ph revents).
Proof.
  unfold netpipe_poll. apply extends_with_file. intros f.
  exact (follows_refl w).
Qed.

Lemma netpipe_force_exit_extends (w : world) (p : string) :
  extends w (netpipe_force_exit w p).
Proof.
  unfold netpipe_force_exit. apply extends_with_file. intros f.
  cbv zeta. cbn [extends]. unfold pthread_cond_broadcast.
  do 3 apply (follows_emit w). apply follows_refl.
Qed.

Lemma close_finish_extends (w0 : world) (f : netpipe) (w : world) (mode err : Z)
    (e0 : option Z) :
  follows w0 w -> extends w0 (close_finish f w mode err e0).
Proof.
  intros Hw. unfold close_finish, send_close_message.
  pose proof (sock_send_follows w0 f (CLOSE (path f) mode) w Hw) as Hw1.
  destruct (sock_send _ _ _) as [[bytes e] w1]. cbn [snd] in Hw1.
  cbv zeta.
  destruct (_ && _).
  - pose proof (remove_open_file_follows w0 (store f w1) (path f) Hw1) as Hw3.
    destruct (netpipefs_remove_open_file _ _) as [d w3]. cbn [snd] in Hw3.
    pose proof (netpipe_free_follows w0 f w3 Hw3).
    by destruct (_ =? -1).
  - by destruct (_ =? -1).
Qed.

Lemma netpipe_close_extends (w : world) (p : string) (mode : Z) :
  extends w (netpipe_close w p mode).
Proof.
  unfold netpipe_close. apply extends_with_file. intros f.
  destruct (mode =? O_WRONLY); [|destruct (mode =? O_RDONLY)];
    try (apply close_finish_extends, follows_refl).
  cbv zeta.
  match goal with |- context [if ?c then _ else _] => destruct c end;
    [|apply close_finish_extends, follows_refl].
  unfold unlocked. cbn [extends]. split; [exact (follows_refl w)|].
  intros w1. apply extends_lock_after; [apply netpipe_flush_extends|].
  intros w2 r. apply extends_with_file. intros f3.
  apply close_finish_extends, follows_refl.
Qed.

Lemma netpipe_close_update_extends (w : world) (p : string) (mode : Z) :
  extends w (netpipe_close_update w p mode).
Proof.
  unfold netpipe_close_update. apply extends_with_file. intros f.
  set (fw := if mode =? O_WRONLY then _ else _).
  assert (Hfw : follows w fw.2).
  { subst fw.
    destruct (mode =? O_WRONLY); [|destruct (mode =? O_RDONLY)];
      try match goal with |- context [if ?c then _ else _] => destruct c end;
      cbn [snd]; unfold pthread_cond_broadcast;
      try apply follows_emit; exact (follows_refl w). }
  destruct fw as [f1 w1]. cbn [snd] in Hfw.
  unfold loop_poll_notify.
  pose proof (emit_all_follows EvPollNotify w (poll_handles f1) w1 Hfw) as Hw2.
  set (w2 := foldl _ w1 _) in *. clearbody w2.
  set (f2 := set_poll_handles f1 []). clearbody f2.
  destruct (_ && _); [|exact Hw2].
  pose proof (remove_open_file_follows w (store f2 w2) (path f2) Hw2) as Hw4.
  destruct (netpipefs_remove_open_file _ _) as [d w4]. cbn [snd] in Hw4.
  by apply netpipe_free_follows.
Qed.

Lemma run_extends (c : call) (w : world) : extends w (run c w).
Proof.
  destruct c; cbn [run]; apply extends_forget.
  - apply netpipe_open_extends.
  - apply netpipe_open_update_extends.
  - apply netpipe_send_extends.
  - apply netpipe_recv_extends.
  - apply netpipe_read_extends.
  - unfold netpipe_read_request. apply extends_with_file. intros f.
    apply after_send_data_extends, send_data_follows, follows_refl.
  - unfold netpipe_read_update. apply extends_with_file. intros f.
    apply after_send_data_extends, send_data_follows, follows_refl.
  - apply netpipe_flush_extends.
  - apply netpipe_poll_extends.
  - apply netpipe_close_extends.
  - apply netpipe_close_update_extends.
  - apply netpipe_force_exit_extends.
Qed.

Lemma settle_follows (w0 : world) (o : outcome unit)
    (asleep : list (outcome unit)) (locked : list string) (cfg : config) :
  extends w0 o -> Forall resumable asleep ->
  settle o asleep locked = Some cfg ->
  follows w0 (cf_world cfg) /\ Forall resumable (cf_asleep cfg).
Proof.
  intros Ho Has H. destruct o as [w a| |w p cv waiting k|w p a|w p];
    cbn [settle] in H; try discriminate; injection H as <-;
    cbn [cf_world cf_asleep extends] in *; try by split.
  destruct Ho as [Hw Hk]. split; [exact Hw|]. by constructor.
Qed.

(** A step of the system only adds to the trace, whatever calls are
    allowed: the worlds a sleeping call is resumed in follow the world it
    left. *)
Lemma step_follows (allowed : world -> call -> Prop) (cfg cfg' : config) :
  Forall resumable (cf_asleep cfg) -> step allowed cfg cfg' ->
  follows (cf_world cfg) (cf_world cfg') /\ Forall resumable (cf_asleep cfg').
Proof.
  intros Has Hstep.
  destruct Hstep as [cfg c cfg' _ _ Hs
                    |cfg i w0 p cv waiting k cfg' Hi _ _ Hs
                    |cfg data].
  - eapply settle_follows; [|exact Has|exact Hs]. apply run_extends.
  - eapply settle_follows; [| |exact Hs].
    + assert (Hin : resumable (Wait w0 p cv waiting k)).
      { eapply Forall_lookup_1; eassumption. }
      apply Hin.
    + by apply Forall_delete.
  - split; [exact (follows_refl (cf_world cfg)) | exact Has].
Qed.

Lemma reachable_follows (allowed : world -> call -> Prop) (c0 cfg : config) :
  Forall resumable (cf_asleep c0) -> reachable allowed c0 cfg ->
  follows (cf_world c0) (cf_world cfg) /\ Forall resumable (cf_asleep cfg).
Proof.
  intros H0 Hr. induction Hr as [|cfg cfg' _ [IH1 IH2] Hstep].
  - split; [apply follows_refl | exact H0].
  - destruct (step_follows allowed cfg cfg' IH2 Hstep) as [H1 H2].
    split; [by apply (follows_trans _ (cf_world cfg)) | exact H2].
Qed.

(** ** The request loops end within their fuel

    Each iteration of the loops over the buffer either completes the
    request at the head or makes the loop condition false, so a list of
    [n] requests needs at most [n] iterations.  The first loop of
    [send_data] may need two iterations for a request: [do_send] counts
    the bytes in an [int] and may report fewer than it sent, but what is
    then left is a multiple of [2^32], which reads 0 in the [int] and ends
    the loop.  [while] never answers [None] in [send_data] and
    [netpipe_recv]. *)

Lemma size_t_rejoin (bp sz : Z) :
  0 <= sz < 2 ^ 64 -> size_t (bp + size_t (sz - bp)) = sz.
Proof.
  intros H. unfold size_t. rewrite Zplus_mod_idemp_r.
  replace (bp + (sz - bp)) with sz by lia. apply Z.mod_small. lia.
Qed.

Section request_loop_total.
Context {S : Type}.
Variables (req_of : S -> list nat) (T : S -> Prop).
Variables (cond : S -> bool) (body : S -> loop_exit + S).

Hypothesis cond_nonempty : forall s, cond s = true -> req_of s <> [].

Hypothesis body_progress : forall s,
  T s -> cond s = true ->
  match body s with
  | inl _ => True
  | inr s' =>
      T s' /\ ((exists r, req_of s = r :: req_of s')
               \/ (req_of s' = req_of s /\ cond s' = false))
  end.

Lemma request_loop_total (fuel : nat) (s : S) :
  T s -> (length (req_of s) < fuel)%nat -> while fuel cond body s <> None.
Proof.
  revert s. induction fuel as [|n IH]; intros s Hs Hlen; [lia|].
  simpl. destruct (cond s) eqn:Hc; [|discriminate].
  specialize (body_progress s Hs Hc). pose proof (cond_nonempty s Hc) as Hne.
  destruct (body s) as [x|s']; [discriminate|].
  destruct body_progress as [Hs' [[r Hr]|[Hr Hc']]].
  - apply IH; [exact Hs'|]. rewrite Hr in Hlen. simpl in Hlen. lia.
  - destruct n as [|m].
    + destruct (req_of s); [done | simpl in Hlen; lia].
    + simpl. rewrite Hc'. discriminate.
Qed.
End request_loop_total.

Lemma request_size_typed (w : world) (r : nat) (rq : netpipe_req) :
  sound w -> requests w !! r = Some rq -> 0 <= req_size rq < 2 ^ 64.
Proof. intros (_ & _ & Hrq & _) H. by apply (Hrq r). Qed.

Lemma writeahead_body_progress (s : send_state) :
  loop_typed (ss_file s) (ss_world s) -> writeahead_cond s = true ->
  match writeahead_body s with
  | inl _ => True
  | inr s' =>
      loop_typed (ss_file s') (ss_world s')
      /\ ((exists r, ss_req s = r :: ss_req s')
          \/ (ss_req s' = ss_req s /\ writeahead_cond s' = false))
  end.
Proof.
  intros [Hf Hw] Hc.
  pose proof (writeahead_body_ok s Hf Hw) as Hok.
  unfold writeahead_body in *. unfold writeahead_cond in Hc |- *.
  destruct (ss_req s) as [|r next]; [discriminate|].
  destruct (requests (ss_world s) !! r) as [rq|] eqn:Hr; [|exact I].
  pose proof (request_size_typed _ _ _ Hw Hr) as Hsz.
  set (left := size_t (req_size rq - req_bytes_processed rq)) in *.
  unfold cbuf_put in *. cbv zeta in *.
  set (k := Z.min left (cbuf_free (buffer (ss_file s)))) in *.
  split; [exact Hok|]. loop_fields.
  destruct (_ =? req_size rq) eqn:E; [left; by eexists|right].
  split; [reflexivity|]. apply Z.eqb_neq in E.
  destruct (Z.le_gt_cases left (cbuf_free (buffer (ss_file s)))) as [Hle|Hgt].
  - exfalso. apply E. subst k. rewrite Z.min_l by lia. by apply size_t_rejoin.
  - subst k. rewrite Z.min_r by lia. unfold cbuf_full, cbuf_free.
    unfold cbuf_size. cbn [cb_capacity cb_data andb negb].
    rewrite length_app, mem_read_length.
    replace (_ <=? _) with true; [reflexivity|].
    symmetry. apply Z.leb_le. unfold cbuf_size. lia.
Qed.

Section measured_loop.
Context {S : Type}.
Variables (measure : S -> nat) (T : S -> Prop).
Variables (cond : S -> bool) (body : S -> loop_exit + S).

Hypothesis body_decreases : forall s,
  T s -> cond s = true ->
  match body s with
  | inl _ => True
  | inr s' => T s' /\ (measure s' < measure s)%nat
  end.

Lemma measured_loop_total (fuel : nat) (s : S) :
  T s -> (measure s < fuel)%nat -> while fuel cond body s <> None.
Proof.
  revert s. induction fuel as [|n IH]; intros s Hs Hlen; [lia|].
  simpl. destruct (cond s) eqn:Hc; [|discriminate].
  specialize (body_decreases s Hs Hc).
  destruct (body s) as [x|s']; [discriminate|].
  destruct body_decreases as [Hs' Hlt]. apply IH; [exact Hs' | lia].
Qed.
End measured_loop.

Lemma int_multiple (z : Z) : z mod 2 ^ 32 = 0 -> int z = 0.
Proof.
  intros H. unfold int. rewrite <- Zplus_mod_idemp_l, H. reflexivity.
Qed.

Lemma int_congruent (z : Z) : (z - int z) mod 2 ^ 32 = 0.
Proof.
  unfold int.
  replace (z - ((z + 2 ^ 31) mod 2 ^ 32 - 2 ^ 31))
    with (2 ^ 32 * ((z + 2 ^ 31) / 2 ^ 32))
    by (pose proof (Z.div_mod (z + 2 ^ 31) (2 ^ 32)); lia).
  rewrite Z.mul_comm. apply Z.mod_mul. lia.
Qed.

Lemma do_send_cases (f : netpipe) (w : world) (bufptr : list byte) (left : Z) :
  credit_ok f -> 0 <= left < 2 ^ 64 ->
  let r := do_send f w bufptr left in
  let c := Z.min left (available_remote f) in
  r.1.1.1.1 <= 0
  \/ (r.1.1.1.1 = 1
      /\ ((c = 0 /\ r.1.1.1.2 = 0) \/ (0 < r.1.1.1.2 /\ r.1.1.1.2 = int c))
      /\ r.1.1.1.2 <= c
      /\ available_remote r.1.2 = available_remote f - r.1.1.1.2).
Proof.
  intros Hc Hleft. pose proof (available_remote_ok f Hc) as Ha.
  pose proof Hc as (H0 & H1 & H2). unfold do_send.
  replace (if left <? available_remote f then left else available_remote f)
    with (Z.min left (available_remote f))
    by (destruct (left <? available_remote f) eqn:E;
        [apply Z.ltb_lt in E | apply Z.ltb_ge in E]; lia).
  cbv zeta. set (n := Z.min left (available_remote f)).
  assert (Hn : 0 <= n <= remotemax f - remotesize f) by lia.
  destruct (n =? 0) eqn:En.
  - apply Z.eqb_eq in En. right. fields. repeat split; lia.
  - apply Z.eqb_neq in En. unfold send_write_message, sock_send.
    destruct (replies w (sock_calls w)); fields.
    + rewrite mem_read_length.
      replace (Z.of_nat (Z.to_nat n)) with n by lia.
      pose proof (int_le n ltac:(lia)) as Hle. pose proof (int_range n) as Hr.
      destruct (int n <=? 0) eqn:E; fields;
        [left; by apply Z.leb_le|apply Z.leb_gt in E].
      right. rewrite (size_t_id (int n)) by lia.
      split; [reflexivity|]. split; [right; by split|]. split; [lia|].
      rewrite Ha. unfold available_remote. fields.
      rewrite (size_t_id (remotesize f + int n)) by lia.
      rewrite size_t_id by lia. lia.
    + left. change (int 0 <=? 0) with true. fields. done.
    + left. change (int (-1) <=? 0) with true. fields. done.
Qed.

Lemma send_requests_body_progress (s : send_state) :
  loop_typed (ss_file s) (ss_world s) -> send_requests_cond s = true ->
  match send_requests_body s with
  | inl _ => True
  | inr s' =>
      loop_typed (ss_file s') (ss_world s')
      /\ (send_requests_measure s' < send_requests_measure s)%nat
  end.
Proof.
  intros [Hf Hw] Hc.
  pose proof (send_requests_body_ok s Hf Hw) as Hok.
  unfold send_requests_measure, head_stalled.
  unfold send_requests_body in *. unfold send_requests_cond in Hc.
  destruct (ss_req s) as [|r next]; [by rewrite andb_false_r in Hc|].
  destruct (requests (ss_world s) !! r) as [rq|] eqn:Hr; [|exact I].
  pose proof (request_size_typed _ _ _ Hw Hr) as Hsz.
  set (left := size_t (req_size rq - req_bytes_processed rq)) in *.
  pose proof (size_t_range (req_size rq - req_bytes_processed rq)) as Hleft.
  fold left in Hleft.
  pose proof (do_send_cases (ss_file s) (ss_world s)
                (mem_advance (req_buf rq) (req_bytes_processed rq)) left
                (proj1 Hf) Hleft) as Hcases.
  destruct (do_send _ _ _ _) as [[[[err n] e] f] w]. cbv zeta in Hcases.
  fields_in Hcases.
  set (c := Z.min left (available_remote (ss_file s))) in *.
  destruct (err <=? 0) eqn:Eerr; [exact I|].
  apply Z.leb_gt in Eerr.
  destruct Hcases as [Hle|(_ & Hn & Hnc & Havail)]; [lia|].
  split; [exact Hok|]. loop_fields.
  apply andb_true_iff in Hc as [Hpos _]. apply Z.ltb_lt in Hpos.
  destruct (_ =? req_size rq) eqn:E.
  { cbn [length]. repeat match goal with
      | |- context [if ?b then 1%nat else 0%nat] => destruct b end; lia. }
  apply Z.eqb_neq in E. rewrite lookup_insert_eq. fields.
  set (bp' := size_t (req_bytes_processed rq + n)) in *.
  assert (Hn0 : 0 < n /\ n = int c).
  { destruct Hn as [[Hc0 ->]|Hn]; [|exact Hn].
    exfalso. apply E. subst bp'. replace 0 with left by lia.
    by apply size_t_rejoin. }
  destruct Hn0 as [Hnpos Hnint].
  assert (Hstalled : negb (left =? 0) && (c mod 2 ^ 32 =? 0) = false).
  { destruct (c mod 2 ^ 32 =? 0) eqn:Em; [|apply andb_false_r].
    apply Z.eqb_eq in Em. apply int_multiple in Em. lia. }
  rewrite Hstalled.
  assert (Hleft' : size_t (req_size rq - bp') = left - n).
  { subst bp' left. unfold size_t.
    rewrite Zminus_mod_idemp_r.
    replace (req_size rq - (req_bytes_processed rq + n))
      with (req_size rq - req_bytes_processed rq - n) by lia.
    rewrite <- Zminus_mod_idemp_l. apply Z.mod_small.
    fold (size_t (req_size rq - req_bytes_processed rq)). lia. }
  rewrite Hleft', Havail.
  replace (Z.min (left - n) (available_remote (ss_file s) - n)) with (c - n)
    by (subst c; lia).
  assert (Hmod : (c - n) mod 2 ^ 32 = 0) by (rewrite Hnint; apply int_congruent).
  rewrite Hmod.
  assert (Hne : left - n <> 0).
  { intros Hz. apply E. subst bp'.
    replace n with left by lia. by apply size_t_rejoin. }
  apply Z.eqb_neq in Hne. rewrite Hne.
  cbn [negb andb Z.eqb length]. lia.
Qed.

Lemma do_buffered_read_cases (f : netpipe) (w : world) (left : Z) :
  0 <= left ->
  let r := do_buffered_read f w left in
  r.1.1.1.1.1 <= 0
  \/ (r.1.1.1.1.1 = 1
      /\ r.1.1.1.1.2 = Z.min left (cbuf_size (buffer f))
      /\ cbuf_size (buffer r.1.2) = cbuf_size (buffer f) - r.1.1.1.1.2).
Proof.
  intros Hleft. unfold do_buffered_read, cbuf_get. cbv zeta.
  pose proof (cbuf_size_nonneg (buffer f)) as Hs.
  set (k := Z.min left (cbuf_size (buffer f))).
  assert (Hsize : cbuf_size
            (buffer (set_buffer f
               {| cb_capacity := cb_capacity (buffer f);
                  cb_data := drop (Z.to_nat k) (cb_data (buffer f)) |}))
          = cbuf_size (buffer f) - k).
  { unfold cbuf_size in *. fields. rewrite length_drop. lia. }
  destruct (k =? 0); [right; fields; by repeat split|].
  unfold send_read_message.
  destruct (sock_send _ _ _) as [[bytes e] w'].
  destruct (bytes <=? 0) eqn:E; fields.
  - left. by apply Z.leb_le.
  - right. by repeat split.
Qed.

Lemma recv_buffered_body_progress (s : recv_state) :
  loop_typed (rs_file s) (rs_world s) -> recv_buffered_cond s = true ->
  match recv_buffered_body s with
  | inl _ => True
  | inr s' =>
      loop_typed (rs_file s') (rs_world s')
      /\ ((exists r, rs_req s = r :: rs_req s')
          \/ (rs_req s' = rs_req s /\ recv_buffered_cond s' = false))
  end.
Proof.
  intros [Hf Hw] Hc.
  pose proof (recv_buffered_body_ok s Hf Hw) as Hok.
  unfold recv_buffered_body in *. unfold recv_buffered_cond in Hc |- *.
  destruct (rs_req s) as [|r next]; [discriminate|].
  destruct (requests (rs_world s) !! r) as [rq|] eqn:Hr; [|exact I].
  pose proof (request_size_typed _ _ _ Hw Hr) as Hsz.
  set (left := size_t (req_size rq - req_bytes_processed rq)) in *.
  pose proof (do_buffered_read_cases (rs_file s) (rs_world s) left
                (proj1 (size_t_range _))) as Hcases.
  destruct (do_buffered_read _ _ _) as [[[[[err n] data] e] f] w].
  cbv zeta in Hcases. fields_in Hcases.
  destruct (err <=? 0) eqn:Eerr; [exact I|].
  apply Z.leb_gt in Eerr. destruct Hcases as [Hle|(_ & Hn & Hsize)]; [lia|].
  split; [exact Hok|]. loop_fields.
  destruct (_ =? req_size rq) eqn:E; [left; by eexists|right].
  split; [reflexivity|]. apply Z.eqb_neq in E.
  destruct (Z.le_gt_cases left (cbuf_size (buffer (rs_file s)))) as [Hle|Hgt].
  - exfalso. apply E. rewrite Hn, Z.min_l by lia. by apply size_t_rejoin.
  - unfold cbuf_empty. rewrite Hsize, Hn, Z.min_r by lia.
    replace (cbuf_size (buffer (rs_file s)) - cbuf_size (buffer (rs_file s)))
      with 0 by lia.
    reflexivity.
Qed.

Lemma recv_socket_body_progress (s : recv_state) :
  loop_typed (rs_file s) (rs_world s) -> recv_socket_cond s = true ->
  match recv_socket_body s with
  | inl _ => True
  | inr s' =>
      loop_typed (rs_file s') (rs_world s')
      /\ ((exists r, rs_req s = r :: rs_req s')
          \/ (rs_req s' = rs_req s /\ recv_socket_cond s' = false))
  end.
Proof.
  intros [Hf Hw] Hc.
  pose proof (recv_socket_body_ok s Hf Hw) as Hok.
  unfold recv_socket_body in *. unfold recv_socket_cond in Hc |- *.
  destruct (rs_req s) as [|r next]; [discriminate|].
  destruct (requests (rs_world s) !! r) as [rq|] eqn:Hr; [|exact I].
  pose proof (request_size_typed _ _ _ Hw Hr) as Hsz.
  set (left := size_t (req_size rq - req_bytes_processed rq)) in *.
  set (toberead := if left <? rs_remaining s then left else rs_remaining s) in *.
  unfold readn in *.
  destruct ((0 <? toberead) && _) eqn:Eread; [|exact I].
  apply andb_true_iff in Eread as [Hpos _]. apply Z.ltb_lt in Hpos.
  replace (toberead <=? 0) with false in * by (symmetry; apply Z.leb_gt; lia).
  unfold send_read_message in *.
  destruct (sock_send _ _ _) as [[err e] w].
  destruct (err <=? 0); [exact I|].
  split; [exact Hok|]. loop_fields.
  destruct (_ =? req_size rq) eqn:E; [left; by eexists|right].
  split; [reflexivity|]. apply Z.eqb_neq in E.
  subst toberead. destruct (left <? rs_remaining s) eqn:El.
  - exfalso. apply E. by apply size_t_rejoin.
  - replace (rs_remaining s - rs_remaining s) with 0 by lia.
    change (size_t 0) with 0. change (0 <? 0) with false.
    by rewrite andb_false_r.
Qed.

(** [send_data] always comes to an end. *)
Lemma send_data_total (f : netpipe) (w : world) :
  pipe_ok f -> sound w -> send_data f w <> None.
Proof.
  intros Hf Hw. unfold send_data.
  pose proof (do_flush_ok f w Hf Hw) as [Hf1 Hw1].
  destruct (do_flush f w) as [[[[err bytes] e] f1] w1].
  fields_in Hf1. fields_in Hw1.
  destruct (err <=? 0); [discriminate|].
  match goal with
  | |- context [while ?n send_requests_cond send_requests_body ?s] =>
      pose proof (measured_loop_total send_requests_measure
                    (fun x => loop_typed (ss_file x) (ss_world x))
                    send_requests_cond send_requests_body
                    send_requests_body_progress
                    n s (conj Hf1 Hw1)) as T1;
      specialize (T1 ltac:(unfold send_requests_measure;
                           cbn [ss_req]; lia));
      pose proof (request_loop_ok ss_file ss_world send_requests_cond
                    send_requests_body send_requests_body_ok n s) as L1;
      destruct (while n send_requests_cond send_requests_body s)
        as [[[err1 en f2 w2|]|s1]|]; try discriminate; try done
  end.
  specialize (L1 _ Hf1 Hw1 eq_refl). cbv beta iota in L1.
  match goal with
  | |- context [while ?n writeahead_cond writeahead_body ?s] =>
      pose proof (request_loop_total ss_req
                    (fun x => loop_typed (ss_file x) (ss_world x))
                    writeahead_cond writeahead_body
                    writeahead_cond_nonempty writeahead_body_progress
                    n s L1 (Nat.lt_succ_diag_r _)) as T2;
      destruct (while n writeahead_cond writeahead_body s)
        as [[x|s2]|]; try discriminate; try done
  end.
  destruct (0 <? ss_datasent s2); [|discriminate].
  by destruct (loop_poll_notify _ _).
Qed.

(** So do the two loops of [netpipe_recv]. *)
Lemma recv_loops_total (s : recv_state) :
  pipe_ok (rs_file s) -> sound (rs_world s) ->
  while (S (length (rs_req s))) recv_buffered_cond recv_buffered_body s <> None
  /\ while (S (length (rs_req s))) recv_socket_cond recv_socket_body s <> None.
Proof.
  intros Hf Hw. split.
  - apply (request_loop_total rs_req
             (fun x => loop_typed (rs_file x) (rs_world x))
             recv_buffered_cond recv_buffered_body
             recv_buffered_cond_nonempty recv_buffered_body_progress);
      [by split | lia].
  - apply (request_loop_total rs_req
             (fun x => loop_typed (rs_file x) (rs_world x))
             recv_socket_cond recv_socket_body
             recv_socket_cond_nonempty recv_socket_body_progress);
      [by split | lia].
Qed.

(** * Further properties of the pipe calls *)

(** ** Teardown *)

Lemma store_trace (f : netpipe) (w : world) : trace (store f w) = trace w.
Proof. reflexivity. Qed.

(** X1: [netpipe_force_exit] sets the flag and broadcasts the three
    condition variables.  In the world it leaves, [netpipe_send],
    [netpipe_read] and [netpipe_flush] on that pipe fail with EPIPE and
    change nothing; [netpipe_open] fails with ENOENT, changes nothing in
    the pipe, and returns with the mutex of the pipe still locked; a
    second [netpipe_force_exit] only repeats the broadcasts. *)
Theorem netpipe_force_exit_sticky (w : world) (p : string) (f : netpipe) :
  open_files w !! p = Some f -> path f = p ->
  exists w1,
    netpipe_force_exit w p = Done w1 (Result 0 None)
    /\ open_files w1 = <[p := set_force_exit f true]> (open_files w)
    /\ trace w1 = trace w ++ [EvBroadcast p cv_canopen; EvBroadcast p cv_rd;
                              EvBroadcast p cv_wr]
    /\ (forall buf size nonblock,
          netpipe_send w1 p buf size nonblock = Done w1 (Result (-1) (Some EPIPE)))
    /\ (forall size nonblock,
          netpipe_read w1 p size nonblock
          = Done w1 (Result (-1, []) (Some EPIPE)))
    /\ (forall nonblock,
          netpipe_flush w1 p nonblock = Done w1 (Result (-1) (Some EPIPE)))
    /\ (forall mode nonblock, mode <> O_RDWR ->
          netpipe_open w1 p mode nonblock
          = DoneLocked w1 p (Result None (Some ENOENT)))
    /\ (exists w2,
          netpipe_force_exit w1 p = Done w2 (Result 0 None)
          /\ open_files w2 = open_files w1).
Proof.
  intros Hf Hp. unfold netpipe_force_exit at 1, with_file. rewrite Hf.
  unfold pthread_cond_broadcast. fields. rewrite Hp.
  eexists. split; [reflexivity|].
  set (w1 := store _ _).
  assert (Hf1 : open_files w1 !! p = Some (set_force_exit f true)).
  { subst w1. unfold store. fields. rewrite Hp. apply lookup_insert_eq. }
  split; [subst w1; unfold store; fields; by rewrite Hp|].
  split; [subst w1; unfold store; fields; by rewrite <- !app_assoc|].
  clearbody w1.
  split; [|split; [|split; [|split]]].
  - intros buf size nonblock. unfold netpipe_send, with_file. by rewrite Hf1.
  - intros size nonblock. unfold netpipe_read, with_file. by rewrite Hf1.
  - intros nonblock. unfold netpipe_flush, with_file. by rewrite Hf1.
  - intros mode nonblock Hmode. apply Z.eqb_neq in Hmode.
    unfold netpipe_open, netpipefs_get_or_create_open_file.
    rewrite Hmode, Hf1. fields. unfold open_error. fields. rewrite Hp.
    rewrite store_same; [reflexivity|]. fields. by rewrite Hp.
  - unfold netpipe_force_exit, with_file. rewrite Hf1.
    eexists. split; [reflexivity|].
    unfold pthread_cond_broadcast, store. fields. rewrite Hp.
    apply insert_id. exact Hf1.
Qed.

Lemma netpipe_force_exit_sticky_witness :
  let f := set_writers (set_readers (a_pipe "/p") 1) 1 in
  let w := store f quiet_world in
  exists w1,
    netpipe_force_exit w "/p" = Done w1 (Result 0 None)
    /\ netpipe_send w1 "/p" [x01] 1 false = Done w1 (Result (-1) (Some EPIPE))
    /\ netpipe_open w1 "/p" O_WRONLY false
       = DoneLocked w1 "/p" (Result None (Some ENOENT)).
Proof.
  intros f w.
  destruct (netpipe_force_exit_sticky w "/p" f eq_refl eq_refl)
    as (w1 & H1 & _ & _ & H2 & _ & _ & H3 & _).
  exists w1. split; [exact H1 | split; [apply H2 | by apply H3]].
Defined.

(** ** Writing *)

Lemma ssize_t_id (z : Z) : - 2 ^ 63 <= z < 2 ^ 63 -> ssize_t z = z.
Proof. intros H. unfold ssize_t. rewrite Z.mod_small; lia. Qed.

Lemma min_if (a b : Z) : (if a <? b then a else b) = Z.min a b.
Proof. destruct (a <? b) eqn:E; [apply Z.ltb_lt in E | apply Z.ltb_ge in E]; lia. Qed.

Lemma mem_read_nat (m : list byte) (n : Z) :
  0 <= n -> Z.of_nat (length (mem_read m n)) = n.
Proof. intros H. rewrite mem_read_length. lia. Qed.

(** What [do_send] does when the channel delivers: a WRITE of
    [min size credit] bytes, counted in [remotesize], as long as their
    number fits the [int] that holds it. *)
Lemma do_send_delivered (f : netpipe) (w : world) (bufptr : list byte)
    (size : Z) (c : positive) :
  credit_ok f -> 0 < size < 2 ^ 64 -> 0 < available_remote f ->
  Z.min size (available_remote f) < 2 ^ 31 ->
  replies w (sock_calls w) = Delivered c ->
  let n := Z.min size (available_remote f) in
  do_send f w bufptr size
  = (1, n, None, set_remotesize f (remotesize f + n),
     emit (set_sock_calls w (S (sock_calls w)))
          (EvSend (WRITE (path f) (mem_read bufptr n)) (Delivered c)
                  (remotesize f) (remotemax f))).
Proof.
  intros Hc Hsize Hav Hint Hrep n. pose proof (available_remote_ok f Hc) as Ha.
  pose proof Hc as (H0 & H1 & H2).
  unfold do_send. rewrite min_if. fold n.
  assert (Hn : 0 < n <= remotemax f - remotesize f) by lia.
  replace (n =? 0) with false by (symmetry; apply Z.eqb_neq; lia).
  unfold send_write_message, sock_send. rewrite Hrep. crunch.
  rewrite mem_read_nat by lia. rewrite (int_id n) by lia.
  replace (n <=? 0) with false by (symmetry; apply Z.leb_gt; lia).
  rewrite (size_t_id n) by lia. rewrite size_t_id by lia. reflexivity.
Qed.

(** X2: with the buffer empty and enough credit, [netpipe_send] hands the
    [size] bytes to the channel in one WRITE, counts them in [remotesize]
    and returns [size], in blocking and in nonblocking mode alike; the
    buffer and the request lists are not touched.  [size] is below
    [2^31]: [do_send] holds the count of the WRITE in an [int]. *)
Theorem netpipe_send_direct
    (w : world) (p : string) (f : netpipe) (buf : list byte) (size : Z)
    (nonblock : bool) (c : positive) :
  open_files w !! p = Some f -> path f = p ->
  force_exit f = false -> readers f <> 0 ->
  credit_ok f -> cbuf_size (buffer f) = 0 ->
  0 < size < 2 ^ 31 -> size <= available_remote f ->
  replies w (sock_calls w) = Delivered c ->
  netpipe_send w p buf size nonblock
  = Done (store (set_remotesize f (remotesize f + size))
            (emit (set_sock_calls w (S (sock_calls w)))
               (EvSend (WRITE p (mem_read buf size)) (Delivered c)
                       (remotesize f) (remotemax f))))
         (Result size None).
Proof.
  intros Hf Hp Hfe Hrd Hc Hb Hsize Hav Hrep.
  apply Z.eqb_neq in Hrd.
  unfold netpipe_send, with_file. rewrite Hf, Hfe, Hrd.
  rewrite do_flush_empty by assumption. crunch.
  change (1 <=? 0) with false. change (0 <? 0) with false. crunch.
  replace (0 <? available_remote f) with true
    by (symmetry; apply Z.ltb_lt; lia).
  unfold cbuf_empty. rewrite Hb. change (0 =? 0) with true. crunch.
  rewrite (do_send_delivered f w buf size c) by (assumption || lia).
  rewrite Z.min_l by lia. crunch. change (1 <=? 0) with false. crunch.
  replace (0 + size) with size by lia. rewrite size_t_id by lia.
  rewrite Z.eqb_refl, Hp. rewrite ssize_t_id by lia. reflexivity.
Qed.

Lemma netpipe_send_direct_witness :
  let f := set_readers (a_pipe "/p") 1 in
  let w := store f quiet_world in
  netpipe_send w "/p" [x01; x02; x03] 3 false
  = Done (store (set_remotesize f (remotesize f + 3))
            (emit (set_sock_calls w (S (sock_calls w)))
               (EvSend (WRITE "/p" (mem_read [x01; x02; x03] 3)) (Delivered 1)
                       (remotesize f) (remotemax f))))
         (Result 3 None).
Proof.
  intros f w.
  apply (netpipe_send_direct w "/p" f [x01; x02; x03] 3 false 1%positive);
    try reflexivity; try discriminate; try (vm_compute; intuition discriminate).
Defined.

(** X3: with no credit left and room for [size] bytes in the buffer,
    [netpipe_send] copies the bytes behind those already buffered
    (writeahead) and returns [size] without sending anything. *)
Theorem netpipe_send_writeahead
    (w : world) (p : string) (f : netpipe) (buf : list byte) (size : Z)
    (nonblock : bool) :
  open_files w !! p = Some f -> path f = p ->
  force_exit f = false -> readers f <> 0 ->
  available_remote f = 0 ->
  0 < size < 2 ^ 63 -> size <= cbuf_free (buffer f) ->
  netpipe_send w p buf size nonblock
  = Done (store (set_buffer f
                   {| cb_capacity := cb_capacity (buffer f);
                      cb_data := cb_data (buffer f) ++ mem_read buf size |}) w)
         (Result size None).
Proof.
  intros Hf Hp Hfe Hrd Hav Hsize Hroom.
  apply Z.eqb_neq in Hrd.
  unfold netpipe_send, with_file. rewrite Hf, Hfe, Hrd.
  rewrite do_flush_no_credit by assumption. crunch.
  change (1 <=? 0) with false. change (0 <? 0) with false. crunch.
  rewrite Hav. change (0 <? 0) with false. crunch.
  replace (0 =? size) with false by (symmetry; apply Z.eqb_neq; lia).
  unfold cbuf_put. rewrite Z.min_l by lia. crunch.
  replace (0 + size) with size by lia. rewrite size_t_id by lia.
  rewrite Z.eqb_refl. crunch. rewrite ssize_t_id by lia.
  replace (size =? 0) with false by (symmetry; apply Z.eqb_neq; lia).
  reflexivity.
Qed.

Lemma netpipe_send_writeahead_witness :
  let f := set_remotesize (set_readers (a_pipe "/p") 1) 16 in
  let w := store f quiet_world in
  netpipe_send w "/p" [x01; x02; x03] 3 true
  = Done (store (set_buffer f
                   {| cb_capacity := 16; cb_data := mem_read [x01; x02; x03] 3 |}) w)
         (Result 3 None).
Proof.
  intros f w.
  apply (netpipe_send_writeahead w "/p" f [x01; x02; x03] 3 true);
    try reflexivity; try discriminate; try (vm_compute; intuition discriminate).
Defined.

(** X4: the writeahead of [netpipe_send] is [cbuf_put(file->buffer,
    bufptr, size)], with the whole [size] and not what is left of it.
    After a direct send cut short by the credit ([0 < credit < size]) and
    with room for [size] bytes in the empty buffer, the nonblocking call
    buffers [size] bytes from [buf + credit] on, [credit] of them from
    behind the caller's data, and returns [credit + size]: more than it
    was given.  The credit is below [2^31]: [do_send] holds the count of
    the WRITE in an [int]. *)
Theorem netpipe_send_writeahead_overcount
    (w : world) (p : string) (f : netpipe) (buf : list byte) (size : Z)
    (c : positive) :
  open_files w !! p = Some f -> path f = p ->
  force_exit f = false -> readers f <> 0 ->
  credit_ok f -> cbuf_size (buffer f) = 0 ->
  0 < available_remote f < size -> available_remote f < 2 ^ 31 ->
  size < 2 ^ 62 ->
  size <= cbuf_free (buffer f) ->
  replies w (sock_calls w) = Delivered c ->
  let credit := available_remote f in
  netpipe_send w p buf size true
  = Done (store (set_buffer (set_remotesize f (remotesize f + credit))
                   {| cb_capacity := cb_capacity (buffer f);
                      cb_data := cb_data (buffer f)
                                 ++ mem_read (mem_advance buf credit) size |})
            (emit (set_sock_calls w (S (sock_calls w)))
               (EvSend (WRITE p (mem_read buf credit)) (Delivered c)
                       (remotesize f) (remotemax f))))
         (Result (credit + size) None).
Proof.
  intros Hf Hp Hfe Hrd Hc Hb Hav Hint Hsize Hroom Hrep credit.
  apply Z.eqb_neq in Hrd.
  unfold netpipe_send, with_file. rewrite Hf, Hfe, Hrd.
  rewrite do_flush_empty by assumption. crunch.
  change (1 <=? 0) with false. change (0 <? 0) with false. crunch.
  replace (0 <? available_remote f) with true
    by (symmetry; apply Z.ltb_lt; lia).
  unfold cbuf_empty. rewrite Hb. change (0 =? 0) with true. crunch.
  rewrite (do_send_delivered f w buf size c) by (assumption || lia).
  rewrite Z.min_r by lia. fold credit. crunch.
  change (1 <=? 0) with false. crunch.
  replace (0 + credit) with credit by lia.
  rewrite (size_t_id credit) by (subst credit; lia).
  replace (credit =? size) with false
    by (symmetry; apply Z.eqb_neq; subst credit; lia).
  unfold cbuf_put. fields. unfold cbuf_free in *. unfold cbuf_size in *. fields.
  rewrite Z.min_l by lia. crunch.
  rewrite (size_t_id (credit + size)) by (subst credit; lia).
  replace (credit + size =? 0) with false
    by (symmetry; apply Z.eqb_neq; subst credit; lia).
  rewrite ssize_t_id by (subst credit; lia). rewrite Hp.
  destruct (credit + size =? size); reflexivity.
Qed.

Lemma netpipe_send_writeahead_overcount_witness :
  let f := set_remotesize (set_readers (a_pipe "/p") 1) 12 in
  let w := store f quiet_world in
  exists w', netpipe_send w "/p" [x01; x02; x03; x04; x05; x06; x07; x08] 8 true
             = Done w' (Result (4 + 8) None).
Proof.
  intros f w. eexists.
  apply (netpipe_send_writeahead_overcount w "/p" f
           [x01; x02; x03; x04; x05; x06; x07; x08] 8 1%positive);
    try reflexivity; try discriminate; try (vm_compute; intuition discriminate).
Defined.

(** ** Reading *)

(** X5: [netpipe_read] on an empty buffer.  In nonblocking mode it returns
    0 with [errno = EAGAIN] and changes nothing, also when no writer is
    left: the end of the stream is tested after the nonblocking return.
    In blocking mode with no writer left it returns 0, the end of the
    stream, with [errno] untouched, no request queued and nothing sent. *)
Theorem netpipe_read_empty
    (w : world) (p : string) (f : netpipe) (size : Z) :
  open_files w !! p = Some f -> path f = p ->
  force_exit f = false -> cbuf_size (buffer f) = 0 -> 0 < size ->
  netpipe_read w p size true = Done w (Result (0, []) (Some EAGAIN))
  /\ (writers f = 0 ->
      netpipe_read w p size false = Done w (Result (0, []) None)).
Proof.
  intros Hf Hp Hfe Hb Hsize.
  assert (Hst : store f w = w) by (apply store_same; by rewrite Hp).
  unfold netpipe_read, with_file. rewrite Hf, Hfe.
  rewrite do_buffered_read_empty by (assumption || lia). crunch.
  change (1 <=? 0) with false. crunch.
  replace (0 =? size) with false by (symmetry; apply Z.eqb_neq; lia).
  rewrite Hst. split; [reflexivity|].
  intros ->. reflexivity.
Qed.

Lemma netpipe_read_empty_witness :
  let f := a_pipe "/p" in
  let w := store f quiet_world in
  netpipe_read w "/p" 4 true = Done w (Result (0, []) (Some EAGAIN))
  /\ (writers f = 0 ->
      netpipe_read w "/p" 4 false = Done w (Result (0, []) None)).
Proof.
  intros f w. apply (netpipe_read_empty w "/p" f 4); reflexivity.
Defined.

Lemma while_skip {S R : Type} (n : nat) (cond : S -> bool)
    (body : S -> R + S) (s : S) :
  cond s = false -> while (Datatypes.S n) cond body s = Some (inr s).
Proof. intros H. simpl. by rewrite H. Qed.

(** [netpipe_recv] with no reader waiting: the bytes of the WRITE go to
    the buffer, behind those it holds (readahead); nothing is sent. *)
Lemma netpipe_recv_readahead
    (wakeup : Z) (w : world) (p : string) (f : netpipe) (size : Z) :
  open_files w !! p = Some f -> path f = p ->
  rd_req f = [] ->
  0 < size < 2 ^ 31 -> size <= cbuf_free (buffer f) ->
  size <= Z.of_nat (length (inbound w)) ->
  exists f1 w1,
    netpipe_recv wakeup w p size = Done w1 (Result size None)
    /\ open_files w1 !! p = Some f1
    /\ path f1 = p /\ force_exit f1 = force_exit f
    /\ writers f1 = writers f /\ readers f1 = readers f
    /\ remotemax f1 = remotemax f /\ remotesize f1 = remotesize f
    /\ rd_req f1 = [] /\ wr_req f1 = wr_req f /\ poll_handles f1 = []
    /\ buffer f1 = {| cb_capacity := cb_capacity (buffer f);
                      cb_data := cb_data (buffer f)
                                 ++ take (Z.to_nat size) (inbound w) |}
    /\ inbound w1 = drop (Z.to_nat size) (inbound w)
    /\ replies w1 = replies w /\ sock_calls w1 = sock_calls w
    /\ requests w1 = requests w /\ next_request w1 = next_request w
    /\ open_mode f1 = open_mode f
    /\ trace w1 = trace w
                  ++ (if wakeup =? 0 then [] else [EvBroadcast p cv_rd])
                  ++ map EvPollNotify (poll_handles f).
Proof.
  intros Hf Hp Hrd Hsize Hroom Hin.
  unfold netpipe_recv, with_file. rewrite Hf, Hrd.
  rewrite while_skip by reflexivity.
  cbn [rs_req rs_wakeup rs_remaining rs_file rs_world].
  rewrite while_skip by reflexivity.
  cbn [rs_req rs_wakeup rs_remaining rs_file rs_world]. fields.
  replace (0 <? size) with true by (symmetry; apply Z.ltb_lt; lia).
  unfold cbuf_readn, readn. rewrite Z.min_l by lia.
  replace (0 <? size) with true by (symmetry; apply Z.ltb_lt; lia).
  replace (size <=? Z.of_nat (length (inbound w))) with true
    by (symmetry; apply Z.leb_le; lia).
  crunch.
  replace (size <=? 0) with false by (symmetry; apply Z.leb_gt; lia).
  unfold loop_poll_notify. rewrite int_id by lia.
  assert (Hkeep : forall l w0,
            let w' := foldl (fun w0 ph => emit w0 (EvPollNotify ph)) w0 l in
            inbound w' = inbound w0 /\ replies w' = replies w0
            /\ sock_calls w' = sock_calls w0 /\ requests w' = requests w0
            /\ next_request w' = next_request w0).
  { induction l as [|ph l IH]; intros w0; cbn [foldl]; [done|].
    destruct (IH (emit w0 (EvPollNotify ph))) as (E1 & E2 & E3 & E4 & E5).
    cbv zeta in *. rewrite E1, E2, E3, E4, E5. done. }
  do 2 eexists. split; [reflexivity|].
  destruct (wakeup =? 0); crunch; fields; rewrite Hp, lookup_insert_eq;
    (split; [reflexivity|]); fields;
    match goal with |- context [foldl ?g ?w0 ?l] =>
      destruct (Hkeep l w0) as (H1 & H2 & H3 & H4 & H5) end;
    cbv zeta in H1, H2, H3, H4, H5; rewrite H1, H2, H3, H4, H5;
    rewrite poll_notify_trace; fields;
    repeat split; try reflexivity; try assumption;
    by rewrite <- ?app_assoc.
Qed.

(** X6: the bytes of an incoming WRITE that no reader waits for are kept
    behind those already buffered, and the next [netpipe_read] of all the
    buffered bytes returns them in the order of arrival.  [netpipe_recv]
    itself sends nothing: the peer gets its credit back, in one READ
    message for the bytes read, only when [netpipe_read] takes them. *)
Theorem netpipe_recv_then_read
    (wakeup : Z) (w : world) (p : string) (f : netpipe) (size : Z)
    (nonblock : bool) (c : positive) :
  open_files w !! p = Some f -> path f = p ->
  force_exit f = false -> rd_req f = [] ->
  0 < size < 2 ^ 31 -> size <= cbuf_free (buffer f) ->
  cb_capacity (buffer f) < 2 ^ 63 ->
  size <= Z.of_nat (length (inbound w)) ->
  replies w (sock_calls w) = Delivered c ->
  let n := cbuf_size (buffer f) + size in
  exists w1 w2,
    netpipe_recv wakeup w p size = Done w1 (Result size None)
    /\ sock_calls w1 = sock_calls w
    /\ netpipe_read w1 p n nonblock
       = Done w2 (Result (n, cb_data (buffer f)
                             ++ take (Z.to_nat size) (inbound w)) None)
    /\ trace w2 = trace w1 ++ [EvSend (READ p n) (Delivered c)
                                      (remotesize f) (remotemax f)]
    /\ (exists f2, open_files w2 !! p = Some f2 /\ cbuf_size (buffer f2) = 0).
Proof.
  intros Hf Hp Hfe Hrd Hsize Hroom Hcap Hin Hrep n.
  destruct (netpipe_recv_readahead wakeup w p f size Hf Hp Hrd Hsize Hroom Hin)
    as (f1 & w1 & Hrecv & Hf1 & Hp1 & Hfe1 & Hw1 & Hr1 & Hmax & Hrs & Hrd1 & Hwr1
        & Hph & Hb1 & Hin1 & Hrep1 & Hsc1 & Hrq1 & Hnx1 & Hom1 & Htr1).
  assert (Hn : Z.to_nat n = length (cb_data (buffer f)
                                     ++ take (Z.to_nat size) (inbound w))).
  { subst n. unfold cbuf_size. rewrite length_app, length_take. lia. }
  assert (Hn0 : 0 < n < 2 ^ 63).
  { subst n. unfold cbuf_free in Hroom. unfold cbuf_size in *. lia. }
  exists w1. eexists. split; [exact Hrecv|]. split; [exact Hsc1|].
  unfold netpipe_read, with_file. rewrite Hf1, Hfe1, Hfe.
  assert (Hsz : cbuf_size (buffer f1) = n).
  { rewrite Hb1. unfold cbuf_size. fields. rewrite <- Hn. lia. }
  unfold do_buffered_read, cbuf_get. rewrite Hsz, Z.min_id, Hb1. fields.
  rewrite Hn, take_ge, drop_ge by lia. crunch.
  replace (n =? 0) with false by (symmetry; apply Z.eqb_neq; lia).
  unfold send_read_message, sock_send. rewrite Hrep1, Hsc1, Hrep. crunch.
  change (Z.pos c <=? 0) with false. crunch.
  change (1 <=? 0) with false. crunch.
  rewrite Z.eqb_refl. crunch. rewrite ssize_t_id by lia.
  replace (n =? 0) with false by (symmetry; apply Z.eqb_neq; lia).
  split; [reflexivity|]. fields. rewrite Hp1, Hrs, Hmax.
  split; [reflexivity|].
  eexists. rewrite lookup_insert_eq. split; reflexivity.
Qed.

Lemma netpipe_recv_then_read_witness :
  let f := set_writers (a_pipe "/p") 1 in
  let w := set_inbound (store f quiet_world) [x0a; x0b; x0c] in
  exists w1 w2,
    netpipe_recv 0 w "/p" 3 = Done w1 (Result 3 None)
    /\ sock_calls w1 = sock_calls w
    /\ netpipe_read w1 "/p" (0 + 3) false
       = Done w2 (Result (0 + 3, [] ++ take (Z.to_nat 3) [x0a; x0b; x0c]) None)
    /\ trace w2 = trace w1 ++ [EvSend (READ "/p" (0 + 3)) (Delivered 1) 0 16]
    /\ (exists f2, open_files w2 !! "/p" = Some f2 /\ cbuf_size (buffer f2) = 0).
Proof.
  intros f w.
  apply (netpipe_recv_then_read 0 w "/p" f 3 false 1%positive);
    try reflexivity; try (vm_compute; intuition discriminate).
Defined.

(** X7: a blocking [netpipe_read] that finds the buffer empty and a writer
    present queues a request for [size] bytes, asks the peer for them with
    one READ-REQUEST and sleeps on [rd].  When the [size] bytes of the
    answering WRITE arrive, [netpipe_recv] stores them in the request
    without passing through the buffer, acknowledges them with one READ
    message and broadcasts [rd]; the reader then wakes, returns [size] and
    exactly those bytes, and its request is freed. *)
Theorem netpipe_read_served
    (wakeup : Z) (w : world) (p : string) (f : netpipe) (size : Z)
    (data rest : list byte) (c c' : positive) :
  open_files w !! p = Some f -> path f = p ->
  force_exit f = false -> writers f <> 0 ->
  rd_req f = [] -> cbuf_size (buffer f) = 0 ->
  0 < size < 2 ^ 31 -> Z.of_nat (length data) = size ->
  replies w (sock_calls w) = Delivered c ->
  replies w (S (sock_calls w)) = Delivered c' ->
  exists w1 waiting k,
    netpipe_read w p size false = Wait w1 p (Some cv_rd) waiting k
    /\ waiting w1 = true
    /\ trace w1 = trace w ++ [EvSend (READ_REQUEST p size) (Delivered c)
                                     (remotesize f) (remotemax f)]
    /\ exists w2 w3,
         netpipe_recv wakeup (set_inbound w1 (data ++ rest)) p size
         = Done w2 (Result size None)
         /\ trace w2 = trace w1
                       ++ [EvSend (READ p size) (Delivered c')
                                  (remotesize f) (remotemax f);
                           EvBroadcast p cv_rd]
                       ++ map EvPollNotify (poll_handles f)
         /\ waiting w2 = false
         /\ k w2 = Done w3 (Result (size, data) None)
         /\ requests w3 !! next_request w = None
         /\ inbound w3 = rest
         /\ (exists f3, open_files w3 !! p = Some f3
                        /\ rd_req f3 = [] /\ cbuf_size (buffer f3) = 0).
Proof.
  intros Hf Hp Hfe Hwr Hrd Hb Hsize Hdata Hrep Hrep'. subst p.
  apply Z.eqb_neq in Hwr.
  assert (Hlt : (0 <? size) = true) by (apply Z.ltb_lt; lia).
  assert (Hne : (0 =? size) = false) by (apply Z.eqb_neq; lia).
  assert (Hne' : (size =? 0) = false) by (apply Z.eqb_neq; lia).
  assert (Hle : (size <=? 0) = false) by (apply Z.leb_gt; lia).
  do 3 eexists. split.
  { unfold netpipe_read, with_file. rewrite Hf, Hfe.
    rewrite do_buffered_read_empty by (assumption || lia). crunch.
    change (1 <=? 0) with false. crunch. rewrite Hne, Hwr.
    replace (size - 0) with size by lia. rewrite (size_t_id size) by lia.
    unfold netpipe_add_request. change (O_RDONLY =? O_RDONLY) with true. crunch.
    unfold send_read_request_message, sock_send. fields. rewrite Hrep. crunch.
    change (Z.pos c <=? 0) with false. crunch.
    unfold wait_while, request_pending. fields. rewrite lookup_insert_eq. fields.
    rewrite Hfe, Hne. crunch. change (0 =? 0) with true. rewrite Hrd.
    reflexivity. }
  fields. rewrite !lookup_insert_eq. fields. rewrite Hfe, Hne.
  split; [reflexivity|]. split; [reflexivity|].
  (* the WRITE arrives *)
  do 2 eexists. split.
  { unfold netpipe_recv, with_file. fields. rewrite lookup_insert_eq. fields.
    rewrite while_skip
      by (unfold recv_buffered_cond; cbn [rs_req rs_file]; fields;
          unfold cbuf_empty; rewrite Hb; reflexivity).
    cbn [rs_req rs_wakeup rs_remaining rs_file rs_world length].
    unfold while. unfold recv_socket_cond at 1.
    cbn [rs_req rs_wakeup rs_remaining rs_file rs_world]. fields.
    unfold cbuf_empty at 1. rewrite Hb, Hlt. change (0 =? 0) with true. crunch.
    unfold recv_socket_body at 1.
    cbn [rs_req rs_wakeup rs_remaining rs_file rs_world]. fields.
    rewrite lookup_insert_eq. fields.
    replace (size - 0) with size by lia. rewrite (size_t_id size) by lia.
    rewrite Z.ltb_irrefl.
    unfold readn. fields. rewrite Hlt.
    replace (size <=? Z.of_nat (length (data ++ rest))) with true
      by (symmetry; apply Z.leb_le; rewrite length_app; lia).
    crunch. rewrite Hle.
    replace (Z.to_nat size) with (length data) by lia.
    rewrite take_app_length, drop_app_length.
    unfold send_read_message, sock_send. fields. rewrite Hrep'. crunch.
    change (Z.pos c' <=? 0) with false. crunch. fields.
    replace (0 + size) with size by lia. rewrite (size_t_id size) by lia.
    rewrite Z.eqb_refl.
    cbn [rs_req rs_wakeup rs_remaining rs_file rs_world]. crunch.
    unfold recv_socket_cond.
    cbn [rs_req rs_wakeup rs_remaining rs_file rs_world]. crunch. fields.
    replace (size - size) with 0 by lia. change (size_t 0) with 0.
    cbn [rs_req rs_wakeup rs_remaining rs_file rs_world].
    change (0 <? 0) with false. change (1 =? 0) with false. crunch.
    cbn [rs_req rs_wakeup rs_remaining rs_file rs_world].
    unfold loop_poll_notify. fields. rewrite int_id by lia.
    reflexivity. }
  assert (Hin : forall l w0,
            inbound (foldl (fun w0 ph => emit w0 (EvPollNotify ph)) w0 l)
            = inbound w0).
  { induction l as [|ph l IH]; intros w0; cbn [foldl]; [done|]. by rewrite IH. }
  fields. rewrite poll_notify_trace. fields.
  split; [by rewrite <- !app_assoc|].
  rewrite lookup_insert_eq. fields. rewrite poll_notify_requests. fields.
  rewrite insert_insert_eq, lookup_insert_eq. fields.
  replace (0 + size) with size by lia. rewrite (size_t_id size) by lia.
  rewrite Z.eqb_refl, Hfe.
  split; [reflexivity|].
  split.
  { unfold with_file, netpipe_read_wake. fields. rewrite lookup_insert_eq.
    rewrite poll_notify_requests. fields.
    rewrite lookup_insert_eq. fields.
    replace (0 + size) with size by lia. rewrite (size_t_id size) by lia.
    rewrite Hne'. crunch.
    replace (0 + size) with size by lia. rewrite (size_t_id size) by lia.
    rewrite ssize_t_id by lia. reflexivity. }
  fields. rewrite poll_notify_requests. fields.
  split; [by rewrite lookup_delete_eq|].
  rewrite Hin. fields. split; [reflexivity|].
  eexists. rewrite lookup_insert_eq. split; [reflexivity|]. fields.
  split; [reflexivity | exact Hb].
Qed.

Lemma netpipe_read_served_witness :
  let f := set_writers (a_pipe "/p") 1 in
  let w := store f quiet_world in
  exists w1 waiting k,
    netpipe_read w "/p" 2 false = Wait w1 "/p" (Some cv_rd) waiting k
    /\ waiting w1 = true
    /\ trace w1 = trace w ++ [EvSend (READ_REQUEST "/p" 2) (Delivered 1)
                                     (remotesize f) (remotemax f)]
    /\ exists w2 w3,
         netpipe_recv 0 (set_inbound w1 ([x0a; x0b] ++ [x0c])) "/p" 2
         = Done w2 (Result 2 None)
         /\ trace w2 = trace w1
                       ++ [EvSend (READ "/p" 2) (Delivered 1)
                                  (remotesize f) (remotemax f);
                           EvBroadcast "/p" cv_rd]
                       ++ map EvPollNotify (poll_handles f)
         /\ waiting w2 = false
         /\ k w2 = Done w3 (Result (2, [x0a; x0b]) None)
         /\ requests w3 !! next_request w = None
         /\ inbound w3 = [x0c]
         /\ (exists f3, open_files w3 !! "/p" = Some f3
                        /\ rd_req f3 = [] /\ cbuf_size (buffer f3) = 0).
Proof.
  intros f w.
  apply (netpipe_read_served 0 w "/p" f 2 [x0a; x0b] [x0c] 1%positive 1%positive);
    try reflexivity; try (vm_compute; intuition discriminate).
Defined.

(** ** The peer closes *)

(** What [fail_requests] leaves in the store: the requests of the list
    carry EPIPE and are otherwise as they were, the others are untouched. *)
Lemma fail_requests_lookup (l : list nat) (w : world) (r : nat) :
  requests (fail_requests l w) !! r
  = if decide (r ∈ l) then set_error EPIPE <$> requests w !! r
    else requests w !! r.
Proof.
  unfold fail_requests. fields. induction l as [|a l IH]; cbn [foldr].
  - destruct (decide (r ∈ [])) as [H|H]; [by apply elem_of_nil in H | done].
  - destruct (decide (r = a)) as [->|Hne].
    + rewrite lookup_alter_eq, IH.
      destruct (decide (a ∈ a :: l)) as [_|H]; [|exfalso; apply H; left].
      destruct (decide (a ∈ l)); [|reflexivity].
      by destruct (requests w !! a).
    + rewrite lookup_alter_ne, IH by done.
      destruct (decide (r ∈ l)) as [H|H], (decide (r ∈ a :: l)) as [H'|H'];
        try reflexivity.
      * exfalso. apply H'. by right.
      * apply elem_of_cons in H' as [?|?]; done.
Qed.

(** X8: when the peer closes its last writing end while a reader is still
    held locally, [netpipe_close_update] gives every pending read request
    the error EPIPE, keeping the bytes it already got, empties the list of
    read requests, broadcasts [rd] and notifies each registered poll
    handle once; no other request is touched and the pipe stays in the
    table. *)
Theorem netpipe_close_update_last_writer
    (w : world) (p : string) (f : netpipe) :
  open_files w !! p = Some f -> path f = p ->
  writers f = 1 -> readers f <> 0 ->
  exists w1 f1,
    netpipe_close_update w p O_WRONLY = Done w1 (Result 0 None)
    /\ open_files w1 !! p = Some f1
    /\ writers f1 = 0 /\ readers f1 = readers f
    /\ rd_req f1 = [] /\ wr_req f1 = wr_req f /\ poll_handles f1 = []
    /\ buffer f1 = buffer f
    /\ (forall r, r ∈ rd_req f ->
          requests w1 !! r = set_error EPIPE <$> requests w !! r)
    /\ (forall r, r ∉ rd_req f -> requests w1 !! r = requests w !! r)
    /\ trace w1 = trace w ++ EvBroadcast p cv_rd
                          :: map EvPollNotify (poll_handles f).
Proof.
  intros Hf Hp Hwr Hrd. subst p. apply Z.eqb_neq in Hrd.
  do 2 eexists. split.
  { unfold netpipe_close_update, with_file. rewrite Hf.
    change (O_WRONLY =? O_WRONLY) with true. crunch. fields.
    rewrite Hwr. change (int (1 - 1) =? 0) with true. crunch.
    unfold loop_poll_notify. fields.
    change (int (1 - 1) =? 0) with true. rewrite Hrd. crunch. reflexivity. }
  fields. rewrite lookup_insert_eq. split; [reflexivity|]. fields.
  rewrite poll_notify_trace, poll_notify_requests. fields.
  repeat (split; [reflexivity|]).
  split; [|split].
  - intros r Hr. rewrite fail_requests_lookup. by destruct (decide _).
  - intros r Hr. rewrite fail_requests_lookup. by destruct (decide _).
  - unfold fail_requests. fields. by rewrite <- app_assoc.
Qed.

Lemma netpipe_close_update_last_writer_witness :
  let f := set_rd_req (set_writers (set_readers (a_pipe "/p") 1) 1) [0%nat] in
  let w := set_requests (store f quiet_world)
             {[ 0%nat := {| req_buf := [x01]; req_bytes_processed := 1;
                            req_size := 4; req_error := 0 |} ]} in
  exists w1 f1,
    netpipe_close_update w "/p" O_WRONLY = Done w1 (Result 0 None)
    /\ open_files w1 !! "/p" = Some f1
    /\ writers f1 = 0 /\ readers f1 = readers f
    /\ rd_req f1 = [] /\ wr_req f1 = wr_req f /\ poll_handles f1 = []
    /\ buffer f1 = buffer f
    /\ (forall r, r ∈ rd_req f ->
          requests w1 !! r = set_error EPIPE <$> requests w !! r)
    /\ (forall r, r ∉ rd_req f -> requests w1 !! r = requests w !! r)
    /\ trace w1 = trace w ++ EvBroadcast "/p" cv_rd
                          :: map EvPollNotify (poll_handles f).
Proof.
  intros f w.
  apply (netpipe_close_update_last_writer w "/p" f);
    try reflexivity; try (vm_compute; intuition discriminate).
Defined.

(** X9: a blocking [netpipe_send] that can neither send (no credit) nor
    buffer (no room) queues a write request and sleeps on [wr].  When the
    peer then closes its last reading end, [netpipe_close_update] flags
    the request with EPIPE and broadcasts [wr]; the writer wakes, returns
    -1 with [errno = EPIPE], and its request is freed. *)
Theorem netpipe_send_reader_gone
    (w : world) (p : string) (f : netpipe) (buf : list byte) (size : Z) :
  open_files w !! p = Some f -> path f = p ->
  force_exit f = false -> readers f = 1 -> writers f <> 0 ->
  wr_req f = [] ->
  available_remote f = 0 -> cbuf_free (buffer f) = 0 ->
  0 < size < 2 ^ 63 ->
  exists w1 waiting k,
    netpipe_send w p buf size false = Wait w1 p (Some cv_wr) waiting k
    /\ waiting w1 = true
    /\ trace w1 = trace w
    /\ exists w2 w3,
         netpipe_close_update w1 p O_RDONLY = Done w2 (Result 0 None)
         /\ waiting w2 = false
         /\ k w2 = Done w3 (Result (-1) (Some EPIPE))
         /\ requests w3 !! next_request w = None
         /\ (exists f3, open_files w3 !! p = Some f3
                        /\ readers f3 = 0 /\ wr_req f3 = []
                        /\ buffer f3 = buffer f).
Proof.
  intros Hf Hp Hfe Hrd Hwr Hwq Hav Hfree Hsize. subst p.
  apply Z.eqb_neq in Hwr.
  assert (Hne : (0 =? size) = false) by (apply Z.eqb_neq; lia).
  do 3 eexists. split.
  { unfold netpipe_send, with_file. rewrite Hf, Hfe, Hrd.
    change (1 =? 0) with false.
    rewrite do_flush_no_credit by assumption. crunch.
    change (1 <=? 0) with false. change (0 <? 0) with false. crunch.
    rewrite Hav. change (0 <? 0) with false. crunch. rewrite Hne.
    rewrite cbuf_put_nothing by (assumption || lia). crunch.
    change (size_t (0 + 0)) with 0. rewrite Hne. crunch.
    replace (size - 0) with size by lia. rewrite (size_t_id size) by lia.
    rewrite set_buffer_same.
    unfold netpipe_add_request. change (O_WRONLY =? O_RDONLY) with false.
    crunch. unfold wait_while, request_pending. fields.
    rewrite lookup_insert_eq. fields. rewrite Hfe, Hne, Hwq. crunch.
    change (0 =? 0) with true. crunch. reflexivity. }
  fields. rewrite !lookup_insert_eq. fields. rewrite Hfe, Hne.
  split; [reflexivity|]. split; [reflexivity|].
  do 2 eexists. split.
  { unfold netpipe_close_update, with_file. fields. rewrite lookup_insert_eq.
    change (O_RDONLY =? O_WRONLY) with false.
    change (O_RDONLY =? O_RDONLY) with true. crunch. fields.
    rewrite Hrd. change (int (1 - 1) =? 0) with true. crunch.
    unfold loop_poll_notify. fields. rewrite Hwr. crunch. reflexivity. }
  fields. rewrite lookup_insert_eq. fields.
  rewrite poll_notify_requests. fields.
  rewrite fail_requests_lookup.
  destruct (decide _) as [_|Hno]; [|exfalso; apply Hno; left]. fields.
  rewrite lookup_insert_eq. cbn [fmap option_fmap option_map]. fields.
  change (EPIPE =? 0) with false. rewrite Hfe, Hne. crunch.
  split; [reflexivity|].
  split.
  { unfold with_file. fields. rewrite lookup_insert_eq.
    unfold netpipe_send_wake. fields. rewrite poll_notify_requests. fields.
    rewrite fail_requests_lookup.
  destruct (decide _) as [_|Hno]; [|exfalso; apply Hno; left]. fields.
    rewrite lookup_insert_eq. cbn [fmap option_fmap option_map]. fields.
    change (0 =? 0) with true. change (EPIPE =? 0) with false.
    rewrite orb_true_r. crunch. reflexivity. }
  fields. split; [by rewrite lookup_delete_eq|].
  eexists. rewrite lookup_insert_eq. split; [reflexivity|]. fields.
  repeat split; reflexivity.
Qed.

Lemma netpipe_send_reader_gone_witness :
  let f := set_remotesize
             (set_buffer (set_writers (set_readers (a_pipe "/p") 1) 1)
                {| cb_capacity := 2; cb_data := [x01; x02] |}) 16 in
  let w := store f quiet_world in
  exists w1 waiting k,
    netpipe_send w "/p" [x0a; x0b] 2 false = Wait w1 "/p" (Some cv_wr) waiting k
    /\ waiting w1 = true
    /\ trace w1 = trace w
    /\ exists w2 w3,
         netpipe_close_update w1 "/p" O_RDONLY = Done w2 (Result 0 None)
         /\ waiting w2 = false
         /\ k w2 = Done w3 (Result (-1) (Some EPIPE))
         /\ requests w3 !! next_request w = None
         /\ (exists f3, open_files w3 !! "/p" = Some f3
                        /\ readers f3 = 0 /\ wr_req f3 = []
                        /\ buffer f3 = buffer f).
Proof.
  intros f w.
  apply (netpipe_send_reader_gone w "/p" f [x0a; x0b] 2);
    try reflexivity; try (vm_compute; intuition discriminate).
Defined.

(** ** Opening and closing *)

(** X10: a pipe that the peer opens and closes again while nothing
    happens locally leaves no entry behind.  [netpipe_open_update] on a
    path that is not in the table creates the pipe; the matching
    [netpipe_close_update] brings both counters to zero, removes and frees
    it and returns 0.  The table and the requests are as before, nothing
    was sent, and [canopen] and then the condition variable of the other
    side were broadcast. *)
Theorem netpipe_open_update_close_update
    (w : world) (p : string) (mode : Z) :
  open_files w !! p = None ->
  mode = O_RDONLY \/ mode = O_WRONLY ->
  exists w1 w2,
    netpipe_open_update w p mode = Done w1 (Result (Some p) None)
    /\ (exists f1, open_files w1 !! p = Some f1
                   /\ int (readers f1 + writers f1) = 1)
    /\ netpipe_close_update w1 p mode = Done w2 (Result 0 None)
    /\ open_files w2 = open_files w
    /\ requests w2 = requests w
    /\ sock_calls w2 = sock_calls w
    /\ trace w2 = trace w ++ [EvBroadcast p cv_canopen;
                              EvBroadcast p (if mode =? O_WRONLY
                                             then cv_rd else cv_wr)].
Proof.
  intros Hnone Hmode.
  destruct Hmode as [-> | ->]; do 2 eexists.
  - split.
    { unfold netpipe_open_update, netpipefs_get_or_create_open_file.
      rewrite Hnone. change (O_RDONLY =? O_RDWR) with false.
      change (O_RDONLY =? O_RDONLY) with true. crunch. reflexivity. }
    split.
    { eexists. fields. rewrite lookup_insert_eq. split; reflexivity. }
    split.
    { unfold netpipe_close_update, with_file. fields.
      rewrite lookup_insert_eq. unfold netpipe_alloc. fields.
      change (O_RDONLY =? O_WRONLY) with false.
      change (O_RDONLY =? O_RDONLY) with true.
      change (int (0 + 1)) with 1. change (int (1 - 1)) with 0.
      change (0 =? 0) with true. crunch.
      unfold loop_poll_notify. fields. change (0 =? 0) with true. crunch.
      unfold netpipefs_remove_open_file. fields. rewrite lookup_insert_eq.
      change (0 =? -1) with false. reflexivity. }
    destruct w as [tbl rq nx rp sc ib tr pc rc fm]. cbn in Hnone |- *.
    rewrite !delete_insert_eq, ?delete_delete_eq, delete_id by done.
    by rewrite <- app_assoc.
  - split.
    { unfold netpipe_open_update, netpipefs_get_or_create_open_file.
      rewrite Hnone. change (O_WRONLY =? O_RDWR) with false.
      change (O_WRONLY =? O_RDONLY) with false.
      change (O_WRONLY =? O_WRONLY) with true. crunch. reflexivity. }
    split.
    { eexists. fields. rewrite lookup_insert_eq. split; reflexivity. }
    split.
    { unfold netpipe_close_update, with_file. fields.
      rewrite lookup_insert_eq. unfold netpipe_alloc. fields.
      change (O_WRONLY =? O_WRONLY) with true.
      change (int (0 + 1)) with 1. change (int (1 - 1)) with 0.
      change (0 =? 0) with true. crunch.
      unfold loop_poll_notify. fields. change (0 =? 0) with true. crunch.
      unfold netpipefs_remove_open_file. fields. rewrite lookup_insert_eq.
      change (0 =? -1) with false. reflexivity. }
    destruct w as [tbl rq nx rp sc ib tr pc rc fm]. cbn in Hnone |- *.
    rewrite !delete_insert_eq, ?delete_delete_eq, delete_id by done.
    by rewrite <- app_assoc.
Qed.

Lemma netpipe_open_update_close_update_witness :
  exists w1 w2,
    netpipe_open_update quiet_world "/p" O_WRONLY
    = Done w1 (Result (Some "/p") None)
    /\ (exists f1, open_files w1 !! "/p" = Some f1
                   /\ int (readers f1 + writers f1) = 1)
    /\ netpipe_close_update w1 "/p" O_WRONLY = Done w2 (Result 0 None)
    /\ open_files w2 = open_files quiet_world
    /\ requests w2 = requests quiet_world
    /\ sock_calls w2 = sock_calls quiet_world
    /\ trace w2 = trace quiet_world
                  ++ [EvBroadcast "/p" cv_canopen;
                      EvBroadcast "/p" (if O_WRONLY =? O_WRONLY
                                        then cv_rd else cv_wr)].
Proof.
  apply (netpipe_open_update_close_update quiet_world "/p" O_WRONLY);
    [reflexivity | right; reflexivity].
Defined.

(** X11: the two ends of a pipe meet in [netpipe_open].  On a path that
    is not in the table a blocking [netpipe_open] creates the pipe, counts
    itself, sends OPEN and sleeps on [canopen]; the peer's
    [netpipe_open_update] for the other mode lets it go on, and it returns
    the pipe without changing anything more.  When the peer's
    [netpipe_open_update] comes first, [netpipe_open] returns at once.
    Both orders leave the same pipe in the table, one reader and one
    writer, opened locally in [mode]. *)
Theorem netpipe_open_rendezvous
    (w : world) (p : string) (mode : Z) (c : positive) :
  open_files w !! p = None ->
  mode = O_RDONLY \/ mode = O_WRONLY ->
  replies w (sock_calls w) = Delivered c ->
  exists w1 waiting k w2 f2,
    netpipe_open w p mode false = Wait w1 p (Some cv_canopen) waiting k
    /\ waiting w1 = true
    /\ netpipe_open_update w1 p (other_mode mode) = Done w2 (Result (Some p) None)
    /\ waiting w2 = false
    /\ k w2 = Done w2 (Result (Some p) None)
    /\ open_files w2 !! p = Some f2
    /\ readers f2 = 1 /\ writers f2 = 1 /\ open_mode f2 = mode
    /\ exists w1' w2',
         netpipe_open_update w p (other_mode mode)
         = Done w1' (Result (Some p) None)
         /\ (forall nonblock,
               netpipe_open w1' p mode nonblock
               = Done w2' (Result (Some p) None))
         /\ open_files w2' = open_files w2.
Proof.
  intros Hnone Hmode Hrep.
  destruct Hmode as [-> | ->].
  - do 5 eexists. split.
    { unfold netpipe_open, netpipefs_get_or_create_open_file. rewrite Hnone.
      unfold send_open_message, sock_send, wait_while, netpipe_alloc.
      eval_modes; crunch; fields; eval_modes.
      rewrite Hrep; crunch; change (Z.pos c <=? 0) with false; crunch.
      fields; change (int (0 + 1)) with 1; change (0 =? 0) with true.
      change (1 =? 0) with false; crunch. reflexivity. }
    fields. rewrite lookup_insert_eq. fields.
    change (0 =? 0) with true. change (1 =? 0) with false. crunch.
    split; [reflexivity|]. split.
    { unfold netpipe_open_update, netpipefs_get_or_create_open_file, other_mode.
      fields. rewrite lookup_insert_eq. eval_modes. crunch. eval_modes. crunch.
      fields. change (int (0 + 1)) with 1. reflexivity. }
    fields. rewrite lookup_insert_eq. fields.
    change (1 =? 0) with false. crunch.
    split; [reflexivity|]. split.
    { unfold with_file. fields. rewrite lookup_insert_eq. fields.
      f_equal. apply store_same. unfold store. fields.
      apply lookup_insert_eq. }
    split; [reflexivity|]. fields.
    do 3 (split; [reflexivity|]).
    do 2 eexists. split.
    { unfold netpipe_open_update, netpipefs_get_or_create_open_file, other_mode.
      rewrite Hnone. eval_modes. crunch. eval_modes. crunch.
      unfold netpipe_alloc. fields.
      change (int (0 + 1)) with 1. reflexivity. }
    split.
    { intros nonblock.
      unfold netpipe_open, netpipefs_get_or_create_open_file.
      fields. rewrite lookup_insert_eq. eval_modes. crunch. fields.
      eval_modes. crunch. change (int (0 + 1)) with 1.
      change (1 =? 0) with false. crunch.
      replace (if nonblock then false else false) with false
        by (by destruct nonblock).
      unfold send_open_message, sock_send. fields. rewrite Hrep. crunch.
      change (Z.pos c <=? 0) with false. crunch.
      unfold wait_while. fields. change (1 =? 0) with false. crunch.
      reflexivity. }
    fields. by rewrite !insert_insert_eq.
  - do 5 eexists. split.
    { unfold netpipe_open, netpipefs_get_or_create_open_file. rewrite Hnone.
      unfold send_open_message, sock_send, wait_while, netpipe_alloc.
      eval_modes; crunch; fields; eval_modes.
      rewrite Hrep; crunch; change (Z.pos c <=? 0) with false; crunch.
      fields; change (int (0 + 1)) with 1; change (0 =? 0) with true.
      change (1 =? 0) with false; crunch. reflexivity. }
    fields. rewrite lookup_insert_eq. fields.
    change (0 =? 0) with true. change (1 =? 0) with false. crunch.
    split; [reflexivity|]. split.
    { unfold netpipe_open_update, netpipefs_get_or_create_open_file, other_mode.
      fields. rewrite lookup_insert_eq. eval_modes. crunch. eval_modes. crunch.
      fields. change (int (0 + 1)) with 1. reflexivity. }
    fields. rewrite lookup_insert_eq. fields.
    change (1 =? 0) with false. crunch.
    split; [reflexivity|]. split.
    { unfold with_file. fields. rewrite lookup_insert_eq. fields.
      f_equal. apply store_same. unfold store. fields.
      apply lookup_insert_eq. }
    split; [reflexivity|]. fields.
    do 3 (split; [reflexivity|]).
    do 2 eexists. split.
    { unfold netpipe_open_update, netpipefs_get_or_create_open_file, other_mode.
      rewrite Hnone. eval_modes. crunch. eval_modes. crunch.
      unfold netpipe_alloc. fields.
      change (int (0 + 1)) with 1. reflexivity. }
    split.
    { intros nonblock.
      unfold netpipe_open, netpipefs_get_or_create_open_file.
      fields. rewrite lookup_insert_eq. eval_modes. crunch. fields.
      eval_modes. crunch. change (int (0 + 1)) with 1.
      change (1 =? 0) with false. crunch.
      replace (if nonblock then false else false) with false
        by (by destruct nonblock).
      unfold send_open_message, sock_send. fields. rewrite Hrep. crunch.
      change (Z.pos c <=? 0) with false. crunch.
      unfold wait_while. fields. change (1 =? 0) with false. crunch.
      reflexivity. }
    fields. by rewrite !insert_insert_eq.
Qed.

Lemma netpipe_open_rendezvous_witness :
  exists w1 waiting k w2 f2,
    netpipe_open quiet_world "/p" O_WRONLY false
    = Wait w1 "/p" (Some cv_canopen) waiting k
    /\ waiting w1 = true
    /\ netpipe_open_update w1 "/p" (other_mode O_WRONLY)
       = Done w2 (Result (Some "/p") None)
    /\ waiting w2 = false
    /\ k w2 = Done w2 (Result (Some "/p") None)
    /\ open_files w2 !! "/p" = Some f2
    /\ readers f2 = 1 /\ writers f2 = 1 /\ open_mode f2 = O_WRONLY
    /\ exists w1' w2',
         netpipe_open_update quiet_world "/p" (other_mode O_WRONLY)
         = Done w1' (Result (Some "/p") None)
         /\ (forall nonblock,
               netpipe_open w1' "/p" O_WRONLY nonblock
               = Done w2' (Result (Some "/p") None))
         /\ open_files w2' = open_files w2.
Proof.
  apply (netpipe_open_rendezvous quiet_world "/p" O_WRONLY 1%positive);
    [reflexivity | right; reflexivity | reflexivity].
Defined.

(** X12: a blocking [netpipe_open] whose OPEN message is not delivered
    undoes what it did.  It returns NULL, with the [errno] of the socket
    layer when the send failed and with [errno] untouched when the
    connection was lost, and leaves the requests as they were; what
    remains on the trace is the broadcast of [canopen] and the attempt to
    send.  A pipe the call created is removed and freed: the table is as
    before.  A pipe that existed gets its counter back, its [open_mode]
    is reset to [NOT_OPEN] when that counter is 0 (also when the mode
    was held before the call), and the call returns with the mutex of the
    pipe still locked. *)
Theorem netpipe_open_not_delivered
    (w : world) (p : string) (mode : Z) :
  mode = O_RDONLY \/ mode = O_WRONLY ->
  (forall c, replies w (sock_calls w) <> Delivered c) ->
  let e := match replies w (sock_calls w) with
           | Failed e => Some e
           | _ => None
           end in
  match open_files w !! p with
  | None =>
      exists w',
        netpipe_open w p mode false = Done w' (Result None e)
        /\ open_files w' = open_files w
        /\ requests w' = requests w
        /\ exists rsize rmax,
             trace w' = trace w ++ [EvBroadcast p cv_canopen;
                                    EvSend (OPEN p mode) (replies w (sock_calls w))
                                           rsize rmax]
  | Some f =>
      path f = p -> force_exit f = false -> counters_typed f ->
      open_mode f = NOT_OPEN \/ open_mode f = mode ->
      exists w',
        netpipe_open w p mode false = DoneLocked w' p (Result None e)
        /\ open_files w'
           = <[p := if (if mode =? O_RDONLY then readers f else writers f) =? 0
                    then set_open_mode f NOT_OPEN else f]> (open_files w)
        /\ requests w' = requests w
        /\ exists rsize rmax,
             trace w' = trace w ++ [EvBroadcast p cv_canopen;
                                    EvSend (OPEN p mode) (replies w (sock_calls w))
                                           rsize rmax]
  end.
Proof.
  intros Hmode Hrep e.
  assert (Hsend : forall f w0,
            replies w0 = replies w -> sock_calls w0 = sock_calls w ->
            sock_send f (OPEN p mode) w0
            = (match replies w (sock_calls w) with Failed _ => -1 | _ => 0 end,
               e,
               emit (set_sock_calls w0 (S (sock_calls w0)))
                    (EvSend (OPEN p mode) (replies w (sock_calls w))
                            (remotesize f) (remotemax f)))).
  { intros f w0 E1 E2. unfold sock_send. rewrite E1, E2. subst e.
    destruct (replies w (sock_calls w)) as [c| |e]; [by destruct (Hrep c)| |];
      reflexivity. }
  assert (Hle : (match replies w (sock_calls w) with Failed _ => -1 | _ => 0 end
                 <=? 0) = true).
  { by destruct (replies w (sock_calls w)). }
  clearbody e.
  destruct (open_files w !! p) as [f|] eqn:Hf.
  - intros Hp Hfe (Hr & Hw) Hom. subst p.
    unfold netpipe_open, netpipefs_get_or_create_open_file. rewrite Hf, Hfe.
    unfold send_open_message.
    destruct Hmode as [-> | ->]; eval_modes; crunch.
    + rewrite Hsend by reflexivity. rewrite Hle.
      unfold undo_open, open_error. eval_modes. crunch. fields.
      replace (int (readers f + 1) - 1) with (int (readers f + 1) + -1) by lia.
      rewrite int_int_add. replace (readers f + 1 + -1) with (readers f) by lia.
      rewrite (int_id (readers f)) by assumption.
      replace (set_readers (set_readers f (int (readers f + 1))) (readers f))
        with f by (by destruct f).
      replace (if if open_mode f =? -1 then false else true
               then if open_mode f =? O_RDONLY then false else true
               else false) with false
        by (destruct Hom as [-> | ->]; reflexivity).
      destruct (readers f =? 0);
        (eexists; split; [reflexivity|]); (split; [reflexivity|]);
        (split; [reflexivity|]); do 2 eexists; unfold store; fields;
        by rewrite <- app_assoc.
    + rewrite Hsend by reflexivity. rewrite Hle.
      unfold undo_open, open_error. eval_modes. crunch. fields.
      replace (int (writers f + 1) - 1) with (int (writers f + 1) + -1) by lia.
      rewrite int_int_add. replace (writers f + 1 + -1) with (writers f) by lia.
      rewrite (int_id (writers f)) by assumption.
      replace (set_writers (set_writers f (int (writers f + 1))) (writers f))
        with f by (by destruct f).
      replace (if if open_mode f =? -1 then false else true
               then if open_mode f =? O_WRONLY then false else true
               else false) with false
        by (destruct Hom as [-> | ->]; reflexivity).
      destruct (writers f =? 0);
        (eexists; split; [reflexivity|]); (split; [reflexivity|]);
        (split; [reflexivity|]); do 2 eexists; unfold store; fields;
        by rewrite <- app_assoc.
  - unfold netpipe_open, netpipefs_get_or_create_open_file. rewrite Hf.
    unfold send_open_message, netpipe_alloc.
    destruct Hmode as [-> | ->]; eval_modes; crunch; fields; eval_modes; crunch;
      rewrite Hsend by reflexivity; rewrite Hle;
      unfold undo_open, open_error; eval_modes; crunch; fields;
      change (int (int (0 + 1) - 1)) with 0; change (0 =? 0) with true; crunch;
      unfold netpipefs_remove_open_file, netpipe_free; fields;
      rewrite lookup_insert_eq; fields;
      (eexists; split; [reflexivity|]);
      destruct w as [tbl rq nx rp sc ib tr pc rc fm]; cbn in Hf |- *;
      rewrite ?delete_insert_eq, ?delete_delete_eq, delete_id by done;
      (split; [reflexivity|]); (split; [reflexivity|]);
      do 2 eexists; by rewrite <- app_assoc.
Qed.

Lemma netpipe_open_not_delivered_witness :
  let f := set_open_mode (set_writers (a_pipe "/p") 1) O_RDONLY in
  let w := {| open_files := <["/p" := f]> ∅; requests := ∅; next_request := 0;
              replies := fun _ => Lost; sock_calls := 0; inbound := [];
              trace := []; pipecapacity := 16; remotepipecapacity := 16;
              fresh_memory := fun _ => [] |} in
  exists w',
    netpipe_open w "/p" O_RDONLY false = DoneLocked w' "/p" (Result None None)
    /\ open_files w' = <["/p" := set_open_mode f NOT_OPEN]> (open_files w)
    /\ requests w' = requests w
    /\ exists rsize rmax,
         trace w' = trace w ++ [EvBroadcast "/p" cv_canopen;
                                EvSend (OPEN "/p" O_RDONLY) Lost rsize rmax].
Proof.
  intros f w.
  pose proof (netpipe_open_not_delivered w "/p" O_RDONLY (or_introl eq_refl)) as H.
  change (open_files w !! "/p") with (Some f) in H.
  apply H; [discriminate | reflexivity | reflexivity | | right; reflexivity].
  unfold counters_typed. simpl. lia.
Defined.

(** ** Polling *)

(** X13: [netpipe_poll] registers the poll handle, notifying nobody, also
    when the events asked for are already there.  The next delivery of
    data by [netpipe_recv] notifies each registered handle once, the
    latest first, and forgets them all.  Once the bytes are buffered, a
    poll on a pipe opened for reading reports POLLIN. *)
Theorem netpipe_poll_notified
    (wakeup : Z) (w : world) (p : string) (f : netpipe) (ph : nat)
    (revents size : Z) :
  open_files w !! p = Some f -> path f = p ->
  rd_req f = [] ->
  0 < size < 2 ^ 31 -> size <= cbuf_free (buffer f) ->
  size <= Z.of_nat (length (inbound w)) ->
  exists w1 r w2 f2,
    netpipe_poll w p ph revents = Done w1 (Result (0, r) None)
    /\ trace w1 = trace w
    /\ netpipe_recv wakeup w1 p size = Done w2 (Result size None)
    /\ trace w2 = trace w1
                  ++ (if wakeup =? 0 then [] else [EvBroadcast p cv_rd])
                  ++ EvPollNotify ph :: map EvPollNotify (poll_handles f)
    /\ open_files w2 !! p = Some f2 /\ poll_handles f2 = []
    /\ (open_mode f = O_RDONLY ->
        forall ph' revents', exists w3 r',
          netpipe_poll w2 p ph' revents' = Done w3 (Result (0, r') None)
          /\ Z.land r' POLLIN = POLLIN).
Proof.
  intros Hf Hp Hrd Hsize Hroom Hin. subst p.
  set (f1 := set_poll_handles f (ph :: poll_handles f)).
  destruct (netpipe_recv_readahead wakeup (store f1 w) (path f) f1 size)
    as (f2 & w2 & Hrecv & Hf2 & Hp2 & Hfe2 & Hw2 & Hr2 & Hmax & Hrs & Hrd2 & Hwr2
        & Hph & Hb2 & Hin2 & Hrep2 & Hsc2 & Hrq2 & Hnx2 & Hom2 & Htr2);
    try assumption; try reflexivity.
  { unfold store. fields. apply lookup_insert_eq. }
  exists (store f1 w). eexists. exists w2, f2. split.
  { unfold netpipe_poll, with_file. rewrite Hf. reflexivity. }
  split; [reflexivity|]. split; [exact Hrecv|].
  split; [exact Htr2|]. split; [exact Hf2|]. split; [exact Hph|].
  intros Hmode ph' revents'. do 2 eexists. split.
  { unfold netpipe_poll, with_file. rewrite Hf2. fields.
    reflexivity. }
  cbv beta.
  rewrite Hom2. change (open_mode f1) with (open_mode f). rewrite Hmode. eval_modes. crunch.
  assert (Hne : cbuf_empty (buffer f2) = false).
  { rewrite Hb2. unfold cbuf_empty, cbuf_size. fields.
    apply Z.eqb_neq. rewrite length_app, length_take. lia. }
  rewrite Hne. crunch.
  apply Z.bits_inj'. intros n Hn.
  rewrite Z.land_spec, Z.lor_spec.
  destruct (Z.testbit POLLIN n) eqn:E;
    [by rewrite orb_true_r | by rewrite andb_false_r].
Qed.

Lemma netpipe_poll_notified_witness :
  let f := set_open_mode (set_writers (a_pipe "/p") 1) O_RDONLY in
  let w := set_inbound (store f quiet_world) [x0a; x0b; x0c] in
  exists w1 r w2 f2,
    netpipe_poll w "/p" 7%nat 0 = Done w1 (Result (0, r) None)
    /\ trace w1 = trace w
    /\ netpipe_recv 0 w1 "/p" 3 = Done w2 (Result 3 None)
    /\ trace w2 = trace w1
                  ++ (if 0 =? 0 then [] else [EvBroadcast "/p" cv_rd])
                  ++ EvPollNotify 7%nat :: map EvPollNotify (poll_handles f)
    /\ open_files w2 !! "/p" = Some f2 /\ poll_handles f2 = []
    /\ (open_mode f = O_RDONLY ->
        forall ph' revents', exists w3 r',
          netpipe_poll w2 "/p" ph' revents' = Done w3 (Result (0, r') None)
          /\ Z.land r' POLLIN = POLLIN).
Proof.
  intros f w.
  apply (netpipe_poll_notified 0 w "/p" f 7%nat 0 3);
    try reflexivity; try (vm_compute; intuition discriminate).
Defined.

(** ** Credit from the peer *)

(** What [do_flush] does when the channel delivers: a WRITE of the first
    [min size credit] bytes of the buffer, which leave it and are counted
    in [remotesize], as long as their number fits the [int] that holds
    it. *)
Lemma do_flush_delivered (f : netpipe) (w : world) (c : positive) :
  credit_ok f -> 0 < cbuf_size (buffer f) < 2 ^ 64 ->
  0 < available_remote f ->
  Z.min (cbuf_size (buffer f)) (available_remote f) < 2 ^ 31 ->
  replies w (sock_calls w) = Delivered c ->
  let n := Z.min (cbuf_size (buffer f)) (available_remote f) in
  do_flush f w
  = (1, n, None,
     set_remotesize
       (set_buffer f {| cb_capacity := cb_capacity (buffer f);
                        cb_data := drop (Z.to_nat n) (cb_data (buffer f)) |})
       (remotesize f + n),
     emit (set_sock_calls w (S (sock_calls w)))
          (EvSend (WRITE (path f) (take (Z.to_nat n) (cb_data (buffer f))))
                  (Delivered c) (remotesize f) (remotemax f))).
Proof.
  intros Hc Hsize Hav Hint Hrep n. pose proof (available_remote_ok f Hc) as Ha.
  pose proof Hc as (H0 & H1 & H2).
  unfold do_flush. rewrite min_if. fold n.
  assert (Hn : 0 < n <= remotemax f - remotesize f) by lia.
  assert (Hn' : n <= cbuf_size (buffer f)) by lia.
  replace (n =? 0) with false by (symmetry; apply Z.eqb_neq; lia).
  unfold send_flush_message, cbuf_get. rewrite (Z.min_l n) by lia.
  unfold sock_send. rewrite Hrep. crunch.
  assert (Hlen : Z.of_nat (length (take (Z.to_nat n) (cb_data (buffer f)))) = n).
  { rewrite length_take. unfold cbuf_size in Hn'. lia. }
  rewrite Hlen. rewrite (int_id n) by lia.
  replace (0 <? n) with true by (symmetry; apply Z.ltb_lt; lia).
  replace (n <=? 0) with false by (symmetry; apply Z.leb_gt; lia).
  fields. rewrite (size_t_id n) by lia. rewrite size_t_id by lia. reflexivity.
Qed.

Lemma while_step {S R : Type} (n : nat) (cond : S -> bool)
    (body : S -> R + S) (s s' : S) :
  cond s = true -> body s = inr s' ->
  while (Datatypes.S n) cond body s = while n cond body s'.
Proof. intros H1 H2. simpl. by rewrite H1, H2. Qed.

(** [send_data] on a pipe with buffered bytes and one pending write
    request, when the credit covers both: the buffer goes first. *)
Lemma send_data_serves
    (g : netpipe) (w0 : world) (r : nat) (rq : netpipe_req)
    (c1 c2 : positive) :
  credit_ok g -> wr_req g = [r] ->
  requests w0 !! r = Some rq ->
  req_bytes_processed rq = 0 -> 0 < req_size rq ->
  0 < cbuf_size (buffer g) ->
  cbuf_size (buffer g) + req_size rq <= available_remote g ->
  cbuf_size (buffer g) + req_size rq < 2 ^ 31 ->
  replies w0 (sock_calls w0) = Delivered c1 ->
  replies w0 (S (sock_calls w0)) = Delivered c2 ->
  exists g' w',
    send_data g w0
    = Some (ExitReturn (cbuf_size (buffer g) + req_size rq) None g' w')
    /\ path g' = path g /\ force_exit g' = force_exit g
    /\ wr_req g' = [] /\ cb_data (buffer g') = []
    /\ remotesize g' = remotesize g + cbuf_size (buffer g) + req_size rq
    /\ requests w' = <[r := add_progress rq [] (req_size rq)]> (requests w0)
    /\ trace w'
       = trace w0
         ++ [EvSend (WRITE (path g) (cb_data (buffer g))) (Delivered c1)
                    (remotesize g) (remotemax g);
             EvSend (WRITE (path g)
                       (mem_read (mem_advance (req_buf rq) 0) (req_size rq)))
                    (Delivered c2)
                    (remotesize g + cbuf_size (buffer g)) (remotemax g)]
         ++ map EvPollNotify (poll_handles g).
Proof.
  intros Hc Hwq Hrq Hbp Hsize Hb Hav Hint Hrep1 Hrep2.
  pose proof (available_remote_ok g Hc) as Ha.
  pose proof (available_remote_nonneg g) as Ha'.
  pose proof Hc as (H0 & H1 & H2).
  set (L := cbuf_size (buffer g)) in *.
  unfold send_data.
  rewrite (do_flush_delivered g w0 c1) by (assumption || lia).
  fold L. rewrite (Z.min_l L) by lia.
  change (1 <=? 0) with false. crunch.
  replace (0 <? L) with true by (symmetry; apply Z.ltb_lt; lia).
  replace (Z.to_nat L) with (length (cb_data (buffer g)))
    by (subst L; unfold cbuf_size; lia).
  rewrite take_ge, drop_ge by lia.
  cbn [ss_req ss_datasent ss_file ss_world]. fields. rewrite Hwq.
  cbn [length Nat.mul Nat.add].
  set (g1 := set_remotesize (set_buffer g _) _).
  set (w1 := emit (set_sock_calls w0 _) _).
  assert (Hc1 : credit_ok g1) by (subst g1; unfold credit_ok; fields; lia).
  assert (Hav1 : available_remote g1 = remotemax g - remotesize g - L).
  { rewrite (available_remote_ok g1 Hc1). subst g1. fields. lia. }
  assert (Hsz : size_t (req_size rq - 0) = req_size rq).
  { replace (req_size rq - 0) with (req_size rq) by lia. apply size_t_id. lia. }
  rewrite (while_step _ _ _ _
             {| ss_req := []; ss_datasent := size_t (L + req_size rq);
                ss_file := set_remotesize g1 (remotesize g1 + req_size rq);
                ss_world :=
                  set_requests
                    (emit (set_sock_calls w1 (S (sock_calls w1)))
                       (EvSend (WRITE (path g1)
                                  (mem_read (mem_advance (req_buf rq) 0)
                                     (req_size rq)))
                               (Delivered c2) (remotesize g1) (remotemax g1)))
                    (<[r := add_progress rq [] (req_size rq)]> (requests w0))
             |}).
  2:{ unfold send_requests_cond. cbn [ss_req ss_file]. rewrite Hav1.
      replace (0 <? _) with true by (symmetry; apply Z.ltb_lt; lia).
      reflexivity. }
  2:{ unfold send_requests_body. cbn [ss_req ss_datasent ss_file ss_world].
      replace (requests w1) with (requests w0) by reflexivity.
      rewrite Hrq, Hbp, Hsz.
      rewrite (do_send_delivered g1 w1 _ (req_size rq) c2)
        by (assumption || lia).
      rewrite Z.min_l by lia. change (1 <=? 0) with false. crunch. fields.
      rewrite Hbp. replace (0 + req_size rq) with (req_size rq) by lia.
      rewrite (size_t_id (req_size rq)) by lia. rewrite Z.eqb_refl.
      reflexivity. }
  rewrite while_skip
    by (unfold send_requests_cond; cbn [ss_req]; apply andb_false_r).
  cbn [ss_req ss_datasent ss_file ss_world length].
  rewrite while_skip by reflexivity.
  cbn [ss_req ss_datasent ss_file ss_world].
  rewrite (size_t_id (L + req_size rq)) by lia.
  replace (0 <? L + req_size rq) with true by (symmetry; apply Z.ltb_lt; lia).
  unfold loop_poll_notify. do 2 eexists. split; [reflexivity|].
  fields. rewrite poll_notify_trace, poll_notify_requests. fields.
  repeat (split; [reflexivity || lia|]).
  subst g1 w1. fields. by rewrite <- !app_assoc.
Qed.

(** X14: credit granted by the peer is spent in the order of the bytes.
    A blocking [netpipe_send] that finds no credit and a full buffer sleeps
    with its [size] bytes queued.  When READ-REQUEST then grants room for
    the buffered bytes and the queued ones, [netpipe_read_request] sends
    the buffered bytes in one WRITE, then the queued bytes in a second
    one, notifies the poll handles and broadcasts [wr]; the writer wakes
    and returns [size], and its request is freed. *)
Theorem netpipe_read_request_serves_writer
    (w : world) (p : string) (f : netpipe) (buf : list byte)
    (size n : Z) (c1 c2 : positive) :
  open_files w !! p = Some f -> path f = p ->
  force_exit f = false -> readers f <> 0 ->
  wr_req f = [] ->
  0 <= remotesize f -> remotesize f = remotemax f ->
  0 < cbuf_size (buffer f) -> cbuf_free (buffer f) = 0 ->
  0 < size -> cbuf_size (buffer f) + size < 2 ^ 31 ->
  cbuf_size (buffer f) + size <= n -> remotemax f + n < 2 ^ 64 ->
  replies w (sock_calls w) = Delivered c1 ->
  replies w (S (sock_calls w)) = Delivered c2 ->
  exists w1 waiting k w2 w3,
    netpipe_send w p buf size false = Wait w1 p (Some cv_wr) waiting k
    /\ waiting w1 = true
    /\ netpipe_read_request w1 p n = Done w2 (Result 0 None)
    /\ trace w2
       = trace w
         ++ [EvSend (WRITE p (cb_data (buffer f))) (Delivered c1)
                    (remotesize f) (remotemax f + n);
             EvSend (WRITE p (mem_read buf size)) (Delivered c2)
                    (remotesize f + cbuf_size (buffer f)) (remotemax f + n)]
         ++ map EvPollNotify (poll_handles f)
         ++ [EvBroadcast p cv_wr]
    /\ waiting w2 = false
    /\ k w2 = Done w3 (Result size None)
    /\ requests w3 !! next_request w = None
    /\ (exists f3, open_files w3 !! p = Some f3
                   /\ wr_req f3 = [] /\ cbuf_size (buffer f3) = 0
                   /\ remotesize f3
                      = remotesize f + cbuf_size (buffer f) + size).
Proof.
  intros Hf Hp Hfe Hrd Hwq Hrs0 Hrs Hb Hfree Hsize Hint Hn Hmax Hrep1 Hrep2.
  subst p. apply Z.eqb_neq in Hrd.
  assert (Hav : available_remote f = 0).
  { unfold available_remote. rewrite Hrs. replace (_ - _) with 0 by lia.
    reflexivity. }
  assert (Hne : (0 =? size) = false) by (apply Z.eqb_neq; lia).
  assert (Hne' : (size =? 0) = false) by (apply Z.eqb_neq; lia).
  set (L := cbuf_size (buffer f)) in *.
  set (r := next_request w).
  set (rq := {| req_buf := mem_advance buf 0; req_bytes_processed := 0;
                req_size := size; req_error := 0 |}).
  set (fq := set_wr_req f [r]).
  set (wq := store fq (set_next_request
                         (set_requests w (<[r := rq]> (requests w))) (S r))).
  set (g := set_remotemax fq (remotemax f + n)).
  destruct (send_data_serves g wq r rq c1 c2)
    as (g' & w' & Hsd & Hp' & Hfe' & Hwq' & Hb' & Hrs' & Hrq' & Htr');
    try assumption; try reflexivity.
  { subst g fq. unfold credit_ok. fields. lia. }
  { subst wq. fields. apply lookup_insert_eq. }
  { unfold available_remote. subst g fq rq. fields. fold L.
    rewrite size_t_id by lia. lia. }
  exists wq. do 2 eexists.
  exists (store g' (pthread_cond_broadcast g' cv_wr w')). eexists.
  split.
  { unfold netpipe_send, with_file. rewrite Hf, Hfe, Hrd.
    rewrite do_flush_no_credit by assumption. crunch.
    change (1 <=? 0) with false. change (0 <? 0) with false. crunch.
    rewrite Hav. change (0 <? 0) with false. crunch. rewrite Hne.
    rewrite cbuf_put_nothing by (assumption || lia). crunch.
    change (size_t (0 + 0)) with 0. rewrite Hne. crunch.
    replace (size - 0) with size by lia. rewrite (size_t_id size) by lia.
    rewrite set_buffer_same.
    unfold netpipe_add_request. change (O_WRONLY =? O_RDONLY) with false.
    crunch. unfold wait_while, request_pending. fields.
    rewrite lookup_insert_eq. fields. rewrite Hfe, Hne, Hwq. crunch.
    change (0 =? 0) with true. crunch. reflexivity. }
  split.
  { subst wq fq rq. fields. rewrite !lookup_insert_eq. fields.
    by rewrite Hfe, Hne. }
  split.
  { unfold netpipe_read_request, with_file.
    replace (open_files wq !! path f) with (Some fq)
      by (subst wq fq; fields; by rewrite lookup_insert_eq).
    replace (size_t (remotemax fq + n)) with (remotemax f + n)
      by (subst fq; fields; by rewrite size_t_id by lia).
    fold g. rewrite Hsd. unfold after_send_data.
    replace (cbuf_size (buffer g) + req_size rq) with (L + size)
      by reflexivity.
    rewrite int_id by lia.
    replace (0 <? L + size) with true by (symmetry; apply Z.ltb_lt; lia).
    reflexivity. }
  split.
  { crunch. fields. rewrite Htr', Hp'. subst wq g fq rq. fields. fold L.
    by rewrite <- !app_assoc. }
  assert (Hlook : requests w' !! r = Some (add_progress rq [] size)).
  { rewrite Hrq'. subst rq. fields. apply lookup_insert_eq. }
  split.
  { crunch. fields. rewrite Hp'. subst g fq. fields. rewrite lookup_insert_eq.
    fold r. rewrite Hlook. subst rq. fields.
    replace (0 + size) with size by lia. rewrite (size_t_id size) by lia.
    rewrite Z.eqb_refl. by destruct (force_exit g'). }
  split.
  { unfold with_file. crunch. fields. rewrite Hp'. subst g fq. fields.
    rewrite lookup_insert_eq. unfold netpipe_send_wake. fields.
    fold r. rewrite Hlook. subst rq. fields.
    replace (0 + size) with size by lia. rewrite (size_t_id size) by lia.
    rewrite Hne'. crunch.
    replace (0 + size) with size by lia. rewrite (size_t_id size) by lia.
    rewrite ssize_t_id by lia. reflexivity. }
  crunch. fields. split; [by rewrite lookup_delete_eq|].
  replace (path f) with (path g') by (by rewrite Hp').
  eexists. rewrite lookup_insert_eq. split; [reflexivity|].
  split; [exact Hwq'|]. split.
  - unfold cbuf_size. by rewrite Hb'.
  - rewrite Hrs'. subst g fq rq. fields. reflexivity.
Qed.

Lemma netpipe_read_request_serves_writer_witness :
  let f := set_remotesize
             (set_buffer (set_writers (set_readers (a_pipe "/p") 1) 1)
                {| cb_capacity := 2; cb_data := [x01; x02] |}) 16 in
  let w := store f quiet_world in
  exists w1 waiting k w2 w3,
    netpipe_send w "/p" [x0a; x0b; x0c] 3 false
    = Wait w1 "/p" (Some cv_wr) waiting k
    /\ waiting w1 = true
    /\ netpipe_read_request w1 "/p" 8 = Done w2 (Result 0 None)
    /\ trace w2
       = trace w
         ++ [EvSend (WRITE "/p" (cb_data (buffer f))) (Delivered 1)
                    (remotesize f) (remotemax f + 8);
             EvSend (WRITE "/p" (mem_read [x0a; x0b; x0c] 3)) (Delivered 1)
                    (remotesize f + cbuf_size (buffer f)) (remotemax f + 8)]
         ++ map EvPollNotify (poll_handles f)
         ++ [EvBroadcast "/p" cv_wr]
    /\ waiting w2 = false
    /\ k w2 = Done w3 (Result 3 None)
    /\ requests w3 !! next_request w = None
    /\ (exists f3, open_files w3 !! "/p" = Some f3
                   /\ wr_req f3 = [] /\ cbuf_size (buffer f3) = 0
                   /\ remotesize f3
                      = remotesize f + cbuf_size (buffer f) + 3).
Proof.
  intros f w.
  apply (netpipe_read_request_serves_writer w "/p" f [x0a; x0b; x0c] 3 8
           1%positive 1%positive);
    try reflexivity; try (vm_compute; intuition discriminate).
Defined.

(** X15: [netpipe_close] in read mode never flushes and never sleeps.  It
    counts the reader out and sends CLOSE; it returns what
    [send_close_message] returned when the message was delivered and -1
    otherwise, but the reader is gone in either case.  When that leaves
    neither readers nor writers, the pipe is removed from the table, its
    poll handles are destroyed and the requests still in its lists are
    freed; otherwise only the counter changes. *)
Theorem netpipe_close_reader (w : world) (p : string) (f : netpipe) :
  open_files w !! p = Some f -> path f = p ->
  0 < readers f < 2 ^ 31 ->
  let reply := replies w (sock_calls w) in
  let last := (writers f =? 0) && (readers f =? 1) in
  exists w',
    netpipe_close w p O_RDONLY
    = Done w' (Result (match reply with Delivered c => Z.pos c | _ => -1 end)
                      (match reply with Failed e => Some e | _ => None end))
    /\ open_files w'
       = (if last then delete p (open_files w)
          else <[p := set_readers f (readers f - 1)]> (open_files w))
    /\ requests w'
       = (if last then foldr delete (requests w) (rd_req f ++ wr_req f)
          else requests w)
    /\ trace w'
       = trace w ++ EvSend (CLOSE p O_RDONLY) reply (remotesize f) (remotemax f)
                 :: (if last then map EvPollDestroy (poll_handles f) else []).
Proof.
  intros Hf Hp Hr reply last. subst p.
  unfold netpipe_close, with_file. rewrite Hf. eval_modes. crunch.
  rewrite (int_id (readers f - 1)) by lia.
  unfold close_finish, send_close_message, sock_send. fields. fold reply.
  assert (Hlast : (writers f =? 0) && (readers f - 1 =? 0) = last).
  { subst last. f_equal. destruct (readers f =? 1) eqn:E.
    - apply Z.eqb_eq in E. rewrite E. reflexivity.
    - apply Z.eqb_neq in E. apply Z.eqb_neq. lia. }
  cbv beta iota zeta delta [andb] in Hlast.
  assert (Hfree : forall g w0,
            let w1 := netpipe_free g w0 in
            open_files w1 = delete (path g) (open_files w0)
            /\ requests w1 = foldr delete (requests w0) (rd_req g ++ wr_req g)
            /\ trace w1 = trace w0 ++ map EvPollDestroy (poll_handles g)).
  { intros g w0. unfold netpipe_free. fields.
    assert (Hk : forall l w2,
              open_files (foldl (fun w0 ph => emit w0 (EvPollDestroy ph)) w2 l)
              = open_files w2
              /\ requests (foldl (fun w0 ph => emit w0 (EvPollDestroy ph)) w2 l)
                 = requests w2).
    { induction l as [|ph l IH]; intros w2; cbn [foldl]; [done|].
      destruct (IH (emit w2 (EvPollDestroy ph))) as [-> ->]. done. }
    destruct (Hk (poll_handles g) w0) as [-> ->].
    by rewrite poll_destroy_trace. }
  destruct reply as [c| |e]; crunch; fields;
    try match goal with |- context [Z.pos ?x <=? 0] =>
          change (Z.pos x <=? 0) with false end;
    change (0 <=? 0) with true;
    change (-1 <=? 0) with true; crunch; fields; rewrite Hlast;
    destruct last; crunch;
    unfold netpipefs_remove_open_file; fields;
    rewrite ?lookup_insert_eq; crunch;
    change (0 =? -1) with false; change (-1 =? -1) with true; crunch;
    (eexists; split; [reflexivity|]);
    try (match goal with |- context [netpipe_free ?g ?w0] =>
           destruct (Hfree g w0) as (E1 & E2 & E3) end;
         cbv zeta in E1, E2, E3; rewrite E1, E2, E3);
    fields; rewrite ?delete_insert_eq, ?delete_delete_eq, <- ?app_assoc;
    repeat split; reflexivity.
Qed.

Lemma netpipe_close_reader_witness :
  let f := set_writers (set_readers (a_pipe "/p") 1) 1 in
  let w := store f quiet_world in
  let reply := replies w (sock_calls w) in
  let last := (writers f =? 0) && (readers f =? 1) in
  exists w',
    netpipe_close w "/p" O_RDONLY
    = Done w' (Result (match reply with Delivered c => Z.pos c | _ => -1 end)
                      (match reply with Failed e => Some e | _ => None end))
    /\ open_files w'
       = (if last then delete "/p" (open_files w)
          else <["/p" := set_readers f (readers f - 1)]> (open_files w))
    /\ requests w'
       = (if last then foldr delete (requests w) (rd_req f ++ wr_req f)
          else requests w)
    /\ trace w'
       = trace w ++ EvSend (CLOSE "/p" O_RDONLY) reply (remotesize f) (remotemax f)
                 :: (if last then map EvPollDestroy (poll_handles f) else []).
Proof.
  intros f w.
  apply (netpipe_close_reader w "/p" f);
    try reflexivity; try (vm_compute; intuition discriminate).
Defined.

(** ** The handshake *)

Lemma hostcmp_loop_opp (n i : nat) (a b : nat -> Z) (r r' : Z) :
  (forall j, 0 <= a j <= 255) -> (forall j, 0 <= b j <= 255) ->
  r' = - r ->
  hostcmp_loop n i b a r' = - hostcmp_loop n i a b r.
Proof.
  intros Ha Hb Hr. revert i. induction n as [|n IH]; intros i; cbn [hostcmp_loop].
  - exact Hr.
  - pose proof (Ha i). pose proof (Hb i).
    rewrite (Z.eqb_sym (b i) (a i)).
    destruct (a i =? b i); cbn [negb]; [apply IH|].
    rewrite !int_id by lia. lia.
Qed.

Lemma hostcmp_loop_zero (n i : nat) (a b : nat -> Z) (r : Z) :
  (forall j, 0 <= a j <= 255) -> (forall j, 0 <= b j <= 255) ->
  hostcmp_loop n i a b r = 0
  <-> (forall j, (i <= j < i + n)%nat -> a j = b j) /\ r = 0.
Proof.
  intros Ha Hb. revert i. induction n as [|n IH]; intros i; cbn [hostcmp_loop].
  - split; [intros ->; split; [intros j Hj; lia | reflexivity] | by intros [_ ->]].
  - pose proof (Ha i). pose proof (Hb i).
    destruct (a i =? b i) eqn:E; cbn [negb].
    + apply Z.eqb_eq in E. rewrite IH. split; intros [Hj Hr]; (split; [|exact Hr]).
      * intros j Hij. destruct (decide (j = i)) as [->|Hne]; [exact E|].
        apply Hj. lia.
      * intros j Hij. apply Hj. lia.
    + apply Z.eqb_neq in E. rewrite int_id by lia. split.
      * intros Hz. lia.
      * intros [Hj _]. exfalso. apply E, Hj. lia.
Qed.

(** X16: the two ends of the handshake agree on the connection to keep.
    For two addresses that parse, with octets in 0..255 and ports in
    0..65535, [hostcmp] with the arguments exchanged gives the opposite
    number; so when one side keeps the connection it accepted, the other
    keeps the connection it made, which is the same one.  The result is
    0, and both sides give up, exactly when the four octets and the ports
    are equal. *)
Theorem hostcmp_antisymmetric
    (ipv4_address_to_array : string -> option (nat -> Z))
    (host1 host2 : string) (port1 port2 : Z) (a b : nat -> Z) :
  ipv4_address_to_array host1 = Some a ->
  ipv4_address_to_array host2 = Some b ->
  (forall j, 0 <= a j <= 255) -> (forall j, 0 <= b j <= 255) ->
  0 <= port1 <= 65535 -> 0 <= port2 <= 65535 ->
  let mine := hostcmp ipv4_address_to_array host1 port1 host2 port2 in
  let theirs := hostcmp ipv4_address_to_array host2 port2 host1 port1 in
  theirs = - mine
  /\ (keep mine = KeepAccepted <-> keep theirs = KeepConnected)
  /\ (keep mine = GiveUp <-> keep theirs = GiveUp)
  /\ (mine = 0 <-> (forall j, (j < 4)%nat -> a j = b j) /\ port1 = port2).
Proof.
  intros H1 H2 Ha Hb Hp1 Hp2 mine theirs.
  assert (Hopp : theirs = - mine).
  { subst mine theirs. unfold hostcmp. rewrite H1, H2.
    apply hostcmp_loop_opp; [assumption..|]. rewrite !int_id by lia. lia. }
  split; [exact Hopp|].
  assert (Hk : forall x, keep x = if 0 <? x then KeepAccepted
                                  else if x <? 0 then KeepConnected else GiveUp)
    by reflexivity.
  split; [|split].
  - rewrite !Hk, Hopp.
    destruct (0 <? mine) eqn:E1, (mine <? 0) eqn:E2,
             (0 <? - mine) eqn:E3, (- mine <? 0) eqn:E4;
      try apply Z.ltb_lt in E1; try apply Z.ltb_lt in E2;
      try apply Z.ltb_lt in E3; try apply Z.ltb_lt in E4;
      try apply Z.ltb_ge in E1; try apply Z.ltb_ge in E2;
      try apply Z.ltb_ge in E3; try apply Z.ltb_ge in E4;
      try lia; split; intros; (reflexivity || discriminate).
  - rewrite !Hk, Hopp.
    destruct (0 <? mine) eqn:E1, (mine <? 0) eqn:E2,
             (0 <? - mine) eqn:E3, (- mine <? 0) eqn:E4;
      try apply Z.ltb_lt in E1; try apply Z.ltb_lt in E2;
      try apply Z.ltb_lt in E3; try apply Z.ltb_lt in E4;
      try apply Z.ltb_ge in E1; try apply Z.ltb_ge in E2;
      try apply Z.ltb_ge in E3; try apply Z.ltb_ge in E4;
      try lia; split; intros; (reflexivity || discriminate).
  - subst mine. unfold hostcmp. rewrite H1, H2.
    rewrite hostcmp_loop_zero by assumption. rewrite int_id by lia.
    split; intros [Hj Hr]; (split; [|lia]); intros j Hij; apply Hj; lia.
Qed.

Lemma hostcmp_antisymmetric_witness :
  let a := fun i : nat => match i with O => 10 | 3%nat => 1 | _ => 0 end in
  let b := fun i : nat => match i with O => 10 | 3%nat => 2 | _ => 0 end in
  let parse := fun h : string =>
                 if String.eqb h "10.0.0.1" then Some a
                 else if String.eqb h "10.0.0.2" then Some b
                 else None in
  let mine := hostcmp parse "10.0.0.1" 7001 "10.0.0.2" 7000 in
  let theirs := hostcmp parse "10.0.0.2" 7000 "10.0.0.1" 7001 in
  theirs = - mine
  /\ (keep mine = KeepAccepted <-> keep theirs = KeepConnected)
  /\ (keep mine = GiveUp <-> keep theirs = GiveUp)
  /\ (mine = 0 <-> (forall j, (j < 4)%nat -> a j = b j) /\ 7001 = 7000).
Proof.
  intros a b parse.
  apply (hostcmp_antisymmetric parse "10.0.0.1" "10.0.0.2" 7001 7000 a b);
    try reflexivity; try lia.
  - intros [|[|[|[|j]]]]; cbn; lia.
  - intros [|[|[|[|j]]]]; cbn; lia.
Defined.

(** ** Flushing *)

(** X17: what [netpipe_flush] moves and reports.  With [n] the smaller
    of the buffered bytes and the credit, [0 < n < 2^31] (the count
    passes through the [int] of [do_flush]), and the channel delivering,
    it hands one WRITE of [n] bytes to the channel, within the credit,
    counts them in [remotesize], leaves the buffer [n] bytes shorter and
    broadcasts [wr].  It returns [n] when that emptied the buffer or the
    call is nonblocking. *)
Theorem netpipe_flush_counts
    (w : world) (p : string) (f : netpipe) (nonblock : bool) (c : positive) :
  open_files w !! p = Some f -> path f = p ->
  force_exit f = false -> readers f <> 0 ->
  credit_ok f -> 0 < cbuf_size (buffer f) < 2 ^ 63 ->
  0 < available_remote f ->
  replies w (sock_calls w) = Delivered c ->
  let n := Z.min (cbuf_size (buffer f)) (available_remote f) in
  n < 2 ^ 31 ->
  nonblock = true \/ n = cbuf_size (buffer f) ->
  exists w1 f1 data,
    netpipe_flush w p nonblock = Done w1 (Result n None)
    /\ open_files w1 !! p = Some f1
    /\ Z.of_nat (length data) = n
    /\ cbuf_size (buffer f1) = cbuf_size (buffer f) - n
    /\ remotesize f1 = remotesize f + n
    /\ remotesize f1 <= remotemax f1
    /\ trace w1 = trace w
                  ++ [EvSend (WRITE p data) (Delivered c)
                             (remotesize f) (remotemax f);
                      EvBroadcast p cv_wr].
Proof.
  intros Hf Hp Hfe Hrd Hc Hb Hav Hrep n Hint Hdone. subst p.
  apply Z.eqb_neq in Hrd.
  pose proof (available_remote_nonneg f) as Ha.
  pose proof (available_remote_ok f Hc) as Ha'.
  assert (Hn : 0 < n < 2 ^ 31) by lia.
  exists (store
            (set_remotesize
               (set_buffer f {| cb_capacity := cb_capacity (buffer f);
                                cb_data := drop (Z.to_nat n) (cb_data (buffer f)) |})
               (remotesize f + n))
            (pthread_cond_broadcast f cv_wr
               (emit (set_sock_calls w (S (sock_calls w)))
                  (EvSend (WRITE (path f) (take (Z.to_nat n) (cb_data (buffer f))))
                     (Delivered c) (remotesize f) (remotemax f))))).
  eexists. exists (take (Z.to_nat n) (cb_data (buffer f))). split.
  { unfold netpipe_flush, with_file. rewrite Hf, Hfe, Hrd. crunch.
    rewrite (do_flush_delivered f w c) by (assumption || lia). fold n.
    change (1 <=? 0) with false. crunch. rewrite ssize_t_id by lia.
    fields.
    match goal with |- context [cbuf_size ?b =? 0] =>
      assert (Hleft : nonblock = true \/ (cbuf_size b =? 0) = true) end.
    { destruct Hdone as [-> | Hall]; [by left | right].
      apply Z.eqb_eq. unfold cbuf_size in *. fields. rewrite length_drop. lia. }
    replace (n =? 0) with false by (symmetry; apply Z.eqb_neq; lia).
    destruct Hleft as [-> | ->]; [|reflexivity].
    destruct (cbuf_size _ =? 0); reflexivity. }
  unfold pthread_cond_broadcast. fields. rewrite lookup_insert_eq.
  split; [reflexivity|]. fields.
  split; [rewrite length_take; unfold cbuf_size in *; lia|].
  split; [unfold cbuf_size in *; fields; rewrite length_drop; lia|].
  split; [reflexivity|]. split; [lia|].
  by rewrite <- app_assoc.
Qed.

Lemma netpipe_flush_counts_witness :
  let f := set_remotesize
             (set_buffer (set_writers (set_readers (a_pipe "/p") 1) 1)
                {| cb_capacity := 16; cb_data := [x01; x02; x03] |}) 14 in
  let w := store f quiet_world in
  exists w1 f1 data,
    netpipe_flush w "/p" true = Done w1 (Result 2 None)
    /\ open_files w1 !! "/p" = Some f1
    /\ Z.of_nat (length data) = 2
    /\ cbuf_size (buffer f1) = 3 - 2
    /\ remotesize f1 = 14 + 2
    /\ remotesize f1 <= remotemax f1
    /\ trace w1 = trace w
                  ++ [EvSend (WRITE "/p" data) (Delivered 1) 14 16;
                      EvBroadcast "/p" cv_wr].
Proof.
  intros f w.
  apply (netpipe_flush_counts w "/p" f true 1%positive);
    try reflexivity; try (vm_compute; intuition discriminate).
Defined.

(** ** The credit cycle *)

Lemma set_wr_req_same (f : netpipe) : set_wr_req f (wr_req f) = f.
Proof. by destruct f. Qed.

(** [send_data] with nothing to send. *)
Lemma send_data_idle (f : netpipe) (w : world) :
  cbuf_size (buffer f) = 0 -> wr_req f = [] ->
  send_data f w = Some (ExitReturn 0 None f w).
Proof.
  intros Hb Hwq. unfold send_data. rewrite do_flush_empty by assumption.
  change (1 <=? 0) with false. change (0 <? 0) with false. crunch.
  rewrite Hwq.
  rewrite while_skip
    by (unfold send_requests_cond; cbn [ss_req]; apply andb_false_r).
  cbn [ss_req ss_datasent ss_file ss_world length].
  rewrite while_skip by reflexivity.
  cbn [ss_req ss_datasent ss_file ss_world].
  change (0 <? 0) with false. crunch.
  rewrite <- Hwq at 1 2. by rewrite !set_wr_req_same.
Qed.

(** X18: one cycle of the flow control leaves the credit as it was.  On a
    pipe with an empty buffer and no pending write, READ-REQUEST for [n]
    bytes raises [remotemax] by [n] and sends nothing; a [netpipe_send] of
    [n] bytes then goes out in one WRITE; and the READ for [n] bytes that
    acknowledges them lowers [remotemax] and [remotesize] by [n].  The pipe
    is then exactly as before the cycle, and the only message sent is the
    WRITE.  [n] is below [2^31]: [do_send] holds the count of the WRITE
    in an [int]. *)
Theorem credit_cycle
    (w : world) (p : string) (f : netpipe) (buf : list byte) (n : Z)
    (nonblock : bool) (c : positive) :
  open_files w !! p = Some f -> path f = p ->
  force_exit f = false -> readers f <> 0 ->
  credit_ok f -> cbuf_size (buffer f) = 0 -> wr_req f = [] ->
  0 < n < 2 ^ 31 -> remotemax f + n < 2 ^ 64 ->
  replies w (sock_calls w) = Delivered c ->
  exists w1 w2 w3,
    netpipe_read_request w p n = Done w1 (Result 0 None)
    /\ trace w1 = trace w
    /\ netpipe_send w1 p buf n nonblock = Done w2 (Result n None)
    /\ netpipe_read_update w2 p n = Done w3 (Result 0 None)
    /\ open_files w3 = open_files w
    /\ requests w3 = requests w
    /\ trace w3 = trace w ++ [EvSend (WRITE p (mem_read buf n)) (Delivered c)
                                     (remotesize f) (remotemax f + n)].
Proof.
  intros Hf Hp Hfe Hrd Hc Hb Hwq Hn Hmax Hrep. subst p.
  pose proof Hc as (H0 & H1 & H2).
  set (f1 := set_remotemax f (remotemax f + n)).
  set (w1 := store f1 w).
  set (f2 := set_remotesize f1 (remotesize f1 + n)).
  set (w2 := store f2 (emit (set_sock_calls w1 (S (sock_calls w1)))
                         (EvSend (WRITE (path f) (mem_read buf n)) (Delivered c)
                                 (remotesize f1) (remotemax f1)))).
  exists w1, w2. eexists. split.
  { unfold netpipe_read_request, with_file. rewrite Hf.
    rewrite size_t_id by lia. fold f1.
    rewrite send_data_idle by assumption. reflexivity. }
  split; [reflexivity|]. split.
  { assert (Hc1 : credit_ok f1) by (subst f1; unfold credit_ok; fields; lia).
    assert (Hav1 : available_remote f1 = remotemax f + n - remotesize f).
    { rewrite (available_remote_ok f1 Hc1). reflexivity. }
    unfold netpipe_send, with_file.
    replace (open_files w1 !! path f) with (Some f1)
      by (subst w1; unfold store; fields; by rewrite lookup_insert_eq).
    replace (force_exit f1) with false by (by rewrite <- Hfe).
    replace (readers f1 =? 0) with false
      by (symmetry; apply Z.eqb_neq; exact Hrd).
    rewrite do_flush_empty by assumption. crunch.
    change (1 <=? 0) with false. change (0 <? 0) with false. crunch.
    replace (0 <? available_remote f1) with true
      by (symmetry; apply Z.ltb_lt; lia).
    replace (cbuf_empty (buffer f1)) with true
      by (symmetry; apply Z.eqb_eq; exact Hb).
    crunch.
    rewrite (do_send_delivered f1 w1 buf n c) by (assumption || lia).
    rewrite Z.min_l by lia. crunch. change (1 <=? 0) with false. crunch.
    replace (0 + n) with n by lia. rewrite size_t_id by lia.
    rewrite Z.eqb_refl. rewrite ssize_t_id by lia. reflexivity. }
  split.
  { unfold netpipe_read_update, with_file.
    replace (open_files w2 !! path f) with (Some f2)
      by (subst w2; unfold store; fields; by rewrite lookup_insert_eq).
    subst f2 f1. fields.
    replace (remotemax f + n - n) with (remotemax f) by lia.
    replace (remotesize f + n - n) with (remotesize f) by lia.
    rewrite !size_t_id by lia.
    rewrite send_data_idle by assumption. cbn [after_send_data].
    change (int 0) with 0. change (0 <? 0) with false. crunch. reflexivity. }
  replace (set_remotesize (set_remotemax _ _) _) with f by (by destruct f).
  subst w2 w1 f2 f1. unfold store. fields.
  rewrite !insert_insert_eq. rewrite insert_id by assumption.
  repeat split; reflexivity.
Qed.

Lemma credit_cycle_witness :
  let f := set_remotesize (set_readers (a_pipe "/p") 1) 16 in
  let w := store f quiet_world in
  exists w1 w2 w3,
    netpipe_read_request w "/p" 2 = Done w1 (Result 0 None)
    /\ trace w1 = trace w
    /\ netpipe_send w1 "/p" [x0a; x0b] 2 false = Done w2 (Result 2 None)
    /\ netpipe_read_update w2 "/p" 2 = Done w3 (Result 0 None)
    /\ open_files w3 = open_files w
    /\ requests w3 = requests w
    /\ trace w3 = trace w ++ [EvSend (WRITE "/p" (mem_read [x0a; x0b] 2))
                                     (Delivered 1)
                                     (remotesize f) (remotemax f + 2)].
Proof.
  intros f w.
  apply (credit_cycle w "/p" f [x0a; x0b] 2 false 1%positive);
    try reflexivity; try (vm_compute; intuition discriminate).
Defined.

(** ** A request freed while it is still linked *)

(** X19: a blocking [netpipe_read] whose READ-REQUEST is not delivered
    frees its request but leaves it linked at the head of the pipe's list
    of read requests.  It returns what [send_read_request_message]
    returned, 0 when the connection was lost, which is also what the end
    of the stream returns.  The next [netpipe_recv] that brings data for
    the pipe follows the list to the freed request: in the model the
    request is no longer in the store and the call faults. *)
Theorem netpipe_read_leaves_freed_request
    (w : world) (p : string) (f : netpipe) (size : Z) :
  open_files w !! p = Some f -> path f = p ->
  force_exit f = false -> writers f <> 0 ->
  cbuf_size (buffer f) = 0 -> 0 < size < 2 ^ 63 ->
  (forall c, replies w (sock_calls w) <> Delivered c) ->
  exists w1 f1,
    netpipe_read w p size false
    = Done w1 (Result (match replies w (sock_calls w) with
                       | Failed _ => -1 | _ => 0 end, [])
                      (match replies w (sock_calls w) with
                       | Failed e => Some e | _ => None end))
    /\ open_files w1 !! p = Some f1
    /\ rd_req f1 = next_request w :: rd_req f
    /\ requests w1 !! next_request w = None
    /\ forall wakeup n data,
         0 < n ->
         netpipe_recv wakeup (set_inbound w1 data) p n = Fault.
Proof.
  intros Hf Hp Hfe Hwr Hb Hsize Hrep. subst p. apply Z.eqb_neq in Hwr.
  assert (Hne : (0 =? size) = false) by (apply Z.eqb_neq; lia).
  destruct (replies w (sock_calls w)) as [c| |e] eqn:E; [by destruct (Hrep c)| |].
  - do 2 eexists. split.
    { unfold netpipe_read, with_file. rewrite Hf, Hfe.
      rewrite do_buffered_read_empty by (assumption || lia). crunch.
      change (1 <=? 0) with false. crunch. rewrite Hne, Hwr.
      replace (size - 0) with size by lia. rewrite (size_t_id size) by lia.
      unfold netpipe_add_request. change (O_RDONLY =? O_RDONLY) with true.
      crunch. unfold send_read_request_message, sock_send. fields.
      rewrite E. crunch. reflexivity. }
    fields. rewrite lookup_insert_eq. split; [reflexivity|]. fields.
    split; [reflexivity|]. split; [by rewrite lookup_delete_eq|].
    intros wakeup n data Hn.
    unfold netpipe_recv, with_file. fields. rewrite lookup_insert_eq. fields.
    rewrite while_skip
      by (unfold recv_buffered_cond; cbn [rs_req rs_file]; fields;
          unfold cbuf_empty; rewrite Hb; reflexivity).
    cbn [rs_req rs_wakeup rs_remaining rs_file rs_world length].
    cbn [while]. unfold recv_socket_cond at 1.
    cbn [rs_req rs_wakeup rs_remaining rs_file rs_world]. fields.
    unfold cbuf_empty at 1. rewrite Hb. change (0 =? 0) with true.
    replace (0 <? n) with true by (symmetry; apply Z.ltb_lt; lia). crunch.
    unfold recv_socket_body at 1.
    cbn [rs_req rs_wakeup rs_remaining rs_file rs_world]. fields.
    rewrite lookup_delete_eq. reflexivity.
  - do 2 eexists. split.
    { unfold netpipe_read, with_file. rewrite Hf, Hfe.
      rewrite do_buffered_read_empty by (assumption || lia). crunch.
      change (1 <=? 0) with false. crunch. rewrite Hne, Hwr.
      replace (size - 0) with size by lia. rewrite (size_t_id size) by lia.
      unfold netpipe_add_request. change (O_RDONLY =? O_RDONLY) with true.
      crunch. unfold send_read_request_message, sock_send. fields.
      rewrite E. crunch. reflexivity. }
    fields. rewrite lookup_insert_eq. split; [reflexivity|]. fields.
    split; [reflexivity|]. split; [by rewrite lookup_delete_eq|].
    intros wakeup n data Hn.
    unfold netpipe_recv, with_file. fields. rewrite lookup_insert_eq. fields.
    rewrite while_skip
      by (unfold recv_buffered_cond; cbn [rs_req rs_file]; fields;
          unfold cbuf_empty; rewrite Hb; reflexivity).
    cbn [rs_req rs_wakeup rs_remaining rs_file rs_world length].
    cbn [while]. unfold recv_socket_cond at 1.
    cbn [rs_req rs_wakeup rs_remaining rs_file rs_world]. fields.
    unfold cbuf_empty at 1. rewrite Hb. change (0 =? 0) with true.
    replace (0 <? n) with true by (symmetry; apply Z.ltb_lt; lia). crunch.
    unfold recv_socket_body at 1.
    cbn [rs_req rs_wakeup rs_remaining rs_file rs_world]. fields.
    rewrite lookup_delete_eq. reflexivity.
Qed.

Lemma netpipe_read_leaves_freed_request_witness :
  let f := set_writers (a_pipe "/p") 1 in
  let w := store f {| open_files := ∅; requests := ∅; next_request := 0;
                      replies := fun _ => Lost; sock_calls := 0; inbound := [];
                      trace := []; pipecapacity := 16;
                      remotepipecapacity := 16;
                      fresh_memory := fun _ => [] |} in
  exists w1 f1,
    netpipe_read w "/p" 4 false = Done w1 (Result (0, []) None)
    /\ open_files w1 !! "/p" = Some f1
    /\ rd_req f1 = next_request w :: rd_req f
    /\ requests w1 !! next_request w = None
    /\ forall wakeup n data,
         0 < n ->
         netpipe_recv wakeup (set_inbound w1 data) "/p" n = Fault.
Proof.
  intros f w.
  apply (netpipe_read_leaves_freed_request w "/p" f 4);
    try reflexivity; try discriminate; try (vm_compute; intuition discriminate).
Defined.

(** X21: after a direct send cut short by the credit ([0 < credit <
    size]) the writeahead of [netpipe_send] still copies [size] bytes when
    the buffer has room for them, which leaves [sent = credit + size].  In
    blocking mode this is not [size]: the call queues a request for
    [size - sent] bytes, a [size_t] that wraps to [2^64 - credit], taken
    from behind the caller's data, and goes to sleep on [wr] although
    every byte it was given has been sent or buffered.  The credit is
    below [2^31]: [do_send] holds the count of the WRITE in an [int]. *)
Theorem netpipe_send_writeahead_sleeps
    (w : world) (p : string) (f : netpipe) (buf : list byte) (size : Z)
    (c : positive) :
  open_files w !! p = Some f -> path f = p ->
  force_exit f = false -> readers f <> 0 ->
  credit_ok f -> cbuf_size (buffer f) = 0 ->
  0 < available_remote f < size -> available_remote f < 2 ^ 31 ->
  size < 2 ^ 62 ->
  size <= cbuf_free (buffer f) ->
  replies w (sock_calls w) = Delivered c ->
  let credit := available_remote f in
  exists w1 waiting k,
    netpipe_send w p buf size false = Wait w1 p (Some cv_wr) waiting k
    /\ waiting w1 = true
    /\ requests w1 !! next_request w
       = Some {| req_buf := mem_advance (mem_advance buf credit) size;
                 req_bytes_processed := 0;
                 req_size := 2 ^ 64 - credit;
                 req_error := 0 |}
    /\ exists f1, open_files w1 !! p = Some f1
                  /\ wr_req f1 = next_request w :: wr_req f
                  /\ cb_data (buffer f1)
                     = cb_data (buffer f)
                       ++ mem_read (mem_advance buf credit) size.
Proof.
  intros Hf Hp Hfe Hrd Hc Hb Hav Hint Hsize Hroom Hrep credit. subst p.
  apply Z.eqb_neq in Hrd.
  assert (Hwrap : size_t (size - (credit + size)) = 2 ^ 64 - credit).
  { unfold size_t. replace (size - (credit + size)) with (- credit) by lia.
    subst credit. rewrite Z_mod_nz_opp_full; rewrite Z.mod_small; lia. }
  do 3 eexists. split.
  { unfold netpipe_send, with_file. rewrite Hf, Hfe, Hrd.
    rewrite do_flush_empty by assumption. crunch.
    change (1 <=? 0) with false. change (0 <? 0) with false. crunch.
    replace (0 <? available_remote f) with true
      by (symmetry; apply Z.ltb_lt; lia).
    unfold cbuf_empty. rewrite Hb. change (0 =? 0) with true. crunch.
    rewrite (do_send_delivered f w buf size c) by (assumption || lia).
    rewrite Z.min_r by lia. fold credit. crunch.
    change (1 <=? 0) with false. crunch.
    replace (0 + credit) with credit by lia.
    rewrite (size_t_id credit) by (subst credit; lia).
    replace (credit =? size) with false
      by (symmetry; apply Z.eqb_neq; subst credit; lia).
    unfold cbuf_put. fields. unfold cbuf_free in *. unfold cbuf_size in *. fields.
    rewrite Z.min_l by lia. crunch.
    rewrite (size_t_id (credit + size)) by (subst credit; lia).
    replace (credit + size =? size) with false
      by (symmetry; apply Z.eqb_neq; subst credit; lia).
    rewrite Hwrap.
    unfold netpipe_add_request. change (O_WRONLY =? O_RDONLY) with false.
    crunch. unfold wait_while, request_pending. fields.
    rewrite lookup_insert_eq. fields. rewrite Hfe.
    replace (0 =? 2 ^ 64 - credit) with false
      by (symmetry; apply Z.eqb_neq; subst credit; lia).
    crunch. change (0 =? 0) with true. crunch. reflexivity. }
  fields. rewrite !lookup_insert_eq. fields. rewrite Hfe.
  replace (0 =? 2 ^ 64 - credit) with false
    by (symmetry; apply Z.eqb_neq; subst credit; lia).
  split; [reflexivity|]. split; [reflexivity|].
  eexists. split; [reflexivity|]. fields. split; reflexivity.
Qed.

Lemma netpipe_send_writeahead_sleeps_witness :
  let f := set_remotesize (set_readers (a_pipe "/p") 1) 12 in
  let w := store f quiet_world in
  let buf := [x01; x02; x03; x04; x05; x06; x07; x08] in
  exists w1 waiting k,
    netpipe_send w "/p" buf 8 false = Wait w1 "/p" (Some cv_wr) waiting k
    /\ waiting w1 = true
    /\ requests w1 !! next_request w
       = Some {| req_buf := mem_advance (mem_advance buf 4) 8;
                 req_bytes_processed := 0;
                 req_size := 2 ^ 64 - 4;
                 req_error := 0 |}
    /\ exists f1, open_files w1 !! "/p" = Some f1
                  /\ wr_req f1 = next_request w :: wr_req f
                  /\ cb_data (buffer f1)
                     = cb_data (buffer f) ++ mem_read (mem_advance buf 4) 8.
Proof.
  intros f w buf.
  apply (netpipe_send_writeahead_sleeps w "/p" f buf 8 1%positive);
    try reflexivity; try discriminate; try (vm_compute; intuition discriminate).
Defined.
